(** * KC868-A16 relay controller (MicroPython): a shallow embedding of main.py

    The program keeps four PCF8574 I/O-expander mirrors (two input chips,
    two output chips) on one I2C bus, serves a control request and a state
    query over HTTP, and runs a key-scanning task.  Python objects live in a
    store ([World]); methods are written in a state-and-exception monad over
    that store; the bus and the sensor pins are an oracle ([Hardware])
    indexed by a transaction counter. *)

From Stdlib Require Import ZArith List String Ascii Bool Lia DecimalString.
Import ListNotations.
Local Open Scope string_scope.
Local Open Scope list_scope.
Local Open Scope Z_scope.

(** ** Hardware configuration (main.py, lines 8-18) *)

Definition PIN_I2C_SDA : Z := 4.
Definition PIN_I2C_SCL : Z := 5.

Definition ADDR_INPUTS_1_8 : Z := 0x22.
Definition ADDR_INPUTS_9_16 : Z := 0x21.
Definition ADDR_OUTPUTS_1_8 : Z := 0x24.
Definition ADDR_OUTPUTS_9_16 : Z := 0x25.

Definition PIN_HT1 : Z := 32.
Definition PIN_HT2 : Z := 33.
Definition PIN_HT3 : Z := 14.

(** ** The outside world

    Every access to the bus or to a sensor pin is one tick of [clock]; the
    oracle says what the hardware answers at that tick.  [None] and [false]
    stand for the OSError MicroPython raises on a failed transaction. *)

Record Hardware : Type := mkHardware {
  hw_scan     : nat -> option (list Z);      (* I2C.scan()                     *)
  hw_readfrom : nat -> Z -> option Byte.byte; (* I2C.readfrom(addr, 1)          *)
  hw_writeto  : nat -> Z -> Z -> bool;       (* I2C.writeto(addr, bytes([v]))  *)
  hw_pin      : nat -> Z -> bool             (* Pin.value(): true is level 1   *)
}.

(** ** Python values the model needs *)

Inductive exn : Type :=
| OSError
| ValueError   (* negative shift count, bytes([v]) out of range, bad dict item *)
| TypeError    (* None ^ int *)
| KeyError     (* missing dict key *)
| IndexError.  (* list index out of range *)

Inductive result (A : Type) : Type :=
| Ok (a : A)
| Raise (e : exn).
Arguments Ok {A} a.
Arguments Raise {A} e.

(** The four global PCF8574 instances (lines 201-204) are the only objects
    of that class; a reference to one of them is a [dev]. *)
Inductive dev : Type :=
| pcf_inputs_1_8
| pcf_inputs_9_16
| pcf_outputs_1_8
| pcf_outputs_9_16.

Definition dev_eqb (a b : dev) : bool :=
  match a, b with
  | pcf_inputs_1_8, pcf_inputs_1_8
  | pcf_inputs_9_16, pcf_inputs_9_16
  | pcf_outputs_1_8, pcf_outputs_1_8
  | pcf_outputs_9_16, pcf_outputs_9_16 => true
  | _, _ => false
  end.

(** The attributes of a PCF8574 object (lines 23-26); [i2c] is the one
    global bus and is not stored. *)
Record PCF8574 : Type := mkPCF {
  address  : Z;
  value    : Z;
  is_valid : bool
}.

(** What the program prints, one constructor per [print] call site. *)
Inductive line : Type :=
| Log_not_found (addr : Z)                           (* line 31  *)
| Log_write_error (addr : Z)                         (* line 55  *)
| Log_all_set (state : string)                       (* line 305 *)
| Log_relay_set (relay_id state : string)            (* line 310 *)
| Log_error_parsing (e : exn)                        (* line 316 *)
| Log_starting_scan                                  (* line 379 *)
| Log_triggered (i addr : Z) (relay_id : string) (new_relay_state : bool) (* line 405 *)
| Log_error_scan (e : exn).                          (* line 408 *)

(** A Python dict, in insertion order. *)
Definition dict (K V : Type) : Type := list (K * V).

Section Dict.
Context {K V : Type} (eqb : K -> K -> bool).

Fixpoint dict_get (d : dict K V) (k : K) : option V :=
  match d with
  | [] => None
  | (k', v) :: d' => if eqb k k' then Some v else dict_get d' k
  end.

(** [d[k] = v]: overwrite in place, or append a new key. *)
Fixpoint dict_set (d : dict K V) (k : K) (v : V) : dict K V :=
  match d with
  | [] => [(k, v)]
  | (k', v') :: d' =>
      if eqb k k' then (k', v) :: d' else (k', v') :: dict_set d' k v
  end.

Definition dict_mem (d : dict K V) (k : K) : bool :=
  match dict_get d k with Some _ => true | None => false end.

Definition keys (d : dict K V) : list K := map fst d.
End Dict.

(** The store: the four device objects, the scan task's local [prev_state]
    (address to last snapshot; a snapshot is None when the first read
    failed), the console, and the transaction counter. *)
Record World : Type := mkWorld {
  inputs_1_8   : PCF8574;
  inputs_9_16  : PCF8574;
  outputs_1_8  : PCF8574;
  outputs_9_16 : PCF8574;
  prev_state   : dict Z (option Z);
  stdout       : list line;
  clock        : nat
}.

Definition obj (w : World) (d : dev) : PCF8574 :=
  match d with
  | pcf_inputs_1_8 => inputs_1_8 w
  | pcf_inputs_9_16 => inputs_9_16 w
  | pcf_outputs_1_8 => outputs_1_8 w
  | pcf_outputs_9_16 => outputs_9_16 w
  end.

Definition set_obj (d : dev) (o : PCF8574) (w : World) : World :=
  match d with
  | pcf_inputs_1_8 =>
      mkWorld o (inputs_9_16 w) (outputs_1_8 w) (outputs_9_16 w)
              (prev_state w) (stdout w) (clock w)
  | pcf_inputs_9_16 =>
      mkWorld (inputs_1_8 w) o (outputs_1_8 w) (outputs_9_16 w)
              (prev_state w) (stdout w) (clock w)
  | pcf_outputs_1_8 =>
      mkWorld (inputs_1_8 w) (inputs_9_16 w) o (outputs_9_16 w)
              (prev_state w) (stdout w) (clock w)
  | pcf_outputs_9_16 =>
      mkWorld (inputs_1_8 w) (inputs_9_16 w) (outputs_1_8 w) o
              (prev_state w) (stdout w) (clock w)
  end.

Definition set_prev (p : dict Z (option Z)) (w : World) : World :=
  mkWorld (inputs_1_8 w) (inputs_9_16 w) (outputs_1_8 w) (outputs_9_16 w)
          p (stdout w) (clock w).

Definition add_line (l : line) (w : World) : World :=
  mkWorld (inputs_1_8 w) (inputs_9_16 w) (outputs_1_8 w) (outputs_9_16 w)
          (prev_state w) (stdout w ++ [l]) (clock w).

Definition tick (w : World) : World :=
  mkWorld (inputs_1_8 w) (inputs_9_16 w) (outputs_1_8 w) (outputs_9_16 w)
          (prev_state w) (stdout w) (S (clock w)).

(** ** The monad: state passing with Python exceptions

    A raised exception keeps the store as it was at the raise. *)

Definition M (A : Type) : Type := World -> result A * World.

Definition ret {A} (a : A) : M A := fun w => (Ok a, w).

Definition bind {A B} (m : M A) (f : A -> M B) : M B :=
  fun w => match m w with
           | (Ok a, w') => f a w'
           | (Raise e, w') => (Raise e, w')
           end.

Definition raise {A} (e : exn) : M A := fun w => (Raise e, w).

Notation "x <- m ;; k" := (bind m (fun x => k))
  (at level 61, m at next level, right associativity).
Notation "m ;;; k" := (bind m (fun _ => k))
  (at level 61, right associativity).

(** [try: body / except OSError: handler] *)
Definition try_except_OSError {A} (body : M A) (handler : M A) : M A :=
  fun w => match body w with
           | (Raise OSError, w') => handler w'
           | r => r
           end.

(** [try: body / except Exception as e: handler e] *)
Definition try_except {A} (body : M A) (handler : exn -> M A) : M A :=
  fun w => match body w with
           | (Raise e, w') => handler e w'
           | r => r
           end.

(** A loop that updates a local variable: [for x in xs: s = body s x] *)
Fixpoint fold_for {A S} (xs : list A) (s : S) (body : S -> A -> M S) : M S :=
  match xs with
  | [] => ret s
  | x :: xs' => s' <- body s x ;; fold_for xs' s' body
  end.

(** [for x in xs: body x] *)
Fixpoint for_each {A} (xs : list A) (body : A -> M unit) : M unit :=
  match xs with
  | [] => ret tt
  | x :: xs' => body x ;;; for_each xs' body
  end.

Definition get_obj (d : dev) : M PCF8574 := fun w => (Ok (obj w d), w).

Definition set_value (d : dev) (v : Z) : M unit :=
  fun w => (Ok tt, set_obj d (mkPCF (address (obj w d)) v (is_valid (obj w d))) w).

Definition set_is_valid (d : dev) (b : bool) : M unit :=
  fun w => (Ok tt, set_obj d (mkPCF (address (obj w d)) (value (obj w d)) b) w).

Definition print (l : line) : M unit := fun w => (Ok tt, add_line l w).

(** [1 << n]: Python raises ValueError on a negative shift count. *)
Definition shl1 (n : Z) : M Z :=
  if n <? 0 then raise ValueError else ret (Z.shiftl 1 n).

(** [bool(x)] on an int. *)
Definition truthy (x : Z) : bool := negb (x =? 0).

(** [range(n)] *)
Definition range (n : nat) : list Z := map Z.of_nat (seq 0 n).

(** [str(n)] on an int. *)
Definition str (n : Z) : string := NilZero.string_of_int (Z.to_int n).

(** [f"{n:02d}"]: decimal, zero-padded to two characters. *)
Definition fmt_02d (n : Z) : string :=
  if (0 <=? n) && (n <? 10) then ("0" ++ str n)%string else str n.

Section Program.
Variable hw : Hardware.

(** *** Bus and pin primitives *)

Definition i2c_scan : M (list Z) :=
  fun w => match hw_scan hw (clock w) with
           | Some l => (Ok l, tick w)
           | None => (Raise OSError, tick w)
           end.

(** [i2c.readfrom(addr, 1)[0]] *)
Definition i2c_readfrom (addr : Z) : M Z :=
  fun w => match hw_readfrom hw (clock w) addr with
           | Some b => (Ok (Z.of_N (Byte.to_N b)), tick w)
           | None => (Raise OSError, tick w)
           end.

(** [i2c.writeto(addr, bytes([v]))]; [bytes([v])] is evaluated first and
    raises ValueError unless [0 <= v < 256]. *)
Definition i2c_writeto (addr v : Z) : M unit :=
  fun w => if (0 <=? v) && (v <? 256)
           then if hw_writeto hw (clock w) addr v
                then (Ok tt, tick w)
                else (Raise OSError, tick w)
           else (Raise ValueError, w).

(** [Pin.value()] *)
Definition pin_value (pin : Z) : M Z :=
  fun w => (Ok (Z.b2z (hw_pin hw (clock w) pin)), tick w).

(** *** class PCF8574 (lines 21-63) *)

(** [__init__], on the fresh object [self]. *)
Definition PCF8574_init (self : dev) (addr : Z) : M unit :=
  (fun w => (Ok tt, set_obj self (mkPCF addr 0xFF true) w)) ;;;
  try_except_OSError
    (i2c_scan ;;; ret tt)
    (print (Log_not_found addr) ;;; set_is_valid self false).

Definition read_all (self : dev) : M (option Z) :=
  o <- get_obj self ;;
  if negb (is_valid o) then ret None
  else
    try_except_OSError
      (b <- i2c_readfrom (address o) ;;
       set_value self b ;;;
       o' <- get_obj self ;;
       ret (Some (value o')))
      (ret None).

Definition read_pin (self : dev) (pin_number : Z) : M bool :=
  o <- get_obj self ;;
  if negb (is_valid o) then ret false
  else
    r <- read_all self ;;
    match r with
    | Some _ =>
        o' <- get_obj self ;;
        m <- shl1 pin_number ;;
        ret (negb (truthy (Z.land (value o') m)))
    | None => ret false
    end.

Definition write_all (self : dev) (v : Z) : M unit :=
  o <- get_obj self ;;
  if negb (is_valid o) then ret tt
  else
    try_except_OSError
      (i2c_writeto (address o) v ;;;
       set_value self v)
      (print (Log_write_error (address o))).

Definition write_pin (self : dev) (pin_number : Z) (state : bool) : M unit :=
  o <- get_obj self ;;
  if negb (is_valid o) then ret tt
  else
    m <- shl1 pin_number ;;
    (if negb state
     then set_value self (Z.land (value o) (Z.lnot m))
     else set_value self (Z.lor (value o) m)) ;;;
    o' <- get_obj self ;;
    write_all self (value o').


(** *** Hardware instances and the registry (lines 195-218) *)

Definition module_init : M unit :=
  PCF8574_init pcf_inputs_1_8 ADDR_INPUTS_1_8 ;;;
  PCF8574_init pcf_inputs_9_16 ADDR_INPUTS_9_16 ;;;
  PCF8574_init pcf_outputs_1_8 ADDR_OUTPUTS_1_8 ;;;
  PCF8574_init pcf_outputs_9_16 ADDR_OUTPUTS_9_16.

End Program.

(** [dict(pairs)], a dict comprehension, and [d.update(pairs)]. *)
Definition dict_update {K V} (eqb : K -> K -> bool)
    (d : dict K V) (kvs : list (K * V)) : dict K V :=
  fold_left (fun acc kv => dict_set eqb acc (fst kv) (snd kv)) kvs d.

(** Map relay numbers to their PCF and pin number (lines 207-212). *)
Definition outputs_map : dict string (dev * Z) :=
  dict_update String.eqb
    (dict_update String.eqb []
       (map (fun i => (str (i + 1), (pcf_outputs_1_8, i))) (range 8)))
    (map (fun i => (str (i + 9), (pcf_outputs_9_16, i))) (range 8)).

(** Map input PCF pins to output names (lines 215-218).  The keys are the
    [address] attributes of the two input objects, which [__init__] set to
    the two constants and nothing changes afterwards. *)
Definition input_to_output_map : dict Z (dict Z string) :=
  [ (ADDR_INPUTS_1_8,
     dict_update Z.eqb [] (map (fun i => (i, str (i + 1))) (range 8)));
    (ADDR_INPUTS_9_16,
     dict_update Z.eqb [] (map (fun i => (i, str (i + 9))) (range 8))) ].

(** [d[k]], raising KeyError. *)
Definition subscript {K V} (eqb : K -> K -> bool) (d : dict K V) (k : K) : M V :=
  match dict_get eqb d k with
  | Some v => ret v
  | None => raise KeyError
  end.

(** ** Strings of the request line *)

(** [s.split(sep)] for a one-character separator. *)
Fixpoint split (sep : ascii) (s : string) : list string :=
  match s with
  | EmptyString => [EmptyString]
  | String c s' =>
      if Ascii.eqb c sep then EmptyString :: split sep s'
      else match split sep s' with
           | h :: t => String c h :: t
           | [] => [String c EmptyString]
           end
  end.

(** [c in s] for a one-character [c]. *)
Fixpoint contains (c : ascii) (s : string) : bool :=
  match s with
  | EmptyString => false
  | String c' s' => Ascii.eqb c c' || contains c s'
  end.

(** [l[i]], raising IndexError. *)
Definition index {A} (l : list A) (i : nat) : M A :=
  match nth_error l i with
  | Some a => ret a
  | None => raise IndexError
  end.

(** [dict(items)] where every item must be a sequence of length two
    (line 295); later keys overwrite earlier ones. *)
Fixpoint dict_of_items (items : list (list string)) (acc : dict string string)
  : M (dict string string) :=
  match items with
  | [] => ret acc
  | [k; v] :: rest => dict_of_items rest (dict_set String.eqb acc k v)
  | _ :: _ => raise ValueError
  end.

(** [x in ["on", "off"]] where [x] may be None. *)
Definition is_on_off (state : option string) : bool :=
  match state with
  | Some s => String.eqb s "on" || String.eqb s "off"
  | None => false
  end.

Definition opt_eqb (a : option string) (b : string) : bool :=
  match a with
  | Some s => String.eqb s b
  | None => false
  end.

Definition opt_mem {V} (a : option string) (d : dict string V) : bool :=
  match a with
  | Some s => dict_mem String.eqb d s
  | None => false
  end.

(** The string of a parameter that the guard has shown to be present. *)
Definition or_empty (a : option string) : string :=
  match a with Some s => s | None => "" end.

(** What a handler writes to the connection: status line, content type and
    body, one constructor per combination in the source. *)
Inductive response : Type :=
| Resp_OK                                   (* 200 text/plain "OK"        *)
| Resp_Error (e : exn)                      (* 500 text/plain "Error: e"  *)
| Resp_html                                 (* 200 text/html HTML_PAGE    *)
| Resp_json (relays : dict string string) (inputs : dict string bool)
                                            (* 200 application/json       *)
| Resp_not_found.                           (* 404 text/plain             *)

Definition status (r : response) : Z :=
  match r with
  | Resp_OK | Resp_html | Resp_json _ _ => 200
  | Resp_Error _ => 500
  | Resp_not_found => 404
  end.

Section Handlers.
Variable hw : Hardware.

(** *** index_handler (lines 288-333) *)

(** Lines 297-310: the control request once [params] is parsed. *)
Definition apply_control (relay_id state : option string) : M unit :=
  if opt_eqb relay_id "all" && is_on_off state then
    let state_value := opt_eqb state "on" in
    for_each (keys outputs_map) (fun relay_num =>
      pp <- subscript String.eqb outputs_map relay_num ;;
      write_pin hw (fst pp) (snd pp) state_value) ;;;
    print (Log_all_set (or_empty state))
  else if opt_mem relay_id outputs_map && is_on_off state then
    let state_value := opt_eqb state "on" in
    pp <- subscript String.eqb outputs_map (or_empty relay_id) ;;
    write_pin hw (fst pp) (snd pp) state_value ;;;
    print (Log_relay_set (or_empty relay_id) (or_empty state))
  else ret tt.

(** Lines 297-314: from the parsed [params] to the acknowledgement. *)
Definition control (params : dict string string) : M response :=
  let relay_id := dict_get String.eqb params "relay" in
  let state := dict_get String.eqb params "state" in
  apply_control relay_id state ;;;
  ret Resp_OK.

Definition index_handler (path : string) : M response :=
  if contains "?" path then
    try_except
      (query <- index (split "?" path) 1 ;;
       params <- dict_of_items (map (split "=") (split "&" query)) [] ;;
       control params)
      (fun e => print (Log_error_parsing e) ;;; ret (Resp_Error e))
  else ret Resp_html.

(** *** api_state_handler (lines 335-375) *)

Definition read_inputs (pcf : dev) (first : Z) (inputs_states : dict string bool)
  : M (dict string bool) :=
  o <- get_obj pcf ;;
  if is_valid o then
    fold_for (range 8) inputs_states (fun acc i =>
      b <- read_pin hw pcf i ;;
      ret (dict_set String.eqb acc ("X" ++ fmt_02d (i + first))%string b))
  else ret inputs_states.

Definition relays_state : M (dict string string) :=
  fold_for outputs_map [] (fun acc item =>
    let relay_id := fst item in
    let pcf := fst (snd item) in
    let pin_num := snd (snd item) in
    o <- get_obj pcf ;;
    m <- shl1 pin_num ;;
    let state := negb (truthy (Z.land (value o) m)) in
    ret (dict_set String.eqb acc relay_id (if state then "off" else "on"))).

Definition api_state_handler : M response :=
  ht1 <- pin_value hw PIN_HT1 ;;
  ht2 <- pin_value hw PIN_HT2 ;;
  ht3 <- pin_value hw PIN_HT3 ;;
  let inputs_states :=
    [("HT1", negb (truthy ht1)); ("HT2", negb (truthy ht2));
     ("HT3", negb (truthy ht3))] in
  inputs_states <- read_inputs pcf_inputs_1_8 1 inputs_states ;;
  inputs_states <- read_inputs pcf_inputs_9_16 9 inputs_states ;;
  relays <- relays_state ;;
  ret (Resp_json relays inputs_states).

(** *** AsyncWebServer.handle_client, the dispatch (lines 250-259) *)

Definition handle_client (path : string) : M response :=
  let path_base := hd "" (split "?" path) in
  if String.eqb path_base "/" then index_handler path
  else if String.eqb path_base "/api/state" then api_state_handler
  else ret Resp_not_found.

(** *** scan_keys (lines 377-409) *)

Definition pcf_inputs : dict Z dev :=
  [(ADDR_INPUTS_1_8, pcf_inputs_1_8); (ADDR_INPUTS_9_16, pcf_inputs_9_16)].

Definition get_prev : M (dict Z (option Z)) := fun w => (Ok (prev_state w), w).
Definition put_prev (p : dict Z (option Z)) : M unit :=
  fun w => (Ok tt, set_prev p w).

(** [a ^ b] where [a] may be None. *)
Definition xor (a : option Z) (b : Z) : M Z :=
  match a with
  | Some x => ret (Z.lxor x b)
  | None => raise TypeError
  end.

(** Lines 379-385: what the task does before its loop. *)
Definition scan_keys_start : M unit :=
  print Log_starting_scan ;;;
  p <- fold_for pcf_inputs [] (fun acc item =>
         o <- get_obj (snd item) ;;
         if is_valid o then
           r <- read_all hw (snd item) ;;
           ret (dict_set Z.eqb acc (fst item) r)
         else ret acc) ;;
  put_prev p.

(** Lines 399-405: what a newly asserted input bit does. *)
Definition trigger (addr i : Z) : M unit :=
  row <- subscript Z.eqb input_to_output_map addr ;;
  relay_id <- subscript Z.eqb row i ;;
  pp <- subscript String.eqb outputs_map relay_id ;;
  let pcf_out := fst pp in
  let pin_num := snd pp in
  oo <- get_obj pcf_out ;;
  m2 <- shl1 pin_num ;;
  let current_relay_state := negb (truthy (Z.land (value oo) m2)) in
  let new_relay_state := negb current_relay_state in
  write_pin hw pcf_out pin_num new_relay_state ;;;
  print (Log_triggered i addr relay_id new_relay_state).

(** Lines 396-405: the body of [for i in range(8)]. *)
Definition scan_bit (addr diff current_state i : Z) : M unit :=
  m <- shl1 i ;;
  if truthy (Z.land diff m) then
    m' <- shl1 i ;;
    if negb (truthy (Z.land current_state m')) then trigger addr i
    else ret tt
  else ret tt.

(** Lines 390-406: the body of [for addr, pcf in pcf_inputs.items()]. *)
Definition scan_device (addr : Z) (pcf : dev) : M unit :=
  o <- get_obj pcf ;;
  if negb (is_valid o) then ret tt
  else
    current_state <- read_all hw pcf ;;
    match current_state with
    | None => ret tt
    | Some cur =>
        p <- get_prev ;;
        before <- subscript Z.eqb p addr ;;
        diff <- xor before cur ;;
        for_each (range 8) (scan_bit addr diff cur) ;;;
        p' <- get_prev ;;
        put_prev (dict_set Z.eqb p' addr (Some cur))
    end.

(** Lines 388-408: one pass of [while True], up to the sleep. *)
Definition scan_keys_pass : M unit :=
  try_except
    (for_each pcf_inputs (fun item => scan_device (fst item) (snd item)))
    (fun e => print (Log_error_scan e)).

(** *** Entry point (lines 412-417) *)

Definition main : M unit :=
  o1 <- get_obj pcf_outputs_1_8 ;;
  (if is_valid o1 then write_all hw pcf_outputs_1_8 0xFF else ret tt) ;;;
  o2 <- get_obj pcf_outputs_9_16 ;;
  (if is_valid o2 then write_all hw pcf_outputs_9_16 0xFF else ret tt).

(** ** The running system

    Nothing in a handler or in a scan pass awaits before its work on the
    devices is done, so the cooperative scheduler interleaves whole
    requests and whole scan passes. *)

Inductive event : Type :=
| Ev_http (path : string)
| Ev_scan.

Definition unborn : PCF8574 := mkPCF 0 0 false.
Definition World0 : World := mkWorld unborn unborn unborn unborn [] [] 0.

Definition boot : M unit :=
  module_init hw ;;; main ;;; scan_keys_start.

Definition step (ev : event) (w : World) : World :=
  match ev with
  | Ev_http path => snd (handle_client path w)
  | Ev_scan => snd (scan_keys_pass w)
  end.

Definition run (evs : list event) (w : World) : World :=
  fold_left (fun w ev => step ev w) evs w.

Definition booted : World := snd (boot World0).

Inductive reachable : World -> Prop :=
| reach_boot : reachable booted
| reach_step : forall w ev, reachable w -> reachable (step ev w).

End Handlers.

(** ** Joining the network: do_connect (main.py, lines 273-286)

    The station interface answers [wlan.isconnected()] as it pleases; the
    answers are indexed by the number of the call.  The state records what
    [do_connect] did: how often it asked, how many seconds it slept, how
    often it called [wlan.connect], and what it printed. *)

Inductive net_line : Type :=
| Net_connecting          (* line 277 *)
| Net_config              (* line 284 *)
| Net_failed.             (* line 286 *)

Record Wlan : Type := mkWlan {
  asked : nat;
  slept : nat;
  connects : nat;
  net_out : list net_line
}.

Definition wlan0 : Wlan := mkWlan 0 0 0 [].

Section Network.
Variable isconnected_at : nat -> bool.

(** [wlan.isconnected()] *)
Definition isconnected (s : Wlan) : bool * Wlan :=
  (isconnected_at (asked s),
   mkWlan (S (asked s)) (slept s) (connects s) (net_out s)).

(** [time.sleep(1)] *)
Definition sleep (s : Wlan) : Wlan :=
  mkWlan (asked s) (S (slept s)) (connects s) (net_out s).

(** [wlan.connect('router', '1234')] *)
Definition connect (s : Wlan) : Wlan :=
  mkWlan (asked s) (slept s) (S (connects s)) (net_out s).

Definition net_print (l : net_line) (s : Wlan) : Wlan :=
  mkWlan (asked s) (slept s) (connects s) (net_out s ++ [l]).

(** Lines 279-282: [for i in range(n): if wlan.isconnected(): break;
    time.sleep(1)] *)
Fixpoint wait_connected (n : nat) (s : Wlan) : Wlan :=
  match n with
  | O => s
  | S n' =>
      let (c, s1) := isconnected s in
      if c then s1 else wait_connected n' (sleep s1)
  end.

Definition do_connect (s : Wlan) : Wlan :=
  let (c, s1) := isconnected s in
  if negb c then
    let s2 := connect (net_print Net_connecting s1) in
    let s3 := wait_connected 10 s2 in
    let (c', s4) := isconnected s3 in
    if c' then net_print Net_config s4 else net_print Net_failed s4
  else s1.

End Network.

(** ** Names the specification uses for the two registry lookups *)

Definition resolve (relay_id : string) : option (dev * Z) :=
  dict_get String.eqb outputs_map relay_id.

Definition resolve_input (device_address bit : Z) : option string :=
  match dict_get Z.eqb input_to_output_map device_address with
  | Some row => dict_get Z.eqb row bit
  | None => None
  end.

(** ** Observations used by the statements *)

(** The cached byte is a byte, and a device that was never valid still has
    the byte its constructor gave it. *)
Definition wf_dev (o : PCF8574) : bool :=
  (0 <=? value o) && (value o <? 256) && (is_valid o || (value o =? 0xFF)).

Definition wf (w : World) : bool :=
  wf_dev (inputs_1_8 w) && wf_dev (inputs_9_16 w) &&
  wf_dev (outputs_1_8 w) && wf_dev (outputs_9_16 w).

(** The relay toggles a stretch of console output reports: input bit, board
    address and relay of every line printed at line 405. *)
Definition triggered (l : line) : list (Z * Z * string) :=
  match l with
  | Log_triggered i addr relay_id _ => [(i, addr, relay_id)]
  | _ => []
  end.

Definition fired (before after : World) : list (Z * Z * string) :=
  flat_map triggered (skipn (List.length (stdout before)) (stdout after)).

(** A falling edge on bit [i]: set in the previous snapshot, clear now. *)
Definition falling (before current i : Z) : bool :=
  Z.testbit before i && negb (Z.testbit current i).

(** An event that commands a relay: a request to "/" that carries a query. *)
Definition commands (ev : event) : bool :=
  match ev with
  | Ev_http path => String.eqb (hd "" (split "?" path)) "/" && contains "?" path
  | Ev_scan => false
  end.

Definition relay_ids : list string :=
  ["1"; "2"; "3"; "4"; "5"; "6"; "7"; "8";
   "9"; "10"; "11"; "12"; "13"; "14"; "15"; "16"].

Definition keys_X_1_8 : list string :=
  ["X01"; "X02"; "X03"; "X04"; "X05"; "X06"; "X07"; "X08"].
Definition keys_X_9_16 : list string :=
  ["X09"; "X10"; "X11"; "X12"; "X13"; "X14"; "X15"; "X16"].

(** ** Concrete hardware for the examples *)

(** Every transaction succeeds; every input reads 0xFF. *)
Definition hw_ok : Hardware :=
  mkHardware (fun _ => Some []) (fun _ _ => Some Byte.xff)
             (fun _ _ _ => true) (fun _ _ => true).

(** The bus scan works but every read and write fails. *)
Definition hw_deaf : Hardware :=
  mkHardware (fun _ => Some []) (fun _ _ => None)
             (fun _ _ _ => false) (fun _ _ => true).

(** The first bus scan (the constructor of [pcf_inputs_1_8]) raises. *)
Definition hw_no_inputs_1_8 : Hardware :=
  mkHardware (fun t => if Nat.eqb t 0 then None else Some [])
             (fun _ _ => Some Byte.xff) (fun _ _ _ => true) (fun _ _ => true).

(** Inputs read 0xFE until transaction [t0], 0xFC from then on. *)
Definition hw_press (t0 : nat) : Hardware :=
  mkHardware (fun _ => Some [])
             (fun t _ => if Nat.ltb t t0 then Some Byte.xfe else Some Byte.xfc)
             (fun _ _ _ => true) (fun _ _ => true).

(** Every read fails until transaction 8 (that is, during start-up) and
    delivers 0xFE from then on; scans and writes succeed. *)
Definition hw_late : Hardware :=
  mkHardware (fun _ => Some [])
             (fun t _ => if Nat.ltb t 8 then None else Some Byte.xfe)
             (fun _ _ _ => true) (fun _ _ => true).

(** The read at transaction [t0] fails; every other read delivers 0xFE. *)
Definition hw_glitch (t0 : nat) : Hardware :=
  mkHardware (fun _ => Some [])
             (fun t _ => if Nat.eqb t t0 then None else Some Byte.xfe)
             (fun _ _ _ => true) (fun _ _ => true).

(** Board 0x22 reads 0xFF during start-up (transactions 0 to 7), 0xFE from
    transaction 8 to 12 and 0xFC from transaction 13 on: the first three
    scan passes read it as 0xFE, 0xFE, 0xFC.  Every other read delivers
    0xFF; scans and writes succeed. *)
Definition hw_keys : Hardware :=
  mkHardware (fun _ => Some [])
             (fun t addr =>
                if Z.eqb addr ADDR_INPUTS_1_8
                then if Nat.ltb t 8 then Some Byte.xff
                     else if Nat.ltb t 13 then Some Byte.xfe
                     else Some Byte.xfc
                else Some Byte.xff)
             (fun _ _ _ => true) (fun _ _ => true).

(** ** Vocabulary of the statements *)

Definition is_byte (v : Z) : Prop := 0 <= v < 256.

(** The byte [write_pin] builds from the cached one. *)
Definition with_bit (v pin_number : Z) (state : bool) : Z :=
  if negb state
  then Z.land v (Z.lnot (Z.shiftl 1 pin_number))
  else Z.lor v (Z.shiftl 1 pin_number).

(** [post m w Q]: the outcome of [m] run from [w], a value or an exception,
    and the store it leaves satisfy [Q]. *)
Definition post {A} (m : M A) (w : World) (Q : result A -> World -> Prop) : Prop :=
  Q (fst (m w)) (snd (m w)).

(** [quiet w w']: from [w] to [w'] the scan task's snapshots are untouched
    and nothing printed reports a relay toggle. *)
Definition quiet (w w' : World) : Prop :=
  prev_state w' = prev_state w /\
  exists extra, stdout w' = stdout w ++ extra /\ flat_map triggered extra = [].

(** All four device objects are as they were. *)
Definition same_objs (w w' : World) : Prop := forall d, obj w' d = obj w d.

(** What a method call on [self] may change: only the cached byte of
    [self]. *)
Definition only_value_of (self : dev) (w w' : World) : Prop :=
  forall d,
    is_valid (obj w' d) = is_valid (obj w d) /\
    address (obj w' d) = address (obj w d) /\
    (d <> self -> obj w' d = obj w d).

(** What the state query shows for a cached byte and a pin (line 356-358). *)
Definition shown (w : World) (pcf : dev) (pin_num : Z) : string :=
  if Z.testbit (value (obj w pcf)) pin_num then "on" else "off".

(** The keys of a dict after [d[k] = v]. *)
Definition add_key (ks : list string) (k : string) : list string :=
  if existsb (String.eqb k) ks then ks else ks ++ [k].

(** The key under which input bit [i] of a board is reported (lines 348, 351). *)
Definition input_name (first i : Z) : string := ("X" ++ fmt_02d (i + first))%string.

(** What a state query may change: cached bytes of the input devices. *)
Definition inputs_only (w w' : World) : Prop :=
  forall d,
    is_valid (obj w' d) = is_valid (obj w d) /\
    address (obj w' d) = address (obj w d) /\
    (d = pcf_outputs_1_8 \/ d = pcf_outputs_9_16 -> obj w' d = obj w d).

(** The relays part of a state answer, computed from the store. *)
Definition relays_of (w : World) : dict string string :=
  map (fun item => (fst item, shown w (fst (snd item)) (snd (snd item))))
      outputs_map.

(** [emits w w' t]: from [w] to [w'] the console grew, and the relay
    toggles it reports in the new lines are [t]. *)
Definition emits (w w' : World) (t : list (Z * Z * string)) : Prop :=
  exists extra, stdout w' = stdout w ++ extra /\ flat_map triggered extra = t.

(** The toggles a snapshot pair calls for over the bits [bits]: one per
    falling edge, on the relay the registry gives for that input bit. *)
Definition edge (addr before current i : Z) : list (Z * Z * string) :=
  if falling before current i
  then match resolve_input addr i with
       | Some relay_id => [(i, addr, relay_id)]
       | None => []
       end
  else [].

Definition edges (addr before current : Z) (bits : list Z)
  : list (Z * Z * string) :=
  flat_map (edge addr before current) bits.

(** What the state query, run from [w], answers for one relay. *)
Definition reported (hw : Hardware) (w : World) (relay_id : string)
  : option string :=
  match fst (api_state_handler hw w) with
  | Ok (Resp_json relays _) => dict_get String.eqb relays relay_id
  | _ => None
  end.

(** No validity flag and no address differs between [w] and [w']. *)
Definition flags_kept (w w' : World) : Prop :=
  forall d,
    is_valid (obj w' d) = is_valid (obj w d) /\
    address (obj w' d) = address (obj w d).

(** What a control request may change: cached bytes of the output devices
    (and the console and the transaction counter). *)
Definition outputs_only (w w' : World) : Prop :=
  flags_kept w w' /\
  obj w' pcf_inputs_1_8 = obj w pcf_inputs_1_8 /\
  obj w' pcf_inputs_9_16 = obj w pcf_inputs_9_16 /\
  prev_state w' = prev_state w.

(** The address each global device object is constructed with
    (lines 201-204), and the transaction at which its constructor scans
    the bus. *)
Definition addr_of (d : dev) : Z :=
  match d with
  | pcf_inputs_1_8 => ADDR_INPUTS_1_8
  | pcf_inputs_9_16 => ADDR_INPUTS_9_16
  | pcf_outputs_1_8 => ADDR_OUTPUTS_1_8
  | pcf_outputs_9_16 => ADDR_OUTPUTS_9_16
  end.

Definition ctor_clock (d : dev) : nat :=
  match d with
  | pcf_inputs_1_8 => 0
  | pcf_inputs_9_16 => 1
  | pcf_outputs_1_8 => 2
  | pcf_outputs_9_16 => 3
  end.

(** The bus scan at transaction [t] returns (whatever list) rather than
    raising. *)
Definition scan_ok (hw : Hardware) (t : nat) : bool :=
  match hw_scan hw t with Some _ => true | None => false end.

(** The boards that get a snapshot: the valid input boards, in the order
    of [pcf_inputs]. *)
Definition scanned_boards (hw : Hardware) : list Z :=
  (if scan_ok hw 0 then [ADDR_INPUTS_1_8] else []) ++
  (if scan_ok hw 1 then [ADDR_INPUTS_9_16] else []).

(** What the state query reports for input bit [i] of the board at [addr]
    when the bus read for that bit is transaction [t]: asserted when the
    bit read is 0, not asserted when it is 1 or the read raises
    (lines 43-47). *)
Definition sampled (hw : Hardware) (t : nat) (addr i : Z) : bool :=
  match hw_readfrom hw t addr with
  | Some b => negb (Z.testbit (Z.of_N (Byte.to_N b)) i)
  | None => false
  end.

(** The entries one board contributes to the inputs of a state answer when
    the read for its bit 0 is transaction [t]. *)
Definition board_inputs (hw : Hardware) (t : nat) (addr first : Z)
    (bits : list Z) : list (string * bool) :=
  map (fun i => (input_name first i, sampled hw (Z.to_nat i + t) addr i)) bits.

(** The dict a list of query items parses to (line 295), if every item has
    exactly two parts. *)
Definition parsed (items : list (list string)) : option (dict string string) :=
  match fst (dict_of_items items [] World0) with
  | Ok d => Some d
  | Raise _ => None
  end.

(** The parameters an event carries: those of a control request whose
    query parses, none for every other event. *)
Definition params_of (ev : event) : option (dict string string) :=
  match ev with
  | Ev_http path =>
      if commands ev
      then match split "?" path with
           | _ :: query :: _ => parsed (map (split "=") (split "&" query))
           | _ => None
           end
      else None
  | Ev_scan => None
  end.

(** What an event commands for one relay: [Some true] to switch it on,
    [Some false] to switch it off, [None] when it leaves the relay alone. *)
Definition command_for (relay_id : string) (ev : event) : option bool :=
  match params_of ev with
  | Some params =>
      let r := dict_get String.eqb params "relay" in
      let s := dict_get String.eqb params "state" in
      if is_on_off s && (opt_eqb r "all" || opt_eqb r relay_id)
      then Some (opt_eqb s "on")
      else None
  | None => None
  end.

(** The latest command for a relay in a history, [init] when there is
    none. *)
Definition last_command (relay_id : string) (evs : list event) (init : bool)
  : bool :=
  fold_left (fun st ev => match command_for relay_id ev with
                          | Some b => b
                          | None => st
                          end) evs init.

(** What [read_all] returns on a valid device for the bus read at
    transaction [t]: the byte, or None when the read raises. *)
Definition read_byte (hw : Hardware) (t : nat) (addr : Z) : option Z :=
  match hw_readfrom hw t addr with
  | Some b => Some (Z.of_N (Byte.to_N b))
  | None => None
  end.

(** One bus transaction if [b], none otherwise. *)
Definition one_if (b : bool) : nat := if b then 1 else 0.

(** The value the last item with key [k] gives, over query items of two
    parts; [init] when no item has that key. *)
Definition last_value (k : string) (items : list (list string))
    (init : option string) : option string :=
  fold_left (fun acc item =>
               match item with
               | [k'; v] => if String.eqb k k' then Some v else acc
               | _ => acc
               end) items init.

(** The relay toggles of the board at [addr] that the console reports
    between [before] and [after]. *)
Definition fired_on (addr : Z) (before after : World)
  : list (Z * Z * string) :=
  filter (fun x => Z.eqb (snd (fst x)) addr) (fired before after).

(** * Properties *)

(** ** Bits of a cached byte *)

Lemma land_pow2 (v p : Z) :
  0 <= p -> Z.land v (2 ^ p) = if Z.testbit v p then 2 ^ p else 0.
Proof.
  intros Hp. apply Z.bits_inj'. intros n Hn.
  rewrite Z.land_spec, Z.pow2_bits_eqb by assumption.
  destruct (Z.eqb_spec p n) as [->|Hne].
  - destruct (Z.testbit v n); simpl.
    + now rewrite Z.pow2_bits_eqb, Z.eqb_refl.
    + now rewrite Z.bits_0.
  - rewrite andb_false_r.
    destruct (Z.testbit v p).
    + rewrite Z.pow2_bits_eqb by assumption.
      symmetry. now apply Z.eqb_neq.
    + now rewrite Z.bits_0.
Qed.

(** [bool(v & (1 << p))] is bit [p] of [v]. *)
Lemma truthy_mask (v p : Z) :
  0 <= p -> truthy (Z.land v (Z.shiftl 1 p)) = Z.testbit v p.
Proof.
  intros Hp. rewrite Z.shiftl_1_l, land_pow2 by assumption.
  unfold truthy. destruct (Z.testbit v p).
  - assert (0 < 2 ^ p) by (apply Z.pow_pos_nonneg; lia).
    destruct (Z.eqb_spec (2 ^ p) 0); [lia | reflexivity].
  - reflexivity.
Qed.

Lemma testbit_set (v p q : Z) :
  0 <= p -> Z.testbit (Z.lor v (Z.shiftl 1 p)) q = Z.testbit v q || (p =? q).
Proof.
  intros Hp. rewrite Z.lor_spec, Z.shiftl_1_l.
  destruct (Z.ltb_spec q 0) as [Hq|Hq].
  - rewrite !Z.testbit_neg_r by assumption. simpl.
    symmetry. apply Z.eqb_neq. lia.
  - now rewrite Z.pow2_bits_eqb.
Qed.

Lemma testbit_clear (v p q : Z) :
  0 <= p -> 0 <= q ->
  Z.testbit (Z.land v (Z.lnot (Z.shiftl 1 p))) q = Z.testbit v q && negb (p =? q).
Proof.
  intros Hp Hq.
  rewrite Z.land_spec, Z.lnot_spec, Z.shiftl_1_l, Z.pow2_bits_eqb by assumption.
  reflexivity.
Qed.

(** Setting a bit that is set, or clearing one that is clear, changes nothing. *)
Lemma set_same (v p : Z) :
  0 <= p -> Z.testbit v p = true -> Z.lor v (Z.shiftl 1 p) = v.
Proof.
  intros Hp Hb. apply Z.bits_inj'. intros n Hn.
  rewrite testbit_set by assumption.
  destruct (Z.eqb_spec p n) as [->|_].
  - now rewrite Hb.
  - apply orb_false_r.
Qed.

Lemma clear_same (v p : Z) :
  0 <= p -> Z.testbit v p = false -> Z.land v (Z.lnot (Z.shiftl 1 p)) = v.
Proof.
  intros Hp Hb. apply Z.bits_inj'. intros n Hn.
  rewrite testbit_clear by assumption.
  destruct (Z.eqb_spec p n) as [->|_].
  - rewrite Hb. reflexivity.
  - apply andb_true_r.
Qed.


Lemma is_byte_land (v : Z) : is_byte v <-> Z.land v 255 = v.
Proof.
  change 255 with (Z.ones 8). rewrite Z.land_ones by lia.
  change (2 ^ 8) with 256. unfold is_byte. split.
  - intros H. now apply Z.mod_small.
  - intros H. rewrite <- H. apply Z.mod_pos_bound. lia.
Qed.

Lemma is_byte_set (v p : Z) :
  is_byte v -> 0 <= p < 8 -> is_byte (Z.lor v (Z.shiftl 1 p)).
Proof.
  intros Hv Hp. apply is_byte_land. apply is_byte_land in Hv.
  rewrite Z.land_lor_distr_l, Hv. f_equal.
  assert (p = 0 \/ p = 1 \/ p = 2 \/ p = 3 \/ p = 4 \/ p = 5 \/ p = 6 \/ p = 7)
    as Hc by lia.
  repeat (destruct Hc as [-> | Hc]; [reflexivity|]). now subst.
Qed.

Lemma is_byte_clear (v m : Z) : is_byte v -> is_byte (Z.land v m).
Proof.
  intros Hv. apply is_byte_land. apply is_byte_land in Hv.
  rewrite <- Z.land_assoc, (Z.land_comm m), Z.land_assoc, Hv. reflexivity.
Qed.

Lemma is_byte_of_byte (b : Byte.byte) : is_byte (Z.of_N (Byte.to_N b)).
Proof.
  unfold is_byte. pose proof (Byte.to_N_bounded b). lia.
Qed.

Lemma testbit_0xFF (p : Z) : 0 <= p < 8 -> Z.testbit 0xFF p = true.
Proof.
  intros Hp.
  assert (p = 0 \/ p = 1 \/ p = 2 \/ p = 3 \/ p = 4 \/ p = 5 \/ p = 6 \/ p = 7)
    as Hc by lia.
  repeat (destruct Hc as [-> | Hc]; [reflexivity|]). now subst.
Qed.

(** ** Reasoning about commands *)


Lemma post_bind {A B} (m : M A) (f : A -> M B) w Q :
  post m w (fun r w' => match r with
                        | Ok a => post (f a) w' Q
                        | Raise e => Q (Raise e) w'
                        end) ->
  post (bind m f) w Q.
Proof.
  unfold post, bind. destruct (m w) as [[a|e] w']; simpl; auto.
Qed.

Lemma post_mono {A} (m : M A) w (Q Q' : result A -> World -> Prop) :
  post m w Q -> (forall r w', Q r w' -> Q' r w') -> post m w Q'.
Proof. unfold post. auto. Qed.

Lemma post_try_except {A} (body : M A) h w Q :
  post body w (fun r w' => match r with
                           | Ok a => Q (Ok a) w'
                           | Raise e => post (h e) w' Q
                           end) ->
  post (try_except body h) w Q.
Proof.
  unfold post, try_except. destruct (body w) as [[a|e] w']; simpl; auto.
Qed.

(** A loop whose body cannot raise, with an invariant over the elements
    already visited. *)
Lemma for_each_prefix {A} (body : A -> M unit) (I : list A -> World -> Prop) :
  forall xs pre w,
    (forall done x w, In x xs -> I done w ->
       post (body x) w (fun r w' => r = Ok tt /\ I (done ++ [x]) w')) ->
    I pre w ->
    post (for_each xs body) w (fun r w' => r = Ok tt /\ I (pre ++ xs) w').
Proof.
  induction xs as [|x xs IH]; intros pre w Hbody Hpre.
  - unfold post. simpl. rewrite app_nil_r. auto.
  - simpl. apply post_bind.
    eapply post_mono; [apply (Hbody pre x w); simpl; auto|].
    intros r w' [-> HI].
    replace (pre ++ x :: xs) with ((pre ++ [x]) ++ xs)
      by (rewrite <- app_assoc; reflexivity).
    apply IH; [|assumption].
    intros done y w1 Hy. apply Hbody. simpl. auto.
Qed.

(** The same for a loop that updates a local variable. *)
Lemma fold_for_prefix {A S} (body : S -> A -> M S)
    (I : list A -> S -> World -> Prop) :
  forall xs pre s w,
    (forall done x s w, In x xs -> I done s w ->
       post (body s x) w (fun r w' => exists s', r = Ok s' /\ I (done ++ [x]) s' w')) ->
    I pre s w ->
    post (fold_for xs s body) w
         (fun r w' => exists s', r = Ok s' /\ I (pre ++ xs) s' w').
Proof.
  induction xs as [|x xs IH]; intros pre s w Hbody Hpre.
  - unfold post. simpl. rewrite app_nil_r. eauto.
  - simpl. apply post_bind.
    eapply post_mono; [apply (Hbody pre x s w); simpl; auto|].
    intros r w' (s' & -> & HI).
    replace (pre ++ x :: xs) with ((pre ++ [x]) ++ xs)
      by (rewrite <- app_assoc; reflexivity).
    apply IH; [|assumption].
    intros done y s1 w1 Hy. apply Hbody. simpl. auto.
Qed.

(** A loop that keeps a store invariant whatever its body's outcome. *)
Lemma for_each_inv {A} (body : A -> M unit) (I : World -> Prop) :
  forall xs w,
    (forall x w, In x xs -> I w -> post (body x) w (fun _ w' => I w')) ->
    I w ->
    post (for_each xs body) w (fun _ w' => I w').
Proof.
  induction xs as [|x xs IH]; intros w Hbody Hw.
  - exact Hw.
  - simpl. apply post_bind.
    eapply post_mono; [apply (Hbody x w); simpl; auto|].
    intros [[]|e] w' HI; [|exact HI].
    apply IH; [|assumption]. intros y w1 Hy. apply Hbody. simpl. auto.
Qed.

Lemma fold_for_inv {A S} (body : S -> A -> M S) (I : World -> Prop) :
  forall xs s w,
    (forall x s w, In x xs -> I w -> post (body s x) w (fun _ w' => I w')) ->
    I w ->
    post (fold_for xs s body) w (fun _ w' => I w').
Proof.
  induction xs as [|x xs IH]; intros s w Hbody Hw.
  - exact Hw.
  - simpl. apply post_bind.
    eapply post_mono; [apply (Hbody x s w); simpl; auto|].
    intros [s'|e] w' HI; [|exact HI].
    apply IH; [|assumption]. intros y s1 w1 Hy. apply Hbody. simpl. auto.
Qed.

(** ** The store *)

Lemma dev_eqb_eq (a b : dev) : dev_eqb a b = true <-> a = b.
Proof. destruct a, b; simpl; split; congruence. Qed.

Lemma dev_eqb_refl (a : dev) : dev_eqb a a = true.
Proof. now destruct a. Qed.

Lemma obj_set_obj (d d' : dev) (o : PCF8574) (w : World) :
  obj (set_obj d o w) d' = if dev_eqb d d' then o else obj w d'.
Proof. destruct d, d'; reflexivity. Qed.

Lemma obj_tick w d : obj (tick w) d = obj w d.
Proof. now destruct d. Qed.

Lemma obj_add_line l w d : obj (add_line l w) d = obj w d.
Proof. now destruct d. Qed.

Lemma obj_set_prev p w d : obj (set_prev p w) d = obj w d.
Proof. now destruct d. Qed.

Lemma prev_set_obj d o w : prev_state (set_obj d o w) = prev_state w.
Proof. now destruct d. Qed.

Lemma stdout_set_obj d o w : stdout (set_obj d o w) = stdout w.
Proof. now destruct d. Qed.

Lemma clock_set_obj d o w : clock (set_obj d o w) = clock w.
Proof. now destruct d. Qed.


Lemma quiet_refl w : quiet w w.
Proof. split; [reflexivity|]. exists []. now rewrite app_nil_r. Qed.

Lemma quiet_trans w1 w2 w3 : quiet w1 w2 -> quiet w2 w3 -> quiet w1 w3.
Proof.
  intros [Hp1 (e1 & Hs1 & Ht1)] [Hp2 (e2 & Hs2 & Ht2)]. split.
  - congruence.
  - exists (e1 ++ e2). split.
    + rewrite Hs2, Hs1, app_assoc. reflexivity.
    + rewrite flat_map_app, Ht1, Ht2. reflexivity.
Qed.

Lemma quiet_tick w : quiet w (tick w).
Proof. split; [reflexivity|]. exists []. simpl. now rewrite app_nil_r. Qed.

Lemma quiet_set_obj d o w : quiet w (set_obj d o w).
Proof.
  split; [apply prev_set_obj|]. exists [].
  now rewrite stdout_set_obj, app_nil_r.
Qed.



Lemma wf_spec (w : World) :
  wf w = true <->
  forall d, is_byte (value (obj w d)) /\
            (is_valid (obj w d) = false -> value (obj w d) = 0xFF).
Proof.
  unfold wf, wf_dev, is_byte. split.
  - intros H d.
    repeat (apply andb_prop in H; destruct H as [H ?]).
    destruct d; simpl;
      repeat match goal with
             | H : _ && _ = true |- _ => apply andb_prop in H; destruct H
             | H : _ || _ = true |- _ => apply orb_prop in H
             end;
      (split; [lia | intros Hv;
         match goal with
         | H : _ \/ _ |- _ => destruct H; [congruence | lia]
         end]).
  - intros H.
    pose proof (H pcf_inputs_1_8) as [H1 H1'].
    pose proof (H pcf_inputs_9_16) as [H2 H2'].
    pose proof (H pcf_outputs_1_8) as [H3 H3'].
    pose proof (H pcf_outputs_9_16) as [H4 H4'].
    simpl in *.
    repeat (apply andb_true_intro; split); try lia;
      match goal with
      | |- is_valid ?o || _ = true =>
          destruct (is_valid o); [reflexivity|]; simpl; apply Z.eqb_eq; auto
      end.
Qed.

Lemma wf_same_objs w w' : same_objs w w' -> wf w = true -> wf w' = true.
Proof.
  intros Hs Hw. apply wf_spec. intros d. rewrite Hs.
  now apply wf_spec.
Qed.

(** ** The PCF8574 methods *)

Section Methods.
Variable hw : Hardware.

(** [read_all] never raises.  When it returns a byte the device is valid,
    the bus delivered that byte, and it is the new cache; when it returns
    None no object changed. *)
Lemma read_all_spec (self : dev) (w : World) :
  exists r w',
    read_all hw self w = (Ok r, w') /\ quiet w w' /\
    match r with
    | Some v =>
        is_valid (obj w self) = true /\
        (exists b, hw_readfrom hw (clock w) (address (obj w self)) = Some b /\
                   v = Z.of_N (Byte.to_N b)) /\
        forall d, obj w' d =
                  if dev_eqb self d
                  then mkPCF (address (obj w self)) v true
                  else obj w d
    | None =>
        same_objs w w' /\
        (is_valid (obj w self) = false \/
         hw_readfrom hw (clock w) (address (obj w self)) = None)
    end.
Proof.
  unfold read_all, bind, get_obj, try_except_OSError, i2c_readfrom.
  destruct (is_valid (obj w self)) eqn:Hv; simpl.
  - destruct (hw_readfrom hw (clock w) (address (obj w self))) as [b|] eqn:Hr;
      simpl.
    + eexists _, _. split; [reflexivity|]. split.
      * eapply quiet_trans; [apply quiet_tick | apply quiet_set_obj].
      * rewrite obj_set_obj, dev_eqb_refl. simpl.
        split; [reflexivity|]. split; [eauto|].
        intros d. rewrite obj_set_obj, !obj_tick, Hv. reflexivity.
    + eexists _, _. split; [reflexivity|]. split; [apply quiet_tick|].
      split; [intros d; apply obj_tick | auto].
  - eexists _, _. split; [reflexivity|]. split; [apply quiet_refl|].
    split; [intros d; reflexivity | auto].
Qed.

(** [write_all] raises only ValueError, and only for a value that is not
    a byte; whatever happens, no object changes except that a successful
    write stores [v] in the cache. *)
Lemma write_all_spec (self : dev) (v : Z) (w : World) :
  exists r w',
    write_all hw self v w = (r, w') /\ quiet w w' /\
    (is_valid (obj w self) = false \/ is_byte v -> r = Ok tt) /\
    (r = Ok tt \/ r = Raise ValueError) /\
    (same_objs w w' \/
     (is_valid (obj w self) = true /\ is_byte v /\
      hw_writeto hw (clock w) (address (obj w self)) v = true /\
      forall d, obj w' d =
                if dev_eqb self d
                then mkPCF (address (obj w self)) v true
                else obj w d)).
Proof.
  unfold write_all, bind, get_obj, try_except_OSError, i2c_writeto, is_byte.
  destruct (is_valid (obj w self)) eqn:Hv; simpl.
  - destruct (Z.leb_spec 0 v); simpl;
      [destruct (Z.ltb_spec v 256); simpl|].
    + destruct (hw_writeto hw (clock w) (address (obj w self)) v) eqn:Hw;
        simpl.
      * eexists _, _. split; [reflexivity|]. split.
        { eapply quiet_trans; [apply quiet_tick | apply quiet_set_obj]. }
        split; [auto|]. split; [auto|]. right.
        repeat split; try lia.
        intros d. rewrite obj_set_obj, !obj_tick, Hv. reflexivity.
      * eexists _, _. split; [reflexivity|]. split.
        { eapply quiet_trans; [apply quiet_tick|].
          split; [reflexivity|]. eexists [_]. split; reflexivity. }
        split; [auto|]. split; [auto|]. left.
        intros d. now rewrite obj_add_line, obj_tick.
    + eexists _, _. split; [reflexivity|]. split; [apply quiet_refl|].
      split; [intros [?|?]; [discriminate | lia]|].
      split; [auto|]. left. intros d. reflexivity.
    + eexists _, _. split; [reflexivity|]. split; [apply quiet_refl|].
      split; [intros [?|?]; [discriminate | lia]|].
      split; [auto|]. left. intros d. reflexivity.
  - eexists _, _. split; [reflexivity|]. split; [apply quiet_refl|].
    split; [auto|]. split; [auto|]. left. intros d. reflexivity.
Qed.


(** On an invalid device [write_pin] and [read_pin] return at once,
    whatever the pin number. *)
Lemma write_pin_invalid (self : dev) (pin_number : Z) (state : bool) w :
  is_valid (obj w self) = false ->
  write_pin hw self pin_number state w = (Ok tt, w).
Proof.
  intros Hv. unfold write_pin, bind, get_obj. now rewrite Hv.
Qed.

Lemma read_pin_invalid (self : dev) (pin_number : Z) w :
  is_valid (obj w self) = false ->
  read_pin hw self pin_number w = (Ok false, w).
Proof.
  intros Hv. unfold read_pin, bind, get_obj. now rewrite Hv.
Qed.

(** On a valid device [write_pin] first stores the new byte in the cache
    and then hands that byte to [write_all]. *)
Lemma write_pin_valid (self : dev) (pin_number : Z) (state : bool) w :
  0 <= pin_number ->
  is_valid (obj w self) = true ->
  write_pin hw self pin_number state w =
  write_all hw self (with_bit (value (obj w self)) pin_number state)
    (set_obj self
       (mkPCF (address (obj w self))
              (with_bit (value (obj w self)) pin_number state) true) w).
Proof.
  intros Hp Hv. unfold write_pin, bind, get_obj, shl1, ret, with_bit.
  rewrite Hv. cbv beta iota delta [negb].
  destruct (Z.ltb_spec pin_number 0); [lia|].
  destruct state; unfold set_value; cbv beta iota delta [negb];
    rewrite Hv, obj_set_obj, dev_eqb_refl; reflexivity.
Qed.

(** [write_pin] for a bit position: on a valid device the cache holds the
    new byte afterwards whether or not the bus write succeeded; on an
    invalid device nothing changes. *)
Lemma write_pin_spec (self : dev) (pin_number : Z) (state : bool) (w : World) :
  0 <= pin_number ->
  exists r w',
    write_pin hw self pin_number state w = (r, w') /\ quiet w w' /\
    (is_valid (obj w self) = false \/
     is_byte (with_bit (value (obj w self)) pin_number state) -> r = Ok tt) /\
    forall d, obj w' d =
              if dev_eqb self d && is_valid (obj w self)
              then mkPCF (address (obj w self))
                         (with_bit (value (obj w self)) pin_number state) true
              else obj w d.
Proof.
  intros Hp. destruct (is_valid (obj w self)) eqn:Hv.
  - rewrite write_pin_valid by assumption.
    set (v' := with_bit (value (obj w self)) pin_number state).
    set (w1 := set_obj self (mkPCF (address (obj w self)) v' true) w).
    assert (Ho : obj w1 self = mkPCF (address (obj w self)) v' true).
    { unfold w1. now rewrite obj_set_obj, dev_eqb_refl. }
    destruct (write_all_spec self v' w1)
      as (r & w' & Heq & Hq & Hok & _ & Hobjs).
    exists r, w'. split; [exact Heq|]. split.
    { eapply quiet_trans; [apply quiet_set_obj | exact Hq]. }
    split.
    { intros [?|Hb]; [discriminate|]. apply Hok. auto. }
    intros d. rewrite andb_true_r.
    destruct Hobjs as [Hsame | (_ & _ & _ & Hd)].
    + rewrite Hsame. unfold w1. now rewrite obj_set_obj.
    + rewrite Hd, Ho. simpl. unfold w1. rewrite obj_set_obj.
      destruct (dev_eqb self d); reflexivity.
  - rewrite write_pin_invalid by assumption.
    eexists _, _. split; [reflexivity|].
    split; [apply quiet_refl|]. split; [auto|].
    intros d. now rewrite andb_false_r.
Qed.

(** [read_pin] for a bit position: false when the read fails, otherwise
    the negation of the bit just read. *)
Lemma read_pin_spec (self : dev) (pin_number : Z) (w : World) :
  0 <= pin_number ->
  read_pin hw self pin_number w =
  match read_all hw self w with
  | (Ok (Some v), w') => (Ok (negb (Z.testbit v pin_number)), w')
  | (_, w') => (Ok false, w')
  end.
Proof.
  intros Hp.
  destruct (read_all_spec self w) as (r & w' & Heq & _ & Hr).
  destruct (is_valid (obj w self)) eqn:Hv.
  - unfold read_pin, bind, get_obj. rewrite Hv.
    cbv beta iota delta [negb]. rewrite Heq.
    destruct r as [v|]; [|reflexivity].
    destruct Hr as (_ & _ & Hd).
    unfold shl1, ret.
    destruct (Z.ltb_spec pin_number 0); [lia|].
    rewrite Hd, dev_eqb_refl. cbv beta iota delta [value].
    now rewrite truthy_mask.
  - rewrite read_pin_invalid by assumption. rewrite Heq. destruct r as [v|].
    + destruct Hr as (Hv' & _). congruence.
    + unfold read_all, bind, get_obj in Heq. rewrite Hv in Heq.
      simpl in Heq. unfold ret in *. congruence.
Qed.

End Methods.

(** ** The registry *)

Lemma outputs_map_eq :
  outputs_map =
  [("1", (pcf_outputs_1_8, 0)); ("2", (pcf_outputs_1_8, 1));
   ("3", (pcf_outputs_1_8, 2)); ("4", (pcf_outputs_1_8, 3));
   ("5", (pcf_outputs_1_8, 4)); ("6", (pcf_outputs_1_8, 5));
   ("7", (pcf_outputs_1_8, 6)); ("8", (pcf_outputs_1_8, 7));
   ("9", (pcf_outputs_9_16, 0)); ("10", (pcf_outputs_9_16, 1));
   ("11", (pcf_outputs_9_16, 2)); ("12", (pcf_outputs_9_16, 3));
   ("13", (pcf_outputs_9_16, 4)); ("14", (pcf_outputs_9_16, 5));
   ("15", (pcf_outputs_9_16, 6)); ("16", (pcf_outputs_9_16, 7))].
Proof. reflexivity. Qed.

Lemma dict_get_In {V} (d : dict string V) (k : string) (v : V) :
  dict_get String.eqb d k = Some v -> In (k, v) d.
Proof.
  induction d as [|[k' v'] d IH]; simpl; [discriminate|].
  destruct (String.eqb_spec k k') as [->|Hne].
  - intros [= ->]. now left.
  - intros H. right. auto.
Qed.

Lemma small_index (i : Z) :
  0 <= i < 8 ->
  i = 0 \/ i = 1 \/ i = 2 \/ i = 3 \/ i = 4 \/ i = 5 \/ i = 6 \/ i = 7.
Proof. lia. Qed.

(** Every entry of the registry names an output device and a bit 0..7. *)
Lemma outputs_map_pins (r : string) (d : dev) (p : Z) :
  resolve r = Some (d, p) ->
  0 <= p < 8 /\ (d = pcf_outputs_1_8 \/ d = pcf_outputs_9_16).
Proof.
  intros H. apply dict_get_In in H. rewrite outputs_map_eq in H. simpl in H.
  repeat (destruct H as [H|H]; [inversion H; subst; split; [lia | auto]|]).
  contradiction.
Qed.

Lemma resolve_injective (r1 r2 : string) (p : dev * Z) :
  resolve r1 = Some p -> resolve r2 = Some p -> r1 = r2.
Proof.
  intros H1 H2. apply dict_get_In in H1, H2.
  rewrite outputs_map_eq in H1, H2. simpl in H1, H2.
  repeat (destruct H1 as [H1|H1]; [inversion H1; subst; clear H1|]);
    try contradiction;
    repeat (destruct H2 as [H2|H2];
            [first [discriminate H2 | inversion H2; reflexivity]|]);
    contradiction.
Qed.

(** The relay an input bit drives, and where that relay lives. *)
Lemma resolve_input_resolve (addr : Z) (pcf : dev) (i : Z) :
  In (addr, pcf) pcf_inputs -> 0 <= i < 8 ->
  exists row relay_id pcf_out,
    dict_get Z.eqb input_to_output_map addr = Some row /\
    dict_get Z.eqb row i = Some relay_id /\
    resolve_input addr i = Some relay_id /\
    resolve relay_id = Some (pcf_out, i) /\
    (pcf_out = pcf_outputs_1_8 \/ pcf_out = pcf_outputs_9_16).
Proof.
  intros Hin Hi. apply small_index in Hi.
  destruct Hin as [[= <- <-] | [[= <- <-] | []]];
    repeat (destruct Hi as [-> | Hi]); try subst i;
    (eexists _, _, _; repeat split; [reflexivity .. | auto]).
Qed.

(** ** C7: the registry *)

(** C7.  The registry maps exactly the identifiers "1".."16", no two of them
    to the same (device, bit); and for both input devices and every bit
    [i] in 0..7, [resolve_input] gives relay [i+1] (device at 0x22) or
    [i+9] (device at 0x21), whose [resolve] is the paired output device and
    the same bit [i]. *)
Theorem C7_registry_injective_and_inverse :
  keys outputs_map = relay_ids /\
  (forall r1 r2 p, resolve r1 = Some p -> resolve r2 = Some p -> r1 = r2) /\
  (forall i, 0 <= i < 8 ->
     resolve_input ADDR_INPUTS_1_8 i = Some (str (i + 1)) /\
     resolve (str (i + 1)) = Some (pcf_outputs_1_8, i)) /\
  (forall i, 0 <= i < 8 ->
     resolve_input ADDR_INPUTS_9_16 i = Some (str (i + 9)) /\
     resolve (str (i + 9)) = Some (pcf_outputs_9_16, i)).
Proof.
  split; [reflexivity|]. split; [exact resolve_injective|].
  split; intros i Hi; apply small_index in Hi;
    repeat (destruct Hi as [-> | Hi]); try subst i; split; reflexivity.
Qed.

Lemma C7_witness :
  resolve_input ADDR_INPUTS_9_16 3 = Some "12" /\
  resolve "12" = Some (pcf_outputs_9_16, 3).
Proof.
  destruct C7_registry_injective_and_inverse as (_ & _ & _ & H).
  apply (H 3). lia.
Defined.

(** ** C6: read_pin *)



(** ** C2: the cache after a failed transaction *)

(** A failed [read_all] leaves every device object as it was. *)
Lemma read_all_failure_keeps_cache (hw : Hardware) (self : dev) (w : World) :
  fst (read_all hw self w) = Ok None ->
  same_objs w (snd (read_all hw self w)).
Proof.
  destruct (read_all_spec hw self w) as (r & w' & Heq & _ & Hr).
  rewrite Heq. simpl. intros [= ->]. apply Hr.
Qed.

(** A failed [write_all] leaves every device object as it was. *)
Lemma write_all_failure_keeps_cache (hw : Hardware) (self : dev) (v : Z) w :
  hw_writeto hw (clock w) (address (obj w self)) v = false ->
  same_objs w (snd (write_all hw self v w)).
Proof.
  intros Hf.
  destruct (write_all_spec hw self v w) as (r & w' & Heq & _ & _ & _ & Hr).
  rewrite Heq. simpl. destruct Hr as [Hs | (_ & _ & Ht & _)]; [exact Hs|].
  congruence.
Qed.

(** [write_pin] is different: on a valid device the new byte is in the
    cache although the bus write failed. *)
Lemma write_pin_failure_changes_cache (hw : Hardware) (self : dev)
    (pin_number : Z) (state : bool) (w : World) :
  0 <= pin_number ->
  is_valid (obj w self) = true ->
  value (obj (snd (write_pin hw self pin_number state w)) self) =
  with_bit (value (obj w self)) pin_number state.
Proof.
  intros Hp Hv.
  destruct (write_pin_spec hw self pin_number state w Hp)
    as (r & w' & Heq & _ & _ & Hd).
  rewrite Heq. simpl. rewrite Hd, dev_eqb_refl, Hv. reflexivity.
Qed.

(** C2, at the failing input.  A valid output device caches 0xFF; the bus
    rejects the write that [write_pin(0, False)] issues; the call returns
    normally, prints the write error, and the cache is 0xFE, a byte no
    successful read or write ever established. *)
Theorem C2_write_pin_failed_write_changes_cache :
  let w := booted hw_deaf in
  let w' := snd (write_pin hw_deaf pcf_outputs_1_8 0 false w) in
  is_valid (outputs_1_8 w) = true /\
  value (outputs_1_8 w) = 0xFF /\
  hw_writeto hw_deaf (clock w) (address (outputs_1_8 w)) 0xFE = false /\
  fst (write_pin hw_deaf pcf_outputs_1_8 0 false w) = Ok tt /\
  stdout w' = stdout w ++ [Log_write_error ADDR_OUTPUTS_1_8] /\
  value (outputs_1_8 w') = 0xFE.
Proof. vm_compute. repeat split. Qed.

(** ** C9: the validity flag and invalid devices *)

Lemma PCF8574_init_valid (hw : Hardware) (self : dev) (addr : Z) (w : World) :
  obj (snd (PCF8574_init hw self addr w)) self =
  mkPCF addr 0xFF (match hw_scan hw (clock w) with
                   | Some _ => true
                   | None => false
                   end) /\
  forall d, d <> self -> obj (snd (PCF8574_init hw self addr w)) d = obj w d.
Proof.
  unfold PCF8574_init, bind, try_except_OSError, i2c_scan, print, set_is_valid,
    ret.
  rewrite clock_set_obj.
  destruct (hw_scan hw (clock w)); simpl.
  - split.
    + now rewrite obj_tick, obj_set_obj, dev_eqb_refl.
    + intros d Hd. rewrite obj_tick, obj_set_obj.
      destruct (dev_eqb self d) eqn:E; [|reflexivity].
      apply dev_eqb_eq in E. congruence.
  - split.
    + rewrite !obj_set_obj, !dev_eqb_refl. simpl.
      rewrite obj_add_line, obj_tick, obj_set_obj, dev_eqb_refl. reflexivity.
    + intros d Hd. rewrite obj_set_obj.
      destruct (dev_eqb self d) eqn:E; [apply dev_eqb_eq in E; congruence|].
      rewrite obj_add_line, obj_tick, obj_set_obj, E. reflexivity.
Qed.

Lemma only_value_of_refl self w : only_value_of self w w.
Proof. intros d. auto. Qed.

Lemma only_value_of_same self w w' : same_objs w w' -> only_value_of self w w'.
Proof. intros H d. rewrite H. auto. Qed.

Lemma only_value_of_update self v w w' :
  is_valid (obj w self) = true ->
  (forall d, obj w' d =
             if dev_eqb self d then mkPCF (address (obj w self)) v true
             else obj w d) ->
  only_value_of self w w'.
Proof.
  intros Hv Hd d. rewrite Hd.
  destruct (dev_eqb self d) eqn:E.
  - apply dev_eqb_eq in E. subst d. simpl. repeat split; auto.
    intros Hne. congruence.
  - auto.
Qed.

Lemma read_all_only_value hw self w :
  only_value_of self w (snd (read_all hw self w)).
Proof.
  destruct (read_all_spec hw self w) as (r & w' & Heq & _ & Hr).
  rewrite Heq. simpl. destruct r as [v|].
  - destruct Hr as (Hv & _ & Hd). eapply only_value_of_update; eauto.
  - apply only_value_of_same, Hr.
Qed.

Lemma write_all_only_value hw self v w :
  only_value_of self w (snd (write_all hw self v w)).
Proof.
  destruct (write_all_spec hw self v w) as (r & w' & Heq & _ & _ & _ & Hr).
  rewrite Heq. simpl. destruct Hr as [Hs | (Hv & _ & _ & Hd)].
  - now apply only_value_of_same.
  - eapply only_value_of_update; eauto.
Qed.

Lemma write_pin_only_value hw self n st w :
  only_value_of self w (snd (write_pin hw self n st w)).
Proof.
  destruct (Z.ltb_spec n 0) as [Hn|Hn].
  - unfold write_pin, bind, get_obj, shl1.
    destruct (is_valid (obj w self)); cbv beta iota delta [negb];
      [|apply only_value_of_refl].
    destruct (Z.ltb_spec n 0); [|lia]. apply only_value_of_refl.
  - destruct (write_pin_spec hw self n st w Hn) as (r & w' & Heq & _ & _ & Hd).
    rewrite Heq. simpl.
    destruct (is_valid (obj w self)) eqn:Hv.
    + eapply only_value_of_update; [exact Hv|].
      intros d. rewrite Hd, andb_true_r. reflexivity.
    + apply only_value_of_same. intros d. rewrite Hd, andb_false_r.
      reflexivity.
Qed.

Lemma read_pin_only_value hw self n w :
  only_value_of self w (snd (read_pin hw self n w)).
Proof.
  pose proof (read_all_only_value hw self w) as Hra.
  unfold read_pin, bind, get_obj.
  destruct (is_valid (obj w self)); cbv beta iota delta [negb];
    [|apply only_value_of_refl].
  destruct (read_all hw self w) as [[[v|]|e] w']; simpl in *; try exact Hra.
  unfold shl1. destruct (n <? 0); exact Hra.
Qed.

(** C9, as stated, fails: a valid device whose bus read fails keeps its
    validity flag. *)
Lemma C9_counterexample :
  let w := booted hw_deaf in
  let w' := snd (read_all hw_deaf pcf_inputs_1_8 w) in
  is_valid (inputs_1_8 w) = true /\
  hw_readfrom hw_deaf (clock w) (address (inputs_1_8 w)) = None /\
  fst (read_all hw_deaf pcf_inputs_1_8 w) = Ok None /\
  is_valid (inputs_1_8 w') = true.
Proof. vm_compute. repeat split. Qed.

(** C9, amended.  The constructor leaves the validity flag false exactly
    when its bus scan raises; no later method call changes the flag of any
    device, nor anything but the cached byte of the device it is called on;
    and on an invalid device [read_pin] returns False and [write_pin]
    returns, for every pin number, without raising and without changing
    the store at all: no bus transaction, nothing printed, the other three
    devices as they were. *)
Theorem C9_invalid_device_is_inert (hw : Hardware) (self : dev) :
  (forall addr w,
     is_valid (obj (snd (PCF8574_init hw self addr w)) self) =
     match hw_scan hw (clock w) with Some _ => true | None => false end) /\
  (forall w n st v,
     only_value_of self w (snd (read_all hw self w)) /\
     only_value_of self w (snd (read_pin hw self n w)) /\
     only_value_of self w (snd (write_all hw self v w)) /\
     only_value_of self w (snd (write_pin hw self n st w))) /\
  (forall w n st,
     is_valid (obj w self) = false ->
     read_pin hw self n w = (Ok false, w) /\
     write_pin hw self n st w = (Ok tt, w)).
Proof.
  split; [|split].
  - intros addr w. destruct (PCF8574_init_valid hw self addr w) as [-> _].
    reflexivity.
  - intros w n st v.
    split; [apply read_all_only_value|].
    split; [apply read_pin_only_value|].
    split; [apply write_all_only_value | apply write_pin_only_value].
  - intros w n st Hv. split.
    + now apply read_pin_invalid.
    + now apply write_pin_invalid.
Qed.

Lemma C9_witness :
  let w := booted hw_no_inputs_1_8 in
  is_valid (obj w pcf_inputs_1_8) = false /\
  read_pin hw_no_inputs_1_8 pcf_inputs_1_8 5 w = (Ok false, w) /\
  write_pin hw_no_inputs_1_8 pcf_inputs_1_8 5 true w = (Ok tt, w).
Proof.
  assert (Hv : is_valid (obj (booted hw_no_inputs_1_8) pcf_inputs_1_8) = false)
    by reflexivity.
  split; [exact Hv|].
  destruct (C9_invalid_device_is_inert hw_no_inputs_1_8 pcf_inputs_1_8)
    as (_ & _ & H).
  exact (H (booted hw_no_inputs_1_8) 5 true Hv).
Defined.

(** ** C3: a control request for an unknown relay *)

(** C3, as stated, fails: the request for relay "17" is acknowledged with
    200 OK. *)
Lemma C3_counterexample :
  let w := booted hw_ok in
  resolve "17" = None /\
  handle_client hw_ok "/?relay=17&state=on" w = (Ok Resp_OK, w) /\
  status Resp_OK = 200.
Proof. vm_compute. repeat split. Qed.

(** C3, amended.  A control request whose relay identifier is neither
    "all" nor a key of the registry writes nothing: the store, and with it
    every relay's cached byte, is exactly as before, and the request is
    acknowledged with 200 OK, whatever the state parameter. *)
Theorem C3_unknown_relay_is_ignored (hw : Hardware)
    (params : dict string string) (relay_id : string) (w : World) :
  dict_get String.eqb params "relay" = Some relay_id ->
  String.eqb relay_id "all" = false ->
  dict_mem String.eqb outputs_map relay_id = false ->
  control hw params w = (Ok Resp_OK, w).
Proof.
  intros Hr Hall Hmem. unfold control, apply_control. rewrite Hr.
  cbv beta iota delta [opt_eqb opt_mem]. rewrite Hall, Hmem.
  reflexivity.
Qed.

Lemma C3_witness :
  control hw_ok [("relay", "17"); ("state", "on")] (booted hw_ok) =
  (Ok Resp_OK, booted hw_ok).
Proof.
  apply (C3_unknown_relay_is_ignored hw_ok _ "17"); reflexivity.
Defined.

(** ** The state query *)

Lemma only_value_of_trans self w1 w2 w3 :
  only_value_of self w1 w2 -> only_value_of self w2 w3 ->
  only_value_of self w1 w3.
Proof.
  intros H1 H2 d. destruct (H1 d) as (Ha & Hb & Hc).
  destruct (H2 d) as (Ha' & Hb' & Hc').
  repeat split; try congruence.
  intros Hne. rewrite Hc', Hc by assumption. reflexivity.
Qed.

Lemma read_all_wf hw self w :
  wf w = true -> wf (snd (read_all hw self w)) = true.
Proof.
  intros Hw. destruct (read_all_spec hw self w) as (r & w' & Heq & _ & Hr).
  rewrite Heq. simpl. destruct r as [v|].
  - destruct Hr as (_ & (b & _ & ->) & Hd).
    apply wf_spec. intros d. rewrite Hd.
    destruct (dev_eqb self d).
    + simpl. split; [apply is_byte_of_byte | discriminate].
    + now apply wf_spec.
  - destruct Hr as [Hs _]. eapply wf_same_objs; eauto.
Qed.

Lemma read_pin_world hw self n w :
  snd (read_pin hw self n w) = snd (read_all hw self w) \/
  snd (read_pin hw self n w) = w.
Proof.
  unfold read_pin, bind, get_obj.
  destruct (is_valid (obj w self)); cbv beta iota delta [negb]; [|now right].
  destruct (read_all hw self w) as [[[v|]|e] w']; simpl; auto.
  unfold shl1. destruct (n <? 0); auto.
Qed.

Lemma read_pin_wf hw self n w :
  wf w = true -> wf (snd (read_pin hw self n w)) = true.
Proof.
  intros Hw. destruct (read_pin_world hw self n w) as [-> | ->].
  - now apply read_all_wf.
  - exact Hw.
Qed.

Lemma read_pin_returns hw self n w :
  0 <= n -> exists b, fst (read_pin hw self n w) = Ok b.
Proof.
  intros Hn. rewrite read_pin_spec by assumption.
  destruct (read_all hw self w) as [[[v|]|e] w']; simpl; eauto.
Qed.

Lemma keys_dict_set {V} (d : dict string V) (k : string) (v : V) :
  keys (dict_set String.eqb d k v) = add_key (keys d) k.
Proof.
  unfold add_key, keys.
  induction d as [|[k' v'] d IH]; simpl; [reflexivity|].
  destruct (String.eqb k k'); simpl; [reflexivity|].
  rewrite IH.
  destruct (existsb (String.eqb k) (map fst d)); reflexivity.
Qed.

Lemma range_nonneg (n : nat) (i : Z) : In i (range n) -> 0 <= i.
Proof.
  unfold range. rewrite in_map_iff. intros (k & <- & _). lia.
Qed.

(** Reading one board's inputs: never raises, touches only the cached byte
    of that board, and adds one key per bit when the board is valid. *)
Lemma read_inputs_spec hw (pcf : dev) (first : Z) (acc : dict string bool) w :
  exists acc' w',
    read_inputs hw pcf first acc w = (Ok acc', w') /\
    only_value_of pcf w w' /\
    (wf w = true -> wf w' = true) /\
    keys acc' =
    if is_valid (obj w pcf)
    then fold_left add_key (map (input_name first) (range 8)) (keys acc)
    else keys acc.
Proof.
  unfold read_inputs, bind, get_obj.
  destruct (is_valid (obj w pcf)) eqn:Hv.
  - pose proof (fold_for_prefix
      (fun acc i => b <- read_pin hw pcf i ;;
                    ret (dict_set String.eqb acc (input_name first i) b))
      (fun done acc' w' =>
         only_value_of pcf w w' /\ (wf w = true -> wf w' = true) /\
         keys acc' = fold_left add_key (map (input_name first) done) (keys acc))
      (range 8) [] acc w) as H.
    unfold post in H.
    destruct H as (acc' & Hr & Ho & Hw & Hk).
    + intros done i s w1 Hi (Ho & Hw & Hk).
      unfold post, bind.
      destruct (read_pin_returns hw pcf i w1 (range_nonneg _ _ Hi)) as [b Hb].
      pose proof (read_pin_only_value hw pcf i w1) as Ho1.
      pose proof (read_pin_wf hw pcf i w1) as Hw1.
      destruct (read_pin hw pcf i w1) as [r w2]. simpl in *. subst r.
      simpl. eexists. split; [reflexivity|]. split.
      { eapply only_value_of_trans; eauto. }
      split; [auto|].
      rewrite keys_dict_set, map_app, fold_left_app, Hk. reflexivity.
    + split; [apply only_value_of_refl|]. split; auto.
    + unfold input_name in *.
      destruct (fold_for (range 8) acc _ w) as [r w'] eqn:E.
      simpl in *. subst r. exists acc', w'. auto.
  - exists acc, w. split; [reflexivity|].
    split; [apply only_value_of_refl | auto].
Qed.

Lemma relays_state_fold (l : list (string * (dev * Z))) :
  Forall (fun item => 0 <= snd (snd item)) l ->
  forall acc w,
    fold_for l acc (fun acc item =>
      o <- get_obj (fst (snd item)) ;;
      m <- shl1 (snd (snd item)) ;;
      ret (dict_set String.eqb acc (fst item)
             (if negb (truthy (Z.land (value o) m)) then "off" else "on"))) w =
    (Ok (dict_update String.eqb acc
           (map (fun item =>
                   (fst item, shown w (fst (snd item)) (snd (snd item)))) l)),
     w).
Proof.
  induction 1 as [|item l Hp _ IH]; intros acc w; [reflexivity|].
  simpl. unfold bind at 1. unfold bind at 1. unfold get_obj at 1.
  unfold bind at 1. unfold shl1 at 1.
  destruct (Z.ltb_spec (snd (snd item)) 0); [lia|].
  unfold ret at 1. unfold ret at 1.
  rewrite IH. unfold shown, dict_update. simpl.
  rewrite truthy_mask by assumption.
  destruct (Z.testbit (value (obj w (fst (snd item)))) (snd (snd item)));
    reflexivity.
Qed.

(** The relays part of the answer: one entry per relay, in registry order,
    computed from the cache alone. *)
Lemma relays_state_run (w : World) :
  relays_state w =
  (Ok (map (fun item => (fst item, shown w (fst (snd item)) (snd (snd item))))
           outputs_map), w).
Proof.
  unfold relays_state. rewrite relays_state_fold.
  - reflexivity.
  - rewrite outputs_map_eq. repeat constructor; simpl; lia.
Qed.

Lemma inputs_only_refl w : inputs_only w w.
Proof. intros d. auto. Qed.

Lemma inputs_only_trans w1 w2 w3 :
  inputs_only w1 w2 -> inputs_only w2 w3 -> inputs_only w1 w3.
Proof.
  intros H1 H2 d. destruct (H1 d) as (Ha & Hb & Hc).
  destruct (H2 d) as (Ha' & Hb' & Hc').
  repeat split; try congruence.
  intros Hd. rewrite Hc', Hc by assumption. reflexivity.
Qed.

Lemma inputs_only_of_input self w w' :
  self = pcf_inputs_1_8 \/ self = pcf_inputs_9_16 ->
  only_value_of self w w' -> inputs_only w w'.
Proof.
  intros Hs H d. destruct (H d) as (Ha & Hb & Hc).
  repeat split; auto.
  intros Hd. apply Hc. destruct Hs, Hd; congruence.
Qed.

Lemma relays_of_inputs_only w w' :
  inputs_only w w' -> relays_of w' = relays_of w.
Proof.
  intros H. unfold relays_of. apply map_ext_in.
  intros [r [d p]] Hin. simpl. unfold shown.
  rewrite outputs_map_eq in Hin. simpl in Hin.
  assert (Hd : d = pcf_outputs_1_8 \/ d = pcf_outputs_9_16).
  { repeat (destruct Hin as [Hin|Hin]; [inversion Hin; auto|]).
    contradiction. }
  destruct (H d) as (_ & _ & Hc). now rewrite Hc.
Qed.

Lemma dict_get_map {V W} (f : string * V -> W) (d : dict string V) k :
  dict_get String.eqb (map (fun item => (fst item, f item)) d) k =
  match dict_get String.eqb d k with
  | Some v => Some (f (k, v))
  | None => None
  end.
Proof.
  induction d as [|[k' v'] d IH]; simpl; [reflexivity|].
  destruct (String.eqb_spec k k') as [->|_]; [reflexivity | exact IH].
Qed.

Lemma relays_of_get (w : World) (relay_id : string) (pcf : dev) (pin_num : Z) :
  resolve relay_id = Some (pcf, pin_num) ->
  dict_get String.eqb (relays_of w) relay_id = Some (shown w pcf pin_num).
Proof.
  intros H. unfold relays_of. rewrite dict_get_map.
  unfold resolve in H. now rewrite H.
Qed.

(** The state query never raises; its relays part is read off the cache
    as it was on entry; its inputs part has the three sensors and the bits
    of the valid boards; and it changes nothing but input caches. *)
Lemma api_state_handler_spec (hw : Hardware) (w : World) :
  exists inputs w',
    api_state_handler hw w = (Ok (Resp_json (relays_of w) inputs), w') /\
    keys inputs =
      ["HT1"; "HT2"; "HT3"]
      ++ (if is_valid (inputs_1_8 w) then keys_X_1_8 else [])
      ++ (if is_valid (inputs_9_16 w) then keys_X_9_16 else []) /\
    inputs_only w w' /\
    (wf w = true -> wf w' = true).
Proof.
  unfold api_state_handler.
  unfold bind at 1. unfold pin_value at 1.
  unfold bind at 1. unfold pin_value at 1.
  unfold bind at 1. unfold pin_value at 1.
  set (w3 := tick (tick (tick w))).
  set (acc0 := [("HT1", _); ("HT2", _); ("HT3", _)]).
  assert (H3 : inputs_only w w3).
  { intros d. unfold w3. rewrite !obj_tick. auto. }
  destruct (read_inputs_spec hw pcf_inputs_1_8 1 acc0 w3)
    as (acc1 & w4 & E1 & Ho1 & Hw1 & Hk1).
  destruct (read_inputs_spec hw pcf_inputs_9_16 9 acc1 w4)
    as (acc2 & w5 & E2 & Ho2 & Hw2 & Hk2).
  apply inputs_only_of_input in Ho1; [|auto].
  apply inputs_only_of_input in Ho2; [|auto].
  assert (H5 : inputs_only w w5).
  { eapply inputs_only_trans; [exact H3|].
    eapply inputs_only_trans; eassumption. }
  unfold bind at 1. rewrite E1.
  unfold bind at 1. rewrite E2.
  unfold bind at 1. rewrite relays_state_run.
  fold (relays_of w5). rewrite (relays_of_inputs_only w w5 H5).
  exists acc2, w5. split; [reflexivity|]. split; [|split].
  - rewrite Hk2, Hk1.
    destruct (Ho1 pcf_inputs_9_16) as (Hv & _).
    simpl obj in *. rewrite Hv. unfold w3. simpl.
    destruct (is_valid (inputs_1_8 w)), (is_valid (inputs_9_16 w));
      reflexivity.
  - exact H5.
  - intros Hw. apply Hw2, Hw1. exact Hw.
Qed.

(** ** C1: the polarity of the reported relay state *)

(** C1, as stated, fails: after boot the cached bit of relay "1" is 1,
    not 0, and the state query reports that relay "on". *)
Lemma C1_counterexample :
  let w := booted hw_ok in
  resolve "1" = Some (pcf_outputs_1_8, 0) /\
  Z.testbit (value (outputs_1_8 w)) 0 = true /\
  exists relays inputs,
    fst (api_state_handler hw_ok w) = Ok (Resp_json relays inputs) /\
    dict_get String.eqb relays "1" = Some "on".
Proof.
  vm_compute. split; [reflexivity|]. split; [reflexivity|].
  eexists _, _. split; reflexivity.
Qed.

(** C1, amended.  For every relay identifier of the registry the state
    query computes the reported string from the cached bit of that relay's
    output device as it is when the query starts: it reports "on" exactly
    when the cached bit is 1 and "off" exactly when it is 0. *)
Theorem C1_reports_on_iff_bit_set (hw : Hardware) (w : World)
    (relay_id : string) (pcf : dev) (pin_num : Z) :
  resolve relay_id = Some (pcf, pin_num) ->
  exists relays inputs,
    fst (api_state_handler hw w) = Ok (Resp_json relays inputs) /\
    (dict_get String.eqb relays relay_id = Some "on" <->
     Z.testbit (value (obj w pcf)) pin_num = true) /\
    (dict_get String.eqb relays relay_id = Some "off" <->
     Z.testbit (value (obj w pcf)) pin_num = false).
Proof.
  intros Hr.
  destruct (api_state_handler_spec hw w) as (inputs & w' & E & _).
  exists (relays_of w), inputs. rewrite E. split; [reflexivity|].
  rewrite (relays_of_get w relay_id pcf pin_num Hr). unfold shown.
  destruct (Z.testbit (value (obj w pcf)) pin_num);
    split; split; intros; congruence.
Qed.

Lemma C1_witness :
  exists relays inputs,
    fst (api_state_handler hw_deaf (booted hw_deaf)) =
      Ok (Resp_json relays inputs) /\
    (dict_get String.eqb relays "12" = Some "on" <->
     Z.testbit (value (obj (booted hw_deaf) pcf_outputs_9_16)) 3 = true) /\
    (dict_get String.eqb relays "12" = Some "off" <->
     Z.testbit (value (obj (booted hw_deaf) pcf_outputs_9_16)) 3 = false).
Proof.
  apply (C1_reports_on_iff_bit_set hw_deaf (booted hw_deaf) "12").
  reflexivity.
Defined.

(** ** C8: the shape of the state answer *)

(** C8, as stated, fails: when the first input board was found invalid at
    construction, the answer has no entries "X01".."X08". *)
Lemma C8_counterexample :
  let w := booted hw_no_inputs_1_8 in
  is_valid (inputs_1_8 w) = false /\
  exists relays inputs,
    fst (handle_client hw_no_inputs_1_8 "/api/state" w) =
      Ok (Resp_json relays inputs) /\
    keys inputs =
      ["HT1"; "HT2"; "HT3"; "X09"; "X10"; "X11"; "X12"; "X13"; "X14"; "X15";
       "X16"] /\
    dict_get String.eqb inputs "X01" = None.
Proof.
  vm_compute. split; [reflexivity|].
  eexists _, _. split; [reflexivity|]. split; reflexivity.
Qed.

(** C8, amended.  In every state the state query answers with a "relays"
    map whose keys are exactly "1".."16", each valued "on" or "off", and an
    "inputs" map of booleans whose keys are exactly HT1, HT2, HT3, then
    X01..X08 when the first input board is valid, then X09..X16 when the
    second is; the entries of an invalid board are absent. *)
Theorem C8_state_answer_shape (hw : Hardware) (w : World) :
  exists relays inputs,
    fst (api_state_handler hw w) = Ok (Resp_json relays inputs) /\
    keys relays = relay_ids /\
    (forall id v, In (id, v) relays -> v = "on" \/ v = "off") /\
    keys inputs =
      ["HT1"; "HT2"; "HT3"]
      ++ (if is_valid (inputs_1_8 w) then keys_X_1_8 else [])
      ++ (if is_valid (inputs_9_16 w) then keys_X_9_16 else []).
Proof.
  destruct (api_state_handler_spec hw w) as (inputs & w' & E & Hk & _).
  exists (relays_of w), inputs. rewrite E.
  split; [reflexivity|]. split; [|split].
  - unfold relays_of, keys. rewrite map_map. reflexivity.
  - intros id v Hin. unfold relays_of in Hin.
    apply in_map_iff in Hin. destruct Hin as (item & [= _ <-] & _).
    unfold shown. destruct (Z.testbit _ _); auto.
  - exact Hk.
Qed.

(** ** Control writes *)

Lemma with_bit_is_byte (v n : Z) (st : bool) :
  is_byte v -> 0 <= n < 8 -> is_byte (with_bit v n st).
Proof.
  intros Hv Hn. unfold with_bit. destruct st; simpl.
  - now apply is_byte_set.
  - now apply is_byte_clear.
Qed.

(** Writing one registry bit: returns normally and keeps the store well
    formed. *)
Lemma write_pin_wf hw self n st w :
  0 <= n < 8 -> wf w = true ->
  fst (write_pin hw self n st w) = Ok tt /\
  wf (snd (write_pin hw self n st w)) = true.
Proof.
  intros Hn Hw.
  destruct (write_pin_spec hw self n st w) as (r & w' & Heq & _ & Hok & Hd);
    [lia|].
  pose proof (proj1 (wf_spec w) Hw) as Hs.
  assert (Hb : is_byte (with_bit (value (obj w self)) n st)).
  { apply with_bit_is_byte; [apply Hs | assumption]. }
  rewrite Heq. simpl. split; [auto|].
  apply wf_spec. intros d. rewrite Hd.
  destruct (dev_eqb self d && is_valid (obj w self)).
  - simpl. split; [exact Hb | discriminate].
  - apply Hs.
Qed.

(** Writing True sets that bit in the cache and clears no other bit, on any
    device. *)
Lemma write_pin_true_bits hw self n w :
  0 <= n < 8 -> wf w = true ->
  Z.testbit (value (obj (snd (write_pin hw self n true w)) self)) n = true /\
  forall d q,
    Z.testbit (value (obj w d)) q = true ->
    Z.testbit (value (obj (snd (write_pin hw self n true w)) d)) q = true.
Proof.
  intros Hn Hw.
  destruct (write_pin_spec hw self n true w) as (r & w' & Heq & _ & _ & Hd);
    [lia|].
  pose proof (proj1 (wf_spec w) Hw) as Hs.
  rewrite Heq. simpl. split.
  - rewrite Hd, dev_eqb_refl. simpl.
    destruct (is_valid (obj w self)) eqn:Hv; simpl.
    + unfold with_bit. simpl. rewrite testbit_set by lia.
      rewrite Z.eqb_refl. apply orb_true_r.
    + destruct (Hs self) as [_ H255]. rewrite H255 by assumption.
      now apply testbit_0xFF.
  - intros d q Hq. rewrite Hd.
    destruct (dev_eqb self d && is_valid (obj w self)) eqn:E; [|exact Hq].
    apply andb_prop in E. destruct E as [E _]. apply dev_eqb_eq in E. subst d.
    simpl. unfold with_bit. simpl. rewrite testbit_set by lia.
    now rewrite Hq.
Qed.

Lemma apply_control_single hw (relay_id st : string) (d : dev) (p : Z) w :
  resolve relay_id = Some (d, p) ->
  String.eqb relay_id "all" = false ->
  is_on_off (Some st) = true ->
  apply_control hw (Some relay_id) (Some st) w =
  (write_pin hw d p (String.eqb st "on") ;;;
   print (Log_relay_set relay_id st)) w.
Proof.
  intros Hr Hall Hst. unfold apply_control.
  cbv beta iota delta [opt_eqb opt_mem or_empty]. rewrite Hall, Hst.
  unfold dict_mem. unfold resolve in Hr. rewrite Hr.
  cbv beta iota delta [andb]. unfold bind at 1. unfold subscript.
  rewrite Hr. reflexivity.
Qed.

Lemma apply_control_all hw (st : string) w :
  is_on_off (Some st) = true ->
  apply_control hw (Some "all") (Some st) w =
  (for_each (keys outputs_map) (fun relay_num =>
     pp <- subscript String.eqb outputs_map relay_num ;;
     write_pin hw (fst pp) (snd pp) (String.eqb st "on")) ;;;
   print (Log_all_set st)) w.
Proof.
  intros Hst. unfold apply_control.
  cbv beta iota delta [opt_eqb or_empty]. rewrite Hst. reflexivity.
Qed.

Lemma subscript_resolve (relay_id : string) (v : dev * Z) (w : World) :
  resolve relay_id = Some v ->
  subscript String.eqb outputs_map relay_id w = (Ok v, w).
Proof.
  intros H. unfold subscript.
  change (dict_get String.eqb outputs_map relay_id) with (resolve relay_id).
  rewrite H. reflexivity.
Qed.

Lemma keys_resolve (relay_id : string) :
  In relay_id (keys outputs_map) ->
  exists d p, resolve relay_id = Some (d, p).
Proof.
  rewrite outputs_map_eq. simpl. intros H.
  repeat (destruct H as [<- | H]; [eexists _, _; reflexivity|]).
  contradiction.
Qed.

(** The loop of "all on": every relay visited has its bit set, and stays
    set while the later ones are written. *)
Lemma all_on_loop hw w :
  wf w = true ->
  post (for_each (keys outputs_map) (fun relay_num =>
          pp <- subscript String.eqb outputs_map relay_num ;;
          write_pin hw (fst pp) (snd pp) true)) w
       (fun r w' =>
          r = Ok tt /\ wf w' = true /\
          forall relay_id d p,
            In relay_id (keys outputs_map) ->
            resolve relay_id = Some (d, p) ->
            Z.testbit (value (obj w' d)) p = true).
Proof.
  intros Hw.
  pose proof (for_each_prefix
    (fun relay_num =>
       pp <- subscript String.eqb outputs_map relay_num ;;
       write_pin hw (fst pp) (snd pp) true)
    (fun done w' =>
       wf w' = true /\
       forall relay_id d p,
         In relay_id done -> resolve relay_id = Some (d, p) ->
         Z.testbit (value (obj w' d)) p = true)
    (keys outputs_map) [] w) as H.
  eapply post_mono; [apply H|].
  - intros done x w1 Hx [Hw1 Hbits].
    destruct (keys_resolve x Hx) as (d & p & Hr).
    destruct (outputs_map_pins x d p Hr) as [Hp _].
    unfold post, bind. rewrite (subscript_resolve x (d, p) w1 Hr).
    cbv beta iota delta [fst snd].
    destruct (write_pin_wf hw d p true w1 Hp Hw1) as [Hok Hwf].
    destruct (write_pin_true_bits hw d p w1 Hp Hw1) as [Hset Hkeep].
    destruct (write_pin hw d p true w1) as [r w2]. simpl in *.
    split; [exact Hok|]. split; [exact Hwf|].
    intros relay_id d' p' Hin Hr'. apply in_app_or in Hin.
    destruct Hin as [Hin | [<- | []]].
    + apply Hkeep. eapply Hbits; eauto.
    + rewrite Hr in Hr'. inversion Hr'. subst. exact Hset.
  - split; [exact Hw|]. intros ? ? ? [].
  - simpl. intros r w' (Hr & Hwf & Hbits). auto.
Qed.

Lemma shown_add_line l w d p : shown (add_line l w) d p = shown w d p.
Proof. unfold shown. now rewrite obj_add_line. Qed.

(** ** C4: a control write, then the state query *)

(** C4.  In a well-formed store (every reachable one is), after
    [apply_control("3", "on")] the state query reports relay "3" as "on",
    and after [apply_control("all", "on")] it reports every relay
    "1".."16" as "on"; both control calls return normally.  This holds
    whether or not the bus writes succeed. *)
Theorem C4_control_then_state (hw : Hardware) (w : World) :
  wf w = true ->
  (fst (apply_control hw (Some "3") (Some "on") w) = Ok tt /\
   exists relays inputs,
     fst (api_state_handler hw
            (snd (apply_control hw (Some "3") (Some "on") w))) =
       Ok (Resp_json relays inputs) /\
     dict_get String.eqb relays "3" = Some "on") /\
  (fst (apply_control hw (Some "all") (Some "on") w) = Ok tt /\
   exists relays inputs,
     fst (api_state_handler hw
            (snd (apply_control hw (Some "all") (Some "on") w))) =
       Ok (Resp_json relays inputs) /\
     forall relay_id, In relay_id relay_ids ->
       dict_get String.eqb relays relay_id = Some "on").
Proof.
  intros Hw. split.
  - rewrite (apply_control_single hw "3" "on" pcf_outputs_1_8 2)
      by reflexivity.
    unfold bind, print.
    assert (Hp : 0 <= 2 < 8) by lia.
    destruct (write_pin_wf hw pcf_outputs_1_8 2 true w Hp Hw) as [Hok _].
    destruct (write_pin_true_bits hw pcf_outputs_1_8 2 w Hp Hw) as [Hset _].
    change (String.eqb "on" "on") with true.
    destruct (write_pin hw pcf_outputs_1_8 2 true w) as [r w1].
    cbv beta iota delta [fst snd] in Hok, Hset |- *. subst r.
    split; [reflexivity|].
    set (w2 := add_line _ w1).
    destruct (api_state_handler_spec hw w2) as (inputs & w3 & E & _).
    exists (relays_of w2), inputs. rewrite E. split; [reflexivity|].
    rewrite (relays_of_get w2 "3" pcf_outputs_1_8 2) by reflexivity.
    unfold w2. rewrite shown_add_line. unfold shown.
    now rewrite Hset.
  - rewrite (apply_control_all hw "on") by reflexivity.
    change (String.eqb "on" "on") with true.
    pose proof (all_on_loop hw w Hw) as H. unfold post in H.
    unfold bind, print.
    destruct (for_each (keys outputs_map) _ w) as [r w1].
    cbv beta iota delta [fst snd] in H |- *.
    destruct H as (-> & _ & Hbits). split; [reflexivity|].
    set (w2 := add_line _ w1).
    destruct (api_state_handler_spec hw w2) as (inputs & w3 & E & _).
    exists (relays_of w2), inputs. rewrite E. split; [reflexivity|].
    intros relay_id Hin.
    change relay_ids with (keys outputs_map) in Hin.
    destruct (keys_resolve relay_id Hin) as (d & p & Hr).
    rewrite (relays_of_get w2 relay_id d p Hr).
    unfold w2. rewrite shown_add_line. unfold shown.
    now rewrite (Hbits relay_id d p Hin Hr).
Qed.

Lemma C4_witness :
  exists relays inputs,
    fst (api_state_handler hw_ok
           (snd (apply_control hw_ok (Some "3") (Some "on") (booted hw_ok)))) =
      Ok (Resp_json relays inputs) /\
    dict_get String.eqb relays "3" = Some "on".
Proof.
  assert (Hw : wf (booted hw_ok) = true) by reflexivity.
  destruct (C4_control_then_state hw_ok (booted hw_ok) Hw) as [[_ H] _].
  exact H.
Defined.

(** ** The key-scanning task *)

Lemma emits_fired w w' t : emits w w' t -> fired w w' = t.
Proof.
  intros (extra & Hs & Ht). unfold fired.
  rewrite Hs, skipn_app, skipn_all, Nat.sub_diag. simpl. exact Ht.
Qed.

Lemma quiet_emits w w' : quiet w w' -> emits w w' [].
Proof. intros [_ H]. exact H. Qed.

Lemma emits_refl w : emits w w [].
Proof. exists []. now rewrite app_nil_r. Qed.

Lemma emits_trans w1 w2 w3 t1 t2 :
  emits w1 w2 t1 -> emits w2 w3 t2 -> emits w1 w3 (t1 ++ t2).
Proof.
  intros (e1 & Hs1 & Ht1) (e2 & Hs2 & Ht2). exists (e1 ++ e2). split.
  - rewrite Hs2, Hs1, app_assoc. reflexivity.
  - rewrite flat_map_app, Ht1, Ht2. reflexivity.
Qed.

Lemma same_objs_trans w1 w2 w3 :
  same_objs w1 w2 -> same_objs w2 w3 -> same_objs w1 w3.
Proof. intros H1 H2 d. now rewrite H2, H1. Qed.

(** Writing a bit the value it already has leaves the byte as it is. *)
Lemma with_bit_same (v i : Z) : 0 <= i -> with_bit v i (Z.testbit v i) = v.
Proof.
  intros Hi. unfold with_bit.
  destruct (Z.testbit v i) eqn:E; simpl.
  - now apply set_same.
  - now apply clear_same.
Qed.

(** The "toggle" of the scan task reads the relay with the inverted
    convention and writes it with the direct one: the byte it writes is
    the byte already cached. *)
Lemma trigger_spec hw (addr : Z) (pcf : dev) (i : Z) (w : World) :
  In (addr, pcf) pcf_inputs -> 0 <= i < 8 -> wf w = true ->
  exists relay_id w',
    resolve_input addr i = Some relay_id /\
    trigger hw addr i w = (Ok tt, w') /\
    same_objs w w' /\ prev_state w' = prev_state w /\
    emits w w' [(i, addr, relay_id)].
Proof.
  intros Hin Hi Hw.
  destruct (resolve_input_resolve addr pcf i Hin Hi)
    as (row & relay_id & pcf_out & Hrow & Hrel & Hri & Hres & _).
  exists relay_id.
  unfold trigger. unfold bind at 1. unfold subscript at 1. rewrite Hrow.
  unfold ret at 1. unfold bind at 1. unfold subscript at 1. rewrite Hrel.
  unfold ret at 1. unfold bind at 1.
  rewrite (subscript_resolve relay_id (pcf_out, i) w Hres).
  cbv beta iota delta [fst snd].
  unfold bind at 1. unfold get_obj at 1.
  unfold bind at 1. unfold shl1 at 1.
  destruct (Z.ltb_spec i 0); [lia|]. unfold ret at 1.
  rewrite negb_involutive, truthy_mask by lia.
  destruct (write_pin_spec hw pcf_out i
              (Z.testbit (value (obj w pcf_out)) i) w)
    as (r & w1 & Heq & Hq & Hok & Hd); [lia|].
  rewrite with_bit_same in Hok, Hd by lia.
  pose proof (proj1 (wf_spec w) Hw pcf_out) as [Hb _].
  unfold bind, print. rewrite Heq, (Hok (or_intror Hb)).
  eexists. split; [exact Hri|]. split; [reflexivity|].
  assert (Hs : same_objs w w1).
  { intros d. rewrite Hd.
    destruct (dev_eqb pcf_out d) eqn:E; [|reflexivity].
    apply dev_eqb_eq in E. subst d.
    destruct (is_valid (obj w pcf_out)) eqn:Hv; [|reflexivity].
    simpl. destruct (obj w pcf_out); simpl in *. now subst. }
  split; [intros d; now rewrite obj_add_line|].
  split; [apply Hq|].
  destruct Hq as [_ (extra & Hs1 & Ht1)].
  exists (extra ++ [Log_triggered i addr relay_id
                      (Z.testbit (value (obj w pcf_out)) i)]).
  split.
  - simpl. rewrite Hs1, app_assoc. reflexivity.
  - rewrite flat_map_app, Ht1. reflexivity.
Qed.

(** One bit of one pass: a toggle exactly on a falling edge. *)
Lemma scan_bit_spec hw (addr : Z) (pcf : dev) (before cur i : Z) (w : World) :
  In (addr, pcf) pcf_inputs -> 0 <= i < 8 -> wf w = true ->
  exists w',
    scan_bit hw addr (Z.lxor before cur) cur i w = (Ok tt, w') /\
    same_objs w w' /\ prev_state w' = prev_state w /\
    emits w w' (edge addr before cur i).
Proof.
  intros Hin Hi Hw. unfold scan_bit, bind, shl1.
  destruct (Z.ltb_spec i 0); [lia|]. unfold ret at 1 2.
  rewrite !truthy_mask, Z.lxor_spec by lia.
  unfold edge, falling.
  destruct (Z.testbit before i), (Z.testbit cur i); simpl;
    try (exists w; split; [reflexivity|]; split; [intros d; reflexivity|];
         split; [reflexivity | apply emits_refl]).
  destruct (trigger_spec hw addr pcf i w Hin Hi Hw)
    as (relay_id & w' & Hri & Heq & Hs & Hp & He).
  rewrite Hri. exists w'. auto.
Qed.

(** The eight bits of one pass. *)
Lemma scan_bits_spec hw (addr : Z) (pcf : dev) (before cur : Z) (w : World) :
  In (addr, pcf) pcf_inputs -> wf w = true ->
  exists w',
    for_each (range 8) (scan_bit hw addr (Z.lxor before cur) cur) w =
      (Ok tt, w') /\
    same_objs w w' /\ prev_state w' = prev_state w /\
    emits w w' (edges addr before cur (range 8)).
Proof.
  intros Hin Hw.
  pose proof (for_each_prefix
    (scan_bit hw addr (Z.lxor before cur) cur)
    (fun done w' =>
       same_objs w w' /\ prev_state w' = prev_state w /\
       emits w w' (edges addr before cur done))
    (range 8) [] w) as H.
  unfold post in H.
  destruct H as (Hr & Hs & Hp & He).
  - intros done i w1 Hi (Hs & Hp & He).
    assert (Hi8 : 0 <= i < 8).
    { unfold range in Hi. apply in_map_iff in Hi.
      destruct Hi as (k & <- & Hk). apply in_seq in Hk. lia. }
    destruct (scan_bit_spec hw addr pcf before cur i w1 Hin Hi8)
      as (w2 & Heq & Hs2 & Hp2 & He2).
    { eapply wf_same_objs; eauto. }
    unfold post. rewrite Heq. simpl. split; [reflexivity|].
    split; [eapply same_objs_trans; eauto|].
    split; [congruence|].
    unfold edges. rewrite flat_map_app. simpl. rewrite app_nil_r.
    eapply emits_trans; eauto.
  - split; [intros d; reflexivity|]. split; [reflexivity | apply emits_refl].
  - destruct (for_each (range 8) _ w) as [r w']. simpl in *. subst r.
    exists w'. auto.
Qed.

Lemma dict_get_set_same {V} (d : dict Z V) (k : Z) (v : V) :
  dict_get Z.eqb (dict_set Z.eqb d k v) k = Some v.
Proof.
  induction d as [|[k' v'] d IH]; simpl.
  - now rewrite Z.eqb_refl.
  - destruct (Z.eqb_spec k k') as [->|Hne]; simpl.
    + now rewrite Z.eqb_refl.
    + destruct (Z.eqb_spec k k'); [contradiction | exact IH].
Qed.

(** One input board in one pass, when its read succeeds and a previous
    snapshot exists: the toggles fired are exactly the falling edges
    between the previous snapshot and the byte just read, and that byte
    becomes the previous snapshot.  No cached byte of an output device
    changes. *)
Lemma scan_device_spec hw (addr : Z) (pcf : dev) (before : Z) (b : Byte.byte)
    (w : World) :
  In (addr, pcf) pcf_inputs ->
  wf w = true ->
  is_valid (obj w pcf) = true ->
  address (obj w pcf) = addr ->
  dict_get Z.eqb (prev_state w) addr = Some (Some before) ->
  hw_readfrom hw (clock w) addr = Some b ->
  let cur := Z.of_N (Byte.to_N b) in
  exists w',
    scan_device hw addr pcf w = (Ok tt, w') /\
    emits w w' (edges addr before cur (range 8)) /\
    dict_get Z.eqb (prev_state w') addr = Some (Some cur) /\
    only_value_of pcf w w' /\
    wf w' = true.
Proof.
  intros Hin Hw Hv Ha Hprev Hread cur.
  destruct (read_all_spec hw pcf w) as (r & w1 & Heq & Hq & Hr).
  pose proof (read_all_wf hw pcf w Hw) as Hw1.
  pose proof (read_all_only_value hw pcf w) as Ho1.
  rewrite Heq in Hw1, Ho1. simpl in Hw1, Ho1.
  destruct r as [v|].
  2:{ destruct Hr as (_ & [Hf | Hf]); rewrite ?Ha in Hf; congruence. }
  destruct Hr as (_ & (b' & Hb' & ->) & _).
  rewrite Ha in Hb'. assert (b' = b) as -> by congruence. fold cur in Heq.
  destruct Hq as [Hp1 He1].
  destruct (scan_bits_spec hw addr pcf before cur w1 Hin Hw1)
    as (w2 & Hloop & Hs2 & Hp2 & He2).
  unfold scan_device. unfold bind at 1. unfold get_obj at 1. rewrite Hv.
  cbv beta iota delta [negb]. unfold bind at 1. rewrite Heq.
  unfold bind at 1. unfold get_prev at 1.
  unfold bind at 1. unfold subscript at 1. rewrite Hp1, Hprev.
  unfold ret at 1. unfold bind at 1. unfold xor at 1. unfold ret at 1.
  unfold bind at 1. rewrite Hloop.
  unfold bind, get_prev, put_prev.
  eexists. split; [reflexivity|]. split; [|split; [|split]].
  - destruct He2 as (e2 & Hs & Ht). destruct He1 as (e1 & Hs' & Ht').
    exists (e1 ++ e2). split.
    + simpl. rewrite Hs, Hs', app_assoc. reflexivity.
    + rewrite flat_map_app, Ht, Ht'. reflexivity.
  - simpl. apply dict_get_set_same.
  - eapply only_value_of_trans; [exact Ho1|].
    apply only_value_of_same. intros d. rewrite obj_set_prev. apply Hs2.
  - eapply wf_same_objs; [|exact Hw1].
    intros d. rewrite obj_set_prev. apply Hs2.
Qed.

(** ** Every reachable store is well formed *)

Lemma wf_add_line l w : wf (add_line l w) = wf w.
Proof. reflexivity. Qed.

Lemma wf_set_prev p w : wf (set_prev p w) = wf w.
Proof. reflexivity. Qed.


Lemma dict_of_items_world items : forall acc w,
  snd (dict_of_items items acc w) = w.
Proof.
  induction items as [|item items IH]; intros acc w; [reflexivity|].
  destruct item as [|k [|v [|x l]]]; simpl; auto.
Qed.

Lemma index_world {A} (l : list A) (i : nat) (w : World) :
  snd (index l i w) = w.
Proof. unfold index. destruct (nth_error l i); reflexivity. Qed.

Lemma control_line_wf hw (relay_id : string) (d : dev) (p : Z) (st : bool) w :
  resolve relay_id = Some (d, p) -> wf w = true ->
  post (pp <- subscript String.eqb outputs_map relay_id ;;
        write_pin hw (fst pp) (snd pp) st) w
       (fun _ w' => wf w' = true).
Proof.
  intros Hr Hw. unfold post, bind.
  rewrite (subscript_resolve relay_id (d, p) w Hr).
  cbv beta iota delta [fst snd].
  destruct (outputs_map_pins relay_id d p Hr) as [Hp _].
  now destruct (write_pin_wf hw d p st w Hp Hw).
Qed.

Lemma apply_control_wf hw (relay_id state : option string) w :
  wf w = true -> wf (snd (apply_control hw relay_id state w)) = true.
Proof.
  intros Hw. change (post (apply_control hw relay_id state) w
                          (fun _ w' => wf w' = true)).
  unfold apply_control.
  destruct (opt_eqb relay_id "all" && is_on_off state).
  - apply post_bind.
    eapply post_mono.
    + apply (for_each_inv _ (fun w => wf w = true)); [|exact Hw].
      intros x w1 Hx Hw1. destruct (keys_resolve x Hx) as (d & p & Hr).
      eapply control_line_wf; eauto.
    + intros [[]|e] w' HI; exact HI.
  - destruct (opt_mem relay_id outputs_map && is_on_off state) eqn:E;
      [|exact Hw].
    apply andb_prop in E. destruct E as [E _].
    destruct relay_id as [id|]; [|discriminate]. simpl in E.
    unfold dict_mem in E.
    destruct (dict_get String.eqb outputs_map id) as [[d p]|] eqn:Hr;
      [|discriminate].
    cbv beta iota delta [or_empty].
    pose proof (control_line_wf hw id d p (opt_eqb state "on") w Hr Hw) as H.
    unfold post, bind in *.
    destruct (subscript String.eqb outputs_map id w) as [[pp|e] w1];
      [|exact H].
    destruct (write_pin hw (fst pp) (snd pp) (opt_eqb state "on") w1)
      as [[[]|e] w2]; exact H.
Qed.

Lemma index_handler_wf hw path w :
  wf w = true -> wf (snd (index_handler hw path w)) = true.
Proof.
  intros Hw. unfold index_handler.
  destruct (contains "?" path); [|exact Hw].
  unfold try_except, control, bind, ret, print.
  pose proof (index_world (split "?" path) 1 w) as Hi.
  destruct (index (split "?" path) 1 w) as [[query|e] w1]; simpl in Hi;
    subst w1; [|exact Hw].
  pose proof (dict_of_items_world (map (split "=") (split "&" query)) [] w)
    as Hd.
  destruct (dict_of_items (map (split "=") (split "&" query)) [] w)
    as [[params|e] w1]; simpl in Hd; subst w1; [|exact Hw].
  pose proof (apply_control_wf hw (dict_get String.eqb params "relay")
                (dict_get String.eqb params "state") w Hw) as Ha.
  destruct (apply_control hw _ _ w) as [[[]|e] w1]; exact Ha.
Qed.

Lemma handle_client_wf hw path w :
  wf w = true -> wf (snd (handle_client hw path w)) = true.
Proof.
  intros Hw. unfold handle_client.
  destruct (String.eqb _ "/"); [now apply index_handler_wf|].
  destruct (String.eqb _ "/api/state"); [|exact Hw].
  destruct (api_state_handler_spec hw w) as (inputs & w' & E & _ & _ & H).
  rewrite E. auto.
Qed.

(** One board in one pass, whatever it reads and whatever the previous
    snapshot is: the store stays well formed and no output cache changes. *)
Lemma scan_device_keeps hw (addr : Z) (pcf : dev) (w : World) :
  In (addr, pcf) pcf_inputs -> wf w = true ->
  post (scan_device hw addr pcf) w
       (fun _ w' => wf w' = true /\ inputs_only w w').
Proof.
  intros Hin Hw. unfold post.
  destruct (scan_device hw addr pcf w) as [res w'] eqn:E.
  cbv beta iota delta [fst snd].
  unfold scan_device in E. unfold bind at 1 in E. unfold get_obj at 1 in E.
  destruct (is_valid (obj w pcf)); cbv beta iota delta [negb] in E.
  2:{ inversion E; subst. split; [exact Hw | apply inputs_only_refl]. }
  pose proof (read_all_wf hw pcf w Hw) as Hw1.
  pose proof (read_all_only_value hw pcf w) as Ho1.
  apply inputs_only_of_input in Ho1;
    [|destruct Hin as [[= _ <-] | [[= _ <-] | []]]; auto].
  destruct (read_all_spec hw pcf w) as (r & w1 & Heq & _).
  rewrite Heq in Hw1, Ho1. cbv beta iota delta [snd] in Hw1, Ho1.
  unfold bind at 1 in E. rewrite Heq in E.
  destruct r as [cur|]; [|inversion E; subst; split; assumption].
  unfold bind at 1 in E. unfold get_prev at 1 in E.
  unfold bind at 1 in E. unfold subscript at 1 in E.
  destruct (dict_get Z.eqb (prev_state w1) addr) as [before|];
    [|inversion E; subst; split; assumption].
  unfold ret at 1 in E. unfold bind at 1 in E. unfold xor at 1 in E.
  destruct before as [before|]; [|inversion E; subst; split; assumption].
  unfold ret at 1 in E.
  destruct (scan_bits_spec hw addr pcf before cur w1 Hin Hw1)
    as (w2 & Hloop & Hs2 & _).
  unfold bind at 1 in E. rewrite Hloop in E.
  unfold bind, get_prev, put_prev in E. inversion E; subst.
  rewrite wf_set_prev. split.
  - eapply wf_same_objs; eauto.
  - eapply inputs_only_trans; [exact Ho1|].
    intros d. rewrite obj_set_prev, Hs2. auto.
Qed.

Lemma scan_keys_pass_keeps hw (w : World) :
  wf w = true ->
  wf (snd (scan_keys_pass hw w)) = true /\
  inputs_only w (snd (scan_keys_pass hw w)).
Proof.
  intros Hw.
  change (post (scan_keys_pass hw) w
               (fun _ w' => wf w' = true /\ inputs_only w w')).
  unfold scan_keys_pass. apply post_try_except.
  eapply post_mono.
  - apply (for_each_inv _ (fun w' => wf w' = true /\ inputs_only w w')).
    + intros [addr pcf] w1 Hx [Hw1 Ho1].
      eapply post_mono; [apply scan_device_keeps; assumption|].
      intros _ w2 [Hw2 Ho2]. split; [exact Hw2|].
      eapply inputs_only_trans; eauto.
    + split; [exact Hw | apply inputs_only_refl].
  - intros [[]|e] w' HI; [exact HI|].
    unfold post, print. simpl. rewrite wf_add_line.
    destruct HI as [Hw' Ho']. split; [exact Hw'|].
    intros d. rewrite obj_add_line. apply Ho'.
Qed.

(** ** Start-up *)

(** The four constructors: whatever the bus scans do, every cache is 0xFF. *)
Lemma module_init_run hw :
  exists w',
    module_init hw World0 = (Ok tt, w') /\
    forall d, value (obj w' d) = 0xFF.
Proof.
  unfold module_init, PCF8574_init, bind, try_except_OSError, i2c_scan, print,
    set_is_valid, ret, World0.
  simpl.
  destruct (hw_scan hw 0%nat); simpl;
    destruct (hw_scan hw 1%nat); simpl;
    destruct (hw_scan hw 2%nat); simpl;
    destruct (hw_scan hw 3%nat); simpl;
    (eexists; split; [reflexivity | intros []; reflexivity]).
Qed.

Lemma all_0xFF_wf w : (forall d, value (obj w d) = 0xFF) -> wf w = true.
Proof.
  intros H. apply wf_spec. intros d. rewrite H.
  split; [unfold is_byte; lia | reflexivity].
Qed.

Lemma write_all_0xFF hw self w :
  (forall d, value (obj w d) = 0xFF) ->
  fst (write_all hw self 0xFF w) = Ok tt /\
  forall d, value (obj (snd (write_all hw self 0xFF w)) d) = 0xFF.
Proof.
  intros H.
  destruct (write_all_spec hw self 0xFF w) as (r & w' & Heq & _ & Hok & _ & Hd).
  rewrite Heq. simpl. split.
  - apply Hok. right. unfold is_byte. lia.
  - intros d. destruct Hd as [Hs | (_ & _ & _ & Hd)].
    + rewrite Hs. apply H.
    + rewrite Hd. destruct (dev_eqb self d); [reflexivity | apply H].
Qed.

(** The entry point's two writes of 0xFF: succeed or fail, every cache is
    still 0xFF. *)
Lemma main_run hw w :
  (forall d, value (obj w d) = 0xFF) ->
  fst (main hw w) = Ok tt /\
  forall d, value (obj (snd (main hw w)) d) = 0xFF.
Proof.
  intros H. unfold main, bind, get_obj.
  assert (H1 : exists w1,
    (if is_valid (obj w pcf_outputs_1_8)
     then write_all hw pcf_outputs_1_8 0xFF else ret tt) w = (Ok tt, w1) /\
    forall d, value (obj w1 d) = 0xFF).
  { destruct (is_valid (obj w pcf_outputs_1_8)).
    - destruct (write_all_0xFF hw pcf_outputs_1_8 w H) as [Hr Hv].
      destruct (write_all hw pcf_outputs_1_8 0xFF w) as [r w1].
      simpl in *. subst r. eauto.
    - exists w. auto. }
  destruct H1 as (w1 & E1 & Hv1). rewrite E1.
  destruct (is_valid (obj w1 pcf_outputs_9_16)).
  - apply write_all_0xFF. exact Hv1.
  - split; [reflexivity | exact Hv1].
Qed.

Lemma scan_keys_start_keeps hw w :
  wf w = true ->
  wf (snd (scan_keys_start hw w)) = true /\
  inputs_only w (snd (scan_keys_start hw w)).
Proof.
  intros Hw.
  change (post (scan_keys_start hw) w
               (fun _ w' => wf w' = true /\ inputs_only w w')).
  unfold scan_keys_start. apply post_bind. unfold post at 1, print.
  cbv beta iota delta [fst snd].
  apply post_bind. eapply post_mono.
  - apply (fold_for_inv _ (fun w' => wf w' = true /\ inputs_only w w')).
    + intros [addr pcf] acc w1 Hx [Hw1 Ho1]. unfold post, bind, get_obj.
      cbv beta iota delta [fst snd].
      destruct (is_valid (obj w1 pcf)); [|split; assumption].
      pose proof (read_all_wf hw pcf w1 Hw1) as Hw2.
      pose proof (read_all_only_value hw pcf w1) as Ho2.
      apply inputs_only_of_input in Ho2;
        [|destruct Hx as [[= _ <-] | [[= _ <-] | []]]; auto].
      destruct (read_all hw pcf w1) as [[r|e] w2]; simpl in *;
        (split; [exact Hw2 | eapply inputs_only_trans; eauto]).
    + rewrite wf_add_line. split; [exact Hw|].
      intros d. rewrite obj_add_line. auto.
  - intros [p|e] w' [Hw' Ho']; [|split; assumption].
    unfold post, put_prev. simpl. rewrite wf_set_prev.
    split; [exact Hw'|]. intros d. rewrite obj_set_prev. apply Ho'.
Qed.

(** After boot every cache of an output device is 0xFF, whatever the bus
    did, and the store is well formed. *)
Lemma booted_outputs hw :
  wf (booted hw) = true /\
  value (outputs_1_8 (booted hw)) = 0xFF /\
  value (outputs_9_16 (booted hw)) = 0xFF.
Proof.
  assert (Hb : exists w2,
    (forall d, value (obj w2 d) = 0xFF) /\
    booted hw = snd (scan_keys_start hw w2)).
  { destruct (module_init_run hw) as (w1 & E1 & Hv1).
    destruct (main_run hw w1 Hv1) as [Hr2 Hv2].
    unfold booted, boot, bind. rewrite E1.
    destruct (main hw w1) as [r w2]. simpl in Hr2, Hv2. subst r.
    exists w2. split; [exact Hv2|].
    destruct (scan_keys_start hw w2) as [[[]|e] w3]; reflexivity. }
  destruct Hb as (w2 & Hv2 & ->).
  pose proof (all_0xFF_wf w2 Hv2) as Hw2.
  destruct (scan_keys_start_keeps hw w2 Hw2) as [Hw3 Ho3].
  split; [exact Hw3|].
  destruct (Ho3 pcf_outputs_1_8) as (_ & _ & H1).
  destruct (Ho3 pcf_outputs_9_16) as (_ & _ & H2).
  cbv beta iota delta [obj] in H1, H2. rewrite H1, H2 by auto.
  split; [apply (Hv2 pcf_outputs_1_8) | apply (Hv2 pcf_outputs_9_16)].
Qed.

(** Every store the running system can reach is well formed. *)
Lemma reachable_wf hw w : reachable hw w -> wf w = true.
Proof.
  induction 1 as [|w ev _ IH].
  - apply booted_outputs.
  - destruct ev as [path|]; simpl.
    + now apply handle_client_wf.
    + now apply scan_keys_pass_keeps.
Qed.

(** An event that commands no relay leaves the output caches alone. *)
Lemma step_quiet hw ev w :
  commands ev = false -> wf w = true ->
  wf (step hw ev w) = true /\ inputs_only w (step hw ev w).
Proof.
  intros Hc Hw. destruct ev as [path|]; simpl in *.
  - unfold handle_client.
    destruct (String.eqb (hd "" (split "?" path)) "/"); simpl in Hc.
    + unfold index_handler. rewrite Hc. simpl.
      split; [exact Hw | apply inputs_only_refl].
    + destruct (String.eqb _ "/api/state").
      * destruct (api_state_handler_spec hw w)
          as (inputs & w' & E & _ & Ho & H).
        rewrite E. simpl. auto.
      * simpl. split; [exact Hw | apply inputs_only_refl].
  - now apply scan_keys_pass_keeps.
Qed.

Lemma run_quiet hw evs : forall w,
  forallb (fun ev => negb (commands ev)) evs = true ->
  wf w = true ->
  wf (run hw evs w) = true /\ inputs_only w (run hw evs w).
Proof.
  induction evs as [|ev evs IH]; intros w Hq Hw; simpl in *.
  - split; [exact Hw | apply inputs_only_refl].
  - apply andb_prop in Hq. destruct Hq as [Hc Hq].
    apply negb_true_iff in Hc.
    destruct (step_quiet hw ev w Hc Hw) as [Hw1 Ho1].
    destruct (IH (step hw ev w) Hq Hw1) as [Hw2 Ho2].
    split; [exact Hw2 | eapply inputs_only_trans; eauto].
Qed.

(** ** C10: the relays at start-up *)

(** C10.  After construction and the entry point's start-up writes,
    whatever the bus did, and after any further state queries, page
    requests and scan passes, as long as no control request has been
    served, the cached byte of both output devices is 0xFF and the state
    query reports every relay "1".."16" as "on". *)
Theorem C10_startup_all_on (hw : Hardware) (evs : list event) :
  forallb (fun ev => negb (commands ev)) evs = true ->
  let w := run hw evs (booted hw) in
  value (outputs_1_8 w) = 0xFF /\
  value (outputs_9_16 w) = 0xFF /\
  exists relays inputs,
    fst (api_state_handler hw w) = Ok (Resp_json relays inputs) /\
    forall relay_id, In relay_id relay_ids ->
      dict_get String.eqb relays relay_id = Some "on".
Proof.
  intros Hq w.
  destruct (booted_outputs hw) as (Hw0 & H1 & H2).
  destruct (run_quiet hw evs (booted hw) Hq Hw0) as [_ Ho].
  fold w in Ho.
  destruct (Ho pcf_outputs_1_8) as (_ & _ & E1).
  destruct (Ho pcf_outputs_9_16) as (_ & _ & E2).
  cbv beta iota delta [obj] in E1, E2.
  assert (V1 : value (outputs_1_8 w) = 0xFF) by (rewrite E1; auto).
  assert (V2 : value (outputs_9_16 w) = 0xFF) by (rewrite E2; auto).
  split; [exact V1|]. split; [exact V2|].
  destruct (api_state_handler_spec hw w) as (inputs & w' & E & _).
  exists (relays_of w), inputs. rewrite E. split; [reflexivity|].
  intros relay_id Hin. change relay_ids with (keys outputs_map) in Hin.
  destruct (keys_resolve relay_id Hin) as (d & p & Hr).
  rewrite (relays_of_get w relay_id d p Hr). unfold shown.
  destruct (outputs_map_pins relay_id d p Hr) as [Hp [-> | ->]];
    cbv beta iota delta [obj];
    rewrite ?V1, ?V2, testbit_0xFF by assumption; reflexivity.
Qed.

Lemma C10_witness :
  let w := run hw_deaf [Ev_scan; Ev_http "/api/state"; Ev_http "/"]
               (booted hw_deaf) in
  value (outputs_1_8 w) = 0xFF /\
  value (outputs_9_16 w) = 0xFF /\
  exists relays inputs,
    fst (api_state_handler hw_deaf w) = Ok (Resp_json relays inputs) /\
    forall relay_id, In relay_id relay_ids ->
      dict_get String.eqb relays relay_id = Some "on".
Proof.
  apply (C10_startup_all_on hw_deaf
           [Ev_scan; Ev_http "/api/state"; Ev_http "/"]).
  reflexivity.
Defined.

(** * Further properties of the code *)

(** ** PCF8574: what one bit write does to the byte *)

Lemma testbit_with_bit (v p q : Z) (st : bool) :
  0 <= p -> 0 <= q ->
  Z.testbit (with_bit v p st) q = if p =? q then st else Z.testbit v q.
Proof.
  intros Hp Hq. unfold with_bit. destruct st; simpl.
  - rewrite testbit_set by assumption.
    destruct (p =? q); [apply orb_true_r | apply orb_false_r].
  - rewrite testbit_clear by assumption.
    destruct (p =? q); [apply andb_false_r | apply andb_true_r].
Qed.

Lemma testbit_high_byte (v p : Z) :
  is_byte v -> 8 <= p -> Z.testbit v p = false.
Proof.
  intros Hv Hp. apply is_byte_land in Hv. rewrite <- Hv.
  rewrite Z.land_spec. change 255 with (Z.ones 8).
  rewrite (Z.ones_spec_high 8 p) by lia. apply andb_false_r.
Qed.

(** X1.  On a valid device [write_pin(p, state)], for a pin number
    [p >= 0], leaves bit [p] of the cached byte equal to [state] and every
    other bit as it was, whether or not the bus write succeeds; it changes
    no validity flag, no address and no other device. *)
Theorem X1_write_pin_touches_one_bit (hw : Hardware) (self : dev)
    (p q : Z) (st : bool) (w : World) :
  0 <= p -> 0 <= q ->
  is_valid (obj w self) = true ->
  let w' := snd (write_pin hw self p st w) in
  Z.testbit (value (obj w' self)) q =
    (if p =? q then st else Z.testbit (value (obj w self)) q) /\
  only_value_of self w w'.
Proof.
  intros Hp Hq Hv w'. split.
  - unfold w'. rewrite write_pin_failure_changes_cache by assumption.
    now apply testbit_with_bit.
  - apply write_pin_only_value.
Qed.

Lemma X1_witness :
  let w := booted hw_deaf in
  let w' := snd (write_pin hw_deaf pcf_outputs_9_16 5 false w) in
  Z.testbit (value (obj w' pcf_outputs_9_16)) 5 =
    (if 5 =? 5 then false
     else Z.testbit (value (obj w pcf_outputs_9_16)) 5) /\
  only_value_of pcf_outputs_9_16 w w'.
Proof.
  apply (X1_write_pin_touches_one_bit hw_deaf pcf_outputs_9_16 5 5 false
           (booted hw_deaf)); [lia | lia | reflexivity].
Defined.

(** ** PCF8574: pin numbers out of range *)

Lemma write_pin_negative hw self p st w :
  p < 0 -> is_valid (obj w self) = true ->
  write_pin hw self p st w = (Raise ValueError, w).
Proof.
  intros Hp Hv. unfold write_pin, bind, get_obj, shl1. rewrite Hv.
  cbv beta iota delta [negb].
  destruct (Z.ltb_spec p 0); [reflexivity | lia].
Qed.

Lemma set_high_bit_not_byte (v p : Z) :
  is_byte v -> 8 <= p -> 256 <= Z.lor v (Z.shiftl 1 p).
Proof.
  intros Hv Hp.
  pose proof (Z.add_lor_land v (Z.shiftl 1 p)) as H.
  rewrite Z.shiftl_1_l in *.
  rewrite land_pow2, (testbit_high_byte v p Hv Hp) in H by lia.
  assert (2 ^ 8 <= 2 ^ p) by (apply Z.pow_le_mono_r; lia).
  change (2 ^ 8) with 256 in *. unfold is_byte in Hv. lia.
Qed.

(** X2.  [write_pin] does not check its pin number.  On a valid device
    whose cache is a byte: a negative pin raises ValueError before anything
    changes; setting a pin of 8 or more stores a value of 256 or more in
    the cache and then raises ValueError at [bytes([value])], before any
    bus transaction; clearing a pin of 8 or more leaves every device object
    as it was. *)
Theorem X2_write_pin_out_of_range (hw : Hardware) (self : dev) (p : Z)
    (w : World) :
  is_valid (obj w self) = true ->
  is_byte (value (obj w self)) ->
  (p < 0 -> forall st, write_pin hw self p st w = (Raise ValueError, w)) /\
  (8 <= p ->
   fst (write_pin hw self p true w) = Raise ValueError /\
   256 <= value (obj (snd (write_pin hw self p true w)) self) /\
   clock (snd (write_pin hw self p true w)) = clock w /\
   same_objs w (snd (write_pin hw self p false w))).
Proof.
  intros Hv Hb. split.
  - intros Hp st. now apply write_pin_negative.
  - intros Hp.
    pose proof (set_high_bit_not_byte (value (obj w self)) p Hb Hp) as Hbig.
    split; [|split; [|split]].
    + rewrite write_pin_valid by (assumption || lia).
      unfold with_bit. simpl negb. cbv iota.
      unfold write_all, bind, get_obj, try_except_OSError, i2c_writeto.
      rewrite obj_set_obj, dev_eqb_refl. simpl.
      destruct (Z.ltb_spec (Z.lor (value (obj w self)) (Z.shiftl 1 p)) 256);
        [lia|]. rewrite andb_false_r. reflexivity.
    + rewrite write_pin_failure_changes_cache by (assumption || lia).
      exact Hbig.
    + rewrite write_pin_valid by (assumption || lia).
      unfold with_bit. simpl negb. cbv iota.
      unfold write_all, bind, get_obj, try_except_OSError, i2c_writeto.
      rewrite obj_set_obj, dev_eqb_refl. simpl.
      destruct (Z.ltb_spec (Z.lor (value (obj w self)) (Z.shiftl 1 p)) 256);
        [lia|]. rewrite andb_false_r. simpl. apply clock_set_obj.
    + destruct (write_pin_spec hw self p false w) as (r & w' & Heq & _ & _ & Hd);
        [lia|].
      rewrite Heq. simpl. intros d. rewrite Hd.
      assert (Hs : with_bit (value (obj w self)) p false = value (obj w self)).
      { unfold with_bit. simpl. apply clear_same; [lia|].
        now apply testbit_high_byte. }
      rewrite Hs, Hv.
      destruct (dev_eqb self d) eqn:E; [|reflexivity].
      apply dev_eqb_eq in E. subst d. simpl.
      destruct (obj w self); simpl in *. now subst.
Qed.

Lemma X2_witness :
  fst (write_pin hw_ok pcf_outputs_1_8 8 true (booted hw_ok)) =
    Raise ValueError /\
  256 <= value (obj (snd (write_pin hw_ok pcf_outputs_1_8 8 true
                            (booted hw_ok))) pcf_outputs_1_8).
Proof.
  assert (Hv : is_valid (obj (booted hw_ok) pcf_outputs_1_8) = true)
    by reflexivity.
  assert (Hb : is_byte (value (obj (booted hw_ok) pcf_outputs_1_8)))
    by (vm_compute; split; [discriminate | reflexivity]).
  destruct (X2_write_pin_out_of_range hw_ok pcf_outputs_1_8 8
              (booted hw_ok) Hv Hb) as [_ H].
  destruct H as (H1 & H2 & _); [lia|]. split; assumption.
Defined.

(** X3.  [read_pin] does not check its pin number either.  When the bus
    read succeeds, a pin of 8 or more is reported True (asserted), since a
    register byte has no such bit; a negative pin raises ValueError, but
    only after the read has replaced the cached byte. *)
Theorem X3_read_pin_out_of_range (hw : Hardware) (self : dev) (p : Z)
    (b : Byte.byte) (w : World) :
  is_valid (obj w self) = true ->
  hw_readfrom hw (clock w) (address (obj w self)) = Some b ->
  (8 <= p -> fst (read_pin hw self p w) = Ok true) /\
  (p < 0 ->
   fst (read_pin hw self p w) = Raise ValueError /\
   value (obj (snd (read_pin hw self p w)) self) = Z.of_N (Byte.to_N b)).
Proof.
  intros Hv Hr.
  destruct (read_all_spec hw self w) as (r & w' & Heq & _ & Hspec).
  destruct r as [v|].
  2:{ destruct Hspec as (_ & [Hf | Hf]); congruence. }
  destruct Hspec as (_ & (b' & Hb' & ->) & Hd).
  assert (b' = b) as -> by congruence.
  split.
  - intros Hp. rewrite read_pin_spec by lia. rewrite Heq. simpl.
    rewrite testbit_high_byte; [reflexivity | apply is_byte_of_byte | lia].
  - intros Hp. unfold read_pin, bind, get_obj. rewrite Hv.
    cbv beta iota delta [negb]. rewrite Heq. unfold shl1.
    destruct (Z.ltb_spec p 0); [|lia]. simpl.
    split; [reflexivity|]. rewrite Hd, dev_eqb_refl. reflexivity.
Qed.

Lemma X3_witness :
  fst (read_pin hw_ok pcf_inputs_1_8 8 (booted hw_ok)) = Ok true.
Proof.
  assert (Hv : is_valid (obj (booted hw_ok) pcf_inputs_1_8) = true)
    by reflexivity.
  assert (Hr : hw_readfrom hw_ok (clock (booted hw_ok))
                 (address (obj (booted hw_ok) pcf_inputs_1_8)) = Some Byte.xff)
    by reflexivity.
  destruct (X3_read_pin_out_of_range hw_ok pcf_inputs_1_8 8 Byte.xff
              (booted hw_ok) Hv Hr) as [H _].
  apply H. lia.
Defined.

(** ** Control requests: what the state query shows afterwards *)

Lemma reported_shown hw w (relay_id : string) (d : dev) (p : Z) :
  resolve relay_id = Some (d, p) ->
  reported hw w relay_id = Some (shown w d p).
Proof.
  intros Hr. unfold reported.
  destruct (api_state_handler_spec hw w) as (inputs & w' & E & _).
  rewrite E. simpl. now apply relays_of_get.
Qed.

Lemma shown_state_value (st : string) (v p : Z) :
  is_on_off (Some st) = true ->
  Z.testbit v p = String.eqb st "on" ->
  (if Z.testbit v p then "on" else "off") = st.
Proof.
  simpl. intros Hst ->.
  destruct (String.eqb_spec st "on") as [->|_]; [reflexivity|].
  simpl in Hst. destruct (String.eqb_spec st "off") as [->|_];
    [reflexivity | discriminate].
Qed.

Lemma flags_kept_refl w : flags_kept w w.
Proof. intros d. auto. Qed.

Lemma flags_kept_trans w1 w2 w3 :
  flags_kept w1 w2 -> flags_kept w2 w3 -> flags_kept w1 w3.
Proof.
  intros H1 H2 d. destruct (H1 d), (H2 d). split; congruence.
Qed.

Lemma flags_kept_only_value self w w' :
  only_value_of self w w' -> flags_kept w w'.
Proof. intros H d. destruct (H d) as (? & ? & _). auto. Qed.

Lemma flags_kept_inputs_only w w' : inputs_only w w' -> flags_kept w w'.
Proof. intros H d. destruct (H d) as (? & ? & _). auto. Qed.

Lemma flags_kept_add_line l w : flags_kept w (add_line l w).
Proof. intros d. now rewrite obj_add_line. Qed.

(** What a registry write does to every registry bit: the written bit
    takes the new state when its device is valid, every other bit of every
    device is as it was. *)
Lemma registry_write hw (d : dev) (p : Z) (sv : bool) (w : World) :
  0 <= p < 8 -> wf w = true ->
  exists w',
    write_pin hw d p sv w = (Ok tt, w') /\
    wf w' = true /\ only_value_of d w w' /\ quiet w w' /\
    (forall d' q, 0 <= q -> (d', q) <> (d, p) ->
       Z.testbit (value (obj w' d')) q = Z.testbit (value (obj w d')) q) /\
    (is_valid (obj w d) = true -> Z.testbit (value (obj w' d)) p = sv) /\
    (is_valid (obj w d) = false -> same_objs w w').
Proof.
  intros Hp Hw.
  destruct (write_pin_wf hw d p sv w Hp Hw) as [Hok Hwf].
  pose proof (write_pin_only_value hw d p sv w) as Hov.
  destruct (write_pin_spec hw d p sv w) as (r & w' & Heq & Hq & _ & Hd);
    [lia|].
  rewrite Heq in Hok, Hwf, Hov. simpl in Hok, Hwf, Hov. subst r.
  exists w'. split; [exact Heq|]. split; [exact Hwf|].
  split; [exact Hov|]. split; [exact Hq|].
  split; [|split].
  - intros d' q Hq0 Hne. rewrite Hd.
    destruct (dev_eqb d d' && is_valid (obj w d)) eqn:E; [|reflexivity].
    apply andb_prop in E. destruct E as [E _]. apply dev_eqb_eq in E.
    subst d'. simpl. rewrite testbit_with_bit by lia.
    destruct (Z.eqb_spec p q) as [->|_]; [congruence | reflexivity].
  - intros Hv. rewrite Hd, dev_eqb_refl, Hv. simpl.
    rewrite testbit_with_bit by lia. now rewrite Z.eqb_refl.
  - intros Hv d'. rewrite Hd, Hv, andb_false_r. reflexivity.
Qed.

Lemma resolve_not_all (relay_id : string) (v : dev * Z) :
  resolve relay_id = Some v -> String.eqb relay_id "all" = false.
Proof.
  intros H. destruct (String.eqb_spec relay_id "all") as [->|_];
    [discriminate H | reflexivity].
Qed.

Lemma wf_invalid_shown w d p :
  wf w = true -> is_valid (obj w d) = false -> 0 <= p < 8 ->
  shown w d p = "on".
Proof.
  intros Hw Hv Hp. unfold shown.
  destruct (proj1 (wf_spec w) Hw d) as [_ H]. rewrite (H Hv).
  now rewrite testbit_0xFF.
Qed.

(** X4.  A control request for one relay of the registry, with state "on"
    or "off", returns normally; afterwards the state query reports the
    requested state for that relay when its output device is valid (and
    still "on" when it is not), and reports every other relay exactly as
    it would have before the request.  Bus failures make no difference. *)
Theorem X4_single_control_changes_one_relay (hw : Hardware) (w : World)
    (relay_id st : string) (d : dev) (p : Z) :
  wf w = true ->
  resolve relay_id = Some (d, p) ->
  is_on_off (Some st) = true ->
  let w' := snd (apply_control hw (Some relay_id) (Some st) w) in
  fst (apply_control hw (Some relay_id) (Some st) w) = Ok tt /\
  reported hw w' relay_id =
    Some (if is_valid (obj w d) then st else "on") /\
  forall other,
    In other relay_ids -> other <> relay_id ->
    reported hw w' other = reported hw w other.
Proof.
  intros Hw Hr Hst w'.
  destruct (outputs_map_pins relay_id d p Hr) as [Hp _].
  destruct (registry_write hw d p (String.eqb st "on") w Hp Hw)
    as (w1 & Heq & Hw1 & _ & _ & Hframe & Hset & Hinv).
  assert (E : apply_control hw (Some relay_id) (Some st) w =
              (Ok tt, add_line (Log_relay_set relay_id st) w1)).
  { rewrite (apply_control_single hw relay_id st d p w Hr
               (resolve_not_all _ _ Hr) Hst).
    unfold bind, print. now rewrite Heq. }
  unfold w'. rewrite E. cbv beta iota delta [fst snd].
  split; [reflexivity|]. split.
  - rewrite (reported_shown hw _ relay_id d p Hr), shown_add_line.
    destruct (is_valid (obj w d)) eqn:Hv.
    + unfold shown. f_equal. apply shown_state_value; auto.
    + unfold shown. rewrite (Hinv eq_refl d).
      f_equal. apply (wf_invalid_shown w d p Hw Hv Hp).
  - intros other Hin Hne.
    change relay_ids with (keys outputs_map) in Hin.
    destruct (keys_resolve other Hin) as (d' & p' & Hr').
    rewrite !(reported_shown hw _ other d' p' Hr'), shown_add_line.
    unfold shown. rewrite Hframe; [reflexivity | |].
    + destruct (outputs_map_pins other d' p' Hr'). lia.
    + intros Heqp. apply Hne.
      apply (resolve_injective other relay_id (d, p)); congruence.
Qed.

Lemma X4_witness :
  let w' := snd (apply_control hw_deaf (Some "7") (Some "off")
                   (booted hw_deaf)) in
  reported hw_deaf w' "7" = Some "off" /\
  reported hw_deaf w' "8" = reported hw_deaf (booted hw_deaf) "8".
Proof.
  assert (Hw : wf (booted hw_deaf) = true) by reflexivity.
  assert (Hr : resolve "7" = Some (pcf_outputs_1_8, 6)) by reflexivity.
  assert (Hs : is_on_off (Some "off") = true) by reflexivity.
  destruct (X4_single_control_changes_one_relay hw_deaf (booted hw_deaf)
              "7" "off" pcf_outputs_1_8 6 Hw Hr Hs) as (_ & H1 & H2).
  split; [exact H1|].
  apply H2; [simpl; tauto | discriminate].
Defined.

Lemma outputs_only_refl w : outputs_only w w.
Proof. repeat split; auto. Qed.

Lemma outputs_only_trans w1 w2 w3 :
  outputs_only w1 w2 -> outputs_only w2 w3 -> outputs_only w1 w3.
Proof.
  intros (F1 & A1 & B1 & P1) (F2 & A2 & B2 & P2).
  split; [eapply flags_kept_trans; eauto|].
  repeat split; congruence.
Qed.

Lemma outputs_only_add_line l w : outputs_only w (add_line l w).
Proof. split; [apply flags_kept_add_line|]. repeat split. Qed.

Lemma outputs_only_write (d : dev) (w w' : World) :
  d = pcf_outputs_1_8 \/ d = pcf_outputs_9_16 ->
  only_value_of d w w' -> quiet w w' -> outputs_only w w'.
Proof.
  intros Hd Ho [Hp _]. split; [eapply flags_kept_only_value; eauto|].
  destruct (Ho pcf_inputs_1_8) as (_ & _ & H1).
  destruct (Ho pcf_inputs_9_16) as (_ & _ & H2).
  repeat split; [apply H1 | apply H2 | exact Hp];
    destruct Hd; subst d; discriminate.
Qed.

(** The loop of an "all" request, for either state. *)
Lemma all_loop hw (sv : bool) (w : World) :
  wf w = true ->
  post (for_each (keys outputs_map) (fun relay_num =>
          pp <- subscript String.eqb outputs_map relay_num ;;
          write_pin hw (fst pp) (snd pp) sv)) w
       (fun r w' =>
          r = Ok tt /\ wf w' = true /\ outputs_only w w' /\
          forall relay_id d p,
            In relay_id (keys outputs_map) ->
            resolve relay_id = Some (d, p) ->
            is_valid (obj w d) = true ->
            Z.testbit (value (obj w' d)) p = sv).
Proof.
  intros Hw.
  pose proof (for_each_prefix
    (fun relay_num =>
       pp <- subscript String.eqb outputs_map relay_num ;;
       write_pin hw (fst pp) (snd pp) sv)
    (fun done w' =>
       wf w' = true /\ outputs_only w w' /\
       forall relay_id d p,
         In relay_id done -> resolve relay_id = Some (d, p) ->
         is_valid (obj w d) = true ->
         Z.testbit (value (obj w' d)) p = sv)
    (keys outputs_map) [] w) as H.
  eapply post_mono; [apply H|].
  - intros done x w1 Hx (Hw1 & Ho1 & Hbits).
    destruct (keys_resolve x Hx) as (d & p & Hr).
    destruct (outputs_map_pins x d p Hr) as [Hp Hdev].
    unfold post, bind. rewrite (subscript_resolve x (d, p) w1 Hr).
    cbv beta iota delta [fst snd].
    destruct (registry_write hw d p sv w1 Hp Hw1)
      as (w2 & Heq & Hw2 & Hov & Hq & Hframe & Hset & _).
    rewrite Heq. cbv beta iota delta [fst snd].
    split; [reflexivity|]. split; [exact Hw2|]. split.
    { eapply outputs_only_trans; [exact Ho1|].
      eapply outputs_only_write; eauto. }
    intros relay_id d' p' Hin Hr' Hv. apply in_app_or in Hin.
    destruct (outputs_map_pins relay_id d' p' Hr') as [Hp' _].
    destruct Hin as [Hin | [<- | []]].
    + destruct (dev_eqb d' d) eqn:Ed.
      * apply dev_eqb_eq in Ed. subst d'.
        destruct (Z.eqb_spec p' p) as [->|Hne].
        -- apply Hset. destruct Ho1 as [F _]. destruct (F d) as [-> _].
           exact Hv.
        -- rewrite Hframe; [eapply Hbits; eauto | lia | congruence].
      * rewrite Hframe; [eapply Hbits; eauto | lia |].
        intros [= -> _]. now rewrite dev_eqb_refl in Ed.
    + rewrite Hr in Hr'. inversion Hr'. subst d' p'.
      apply Hset. destruct Ho1 as [F _]. destruct (F d) as [-> _]. exact Hv.
  - split; [exact Hw|]. split; [apply outputs_only_refl|].
    intros ? ? ? [].
  - simpl. intros r w' (Hr & Hwf & Ho & Hbits). auto.
Qed.

(** X5.  A control request for "all" with state "on" or "off" returns
    normally and touches neither the input devices nor the scan task's
    snapshots; afterwards the state query reports the requested state for
    every relay whose output device is valid, and "on" for every relay of
    an invalid output device. *)
Theorem X5_all_control_sets_every_relay (hw : Hardware) (w : World)
    (st : string) :
  wf w = true ->
  is_on_off (Some st) = true ->
  let w' := snd (apply_control hw (Some "all") (Some st) w) in
  fst (apply_control hw (Some "all") (Some st) w) = Ok tt /\
  outputs_only w w' /\
  forall relay_id d p,
    resolve relay_id = Some (d, p) ->
    reported hw w' relay_id =
      Some (if is_valid (obj w d) then st else "on").
Proof.
  intros Hw Hst w'. unfold w'.
  rewrite (apply_control_all hw st w Hst).
  pose proof (all_loop hw (String.eqb st "on") w Hw) as H. unfold post in H.
  unfold bind, print.
  destruct (for_each (keys outputs_map) _ w) as [r w1].
  cbv beta iota delta [fst snd] in H |- *.
  destruct H as (-> & Hw1 & Ho1 & Hbits).
  split; [reflexivity|]. split.
  { eapply outputs_only_trans; [exact Ho1 | apply outputs_only_add_line]. }
  intros relay_id d p Hr.
  rewrite (reported_shown hw _ relay_id d p Hr), shown_add_line.
  destruct (outputs_map_pins relay_id d p Hr) as [Hp _].
  destruct (is_valid (obj w d)) eqn:Hv.
  - unfold shown. f_equal. apply shown_state_value; [exact Hst|].
    apply (Hbits relay_id d p); auto.
    apply dict_get_In in Hr. unfold keys.
    change relay_id with (fst (relay_id, (d, p))). now apply in_map.
  - f_equal. apply wf_invalid_shown; auto.
    destruct Ho1 as [F _]. destruct (F d) as [-> _]. exact Hv.
Qed.

Lemma X5_witness :
  reported hw_deaf
    (snd (apply_control hw_deaf (Some "all") (Some "off") (booted hw_deaf)))
    "16" = Some "off".
Proof.
  assert (Hw : wf (booted hw_deaf) = true) by reflexivity.
  assert (Hs : is_on_off (Some "off") = true) by reflexivity.
  destruct (X5_all_control_sets_every_relay hw_deaf (booted hw_deaf) "off"
              Hw Hs) as (_ & _ & H).
  apply (H "16" pcf_outputs_9_16 7). reflexivity.
Defined.

(** ** Control requests: repeating one *)

Lemma apply_control_noop hw (relay_id state : option string) w :
  is_on_off state = false ->
  apply_control hw relay_id state w = (Ok tt, w).
Proof.
  intros H. unfold apply_control. rewrite H, !andb_false_r. reflexivity.
Qed.

Lemma apply_control_unknown hw (relay_id state : option string) w :
  opt_eqb relay_id "all" = false ->
  opt_mem relay_id outputs_map = false ->
  apply_control hw relay_id state w = (Ok tt, w).
Proof.
  intros H1 H2. unfold apply_control. rewrite H1, H2. reflexivity.
Qed.

(** Writing a registry bit the state it already has changes no object. *)
Lemma write_pin_settled hw (d : dev) (p : Z) (sv : bool) (w : World) :
  0 <= p < 8 -> wf w = true ->
  (is_valid (obj w d) = true -> Z.testbit (value (obj w d)) p = sv) ->
  exists w',
    write_pin hw d p sv w = (Ok tt, w') /\ same_objs w w'.
Proof.
  intros Hp Hw Hbit.
  destruct (registry_write hw d p sv w Hp Hw)
    as (w' & Heq & _ & _ & _ & _ & _ & Hinv).
  exists w'. split; [exact Heq|].
  destruct (is_valid (obj w d)) eqn:Hv; [|now apply Hinv].
  destruct (write_pin_spec hw d p sv w) as (r & w2 & Heq2 & _ & _ & Hd);
    [lia|].
  rewrite Heq in Heq2. inversion Heq2. subst r w2.
  intros d'. rewrite Hd, Hv, andb_true_r.
  destruct (dev_eqb d d') eqn:E; [|reflexivity].
  apply dev_eqb_eq in E. subst d'.
  rewrite <- (Hbit eq_refl), with_bit_same by lia.
  destruct (obj w d); simpl in *. now subst.
Qed.

Lemma settled_loop hw (sv : bool) (w : World) :
  wf w = true ->
  (forall relay_id d p,
     resolve relay_id = Some (d, p) -> is_valid (obj w d) = true ->
     Z.testbit (value (obj w d)) p = sv) ->
  post (for_each (keys outputs_map) (fun relay_num =>
          pp <- subscript String.eqb outputs_map relay_num ;;
          write_pin hw (fst pp) (snd pp) sv)) w
       (fun r w' => r = Ok tt /\ same_objs w w').
Proof.
  intros Hw Hbits.
  pose proof (for_each_prefix
    (fun relay_num =>
       pp <- subscript String.eqb outputs_map relay_num ;;
       write_pin hw (fst pp) (snd pp) sv)
    (fun _ w' => same_objs w w')
    (keys outputs_map) [] w) as H.
  apply H; [|intros d; reflexivity].
  intros done x w1 Hx Hs.
  destruct (keys_resolve x Hx) as (d & p & Hr).
  destruct (outputs_map_pins x d p Hr) as [Hp _].
  unfold post, bind. rewrite (subscript_resolve x (d, p) w1 Hr).
  cbv beta iota delta [fst snd].
  destruct (write_pin_settled hw d p sv w1 Hp) as (w2 & Heq & Hs2).
  - eapply wf_same_objs; eauto.
  - rewrite (Hs d). apply (Hbits x d p Hr).
  - rewrite Heq. split; [reflexivity|].
    eapply same_objs_trans; eauto.
Qed.

(** X6.  Control requests are idempotent on the devices: serving the same
    request a second time, whatever its parameters and whatever the bus
    does, leaves all four device objects exactly as the first serving left
    them. *)
Theorem X6_control_is_idempotent (hw : Hardware) (w : World)
    (relay_id state : option string) :
  wf w = true ->
  let w1 := snd (apply_control hw relay_id state w) in
  same_objs w1 (snd (apply_control hw relay_id state w1)).
Proof.
  intros Hw w1.
  destruct (is_on_off state) eqn:Hst.
  2:{ unfold w1. rewrite !apply_control_noop by assumption.
      intros d. reflexivity. }
  destruct state as [st|]; [|discriminate].
  destruct relay_id as [id|].
  2:{ unfold w1. rewrite !apply_control_unknown by reflexivity.
      intros d. reflexivity. }
  destruct (String.eqb_spec id "all") as [->|Hne].
  - pose proof (all_loop hw (String.eqb st "on") w Hw) as H.
    unfold post in H.
    assert (E : exists w0,
      w1 = add_line (Log_all_set st) w0 /\ wf w0 = true /\
      outputs_only w w0 /\
      forall relay_id d p,
        resolve relay_id = Some (d, p) -> is_valid (obj w d) = true ->
        Z.testbit (value (obj w0 d)) p = String.eqb st "on").
    { unfold w1. rewrite (apply_control_all hw st w Hst).
      unfold bind, print.
      destruct (for_each (keys outputs_map) _ w) as [r w0].
      cbv beta iota delta [fst snd] in H |- *.
      destruct H as (-> & Hw0 & Ho0 & Hbits).
      exists w0. split; [reflexivity|]. split; [exact Hw0|].
      split; [exact Ho0|]. intros r d p Hr Hv.
      apply (Hbits r d p); auto.
      apply dict_get_In in Hr. unfold keys.
      change r with (fst (r, (d, p))). now apply in_map. }
    destruct E as (w0 & E1 & Hw0 & Ho0 & Hbits).
    assert (Hw1 : wf w1 = true) by (rewrite E1, wf_add_line; exact Hw0).
    rewrite (apply_control_all hw st w1 Hst).
    pose proof (settled_loop hw (String.eqb st "on") w1 Hw1) as H2.
    unfold post in H2. unfold bind, print.
    destruct (for_each (keys outputs_map) _ w1) as [r w2].
    cbv beta iota delta [fst snd] in H2 |- *.
    destruct H2 as (-> & Hs).
    + intros r0 d p Hr Hv. rewrite E1, obj_add_line in Hv |- *.
      apply (Hbits r0 d p Hr). destruct Ho0 as [F _].
      destruct (F d) as [<- _]. exact Hv.
    + intros d. rewrite obj_add_line. apply Hs.
  - assert (Hall : String.eqb id "all" = false)
      by (now apply String.eqb_neq).
    destruct (resolve id) as [[d p]|] eqn:Hr.
    2:{ unfold w1. rewrite !apply_control_unknown;
          try (intros d; reflexivity); simpl; try assumption;
          unfold dict_mem; unfold resolve in Hr; now rewrite Hr. }
    destruct (outputs_map_pins id d p Hr) as [Hp _].
    destruct (registry_write hw d p (String.eqb st "on") w Hp Hw)
      as (w0 & Heq & Hw0 & Hov & _ & _ & Hset & _).
    assert (E1 : w1 = add_line (Log_relay_set id st) w0).
    { unfold w1. rewrite (apply_control_single hw id st d p w Hr Hall Hst).
      unfold bind, print. now rewrite Heq. }
    assert (Hw1 : wf w1 = true) by (rewrite E1, wf_add_line; exact Hw0).
    rewrite (apply_control_single hw id st d p w1 Hr Hall Hst).
    destruct (write_pin_settled hw d p (String.eqb st "on") w1 Hp Hw1)
      as (w2 & Heq2 & Hs).
    + rewrite E1, obj_add_line. intros Hv. apply Hset.
      destruct (Hov d) as (<- & _). exact Hv.
    + unfold bind, print. rewrite Heq2. cbv beta iota delta [fst snd].
      intros d'. rewrite obj_add_line. apply Hs.
Qed.

Lemma X6_witness :
  let w1 := snd (apply_control hw_deaf (Some "all") (Some "off")
                   (booted hw_deaf)) in
  same_objs w1 (snd (apply_control hw_deaf (Some "all") (Some "off") w1)).
Proof.
  apply (X6_control_is_idempotent hw_deaf (booted hw_deaf)). reflexivity.
Defined.

(** ** Parsing the control request *)

Lemma split_no_sep (sep : ascii) (s : string) :
  contains sep s = false -> split sep s = [s].
Proof.
  induction s as [|c s IH]; simpl; [reflexivity|].
  intros H. apply orb_false_iff in H. destruct H as [Hc Hs].
  rewrite Ascii.eqb_sym, Hc, (IH Hs). reflexivity.
Qed.

Lemma split_app (sep : ascii) (a b : string) :
  contains sep a = false ->
  split sep (a ++ String sep b)%string = a :: split sep b.
Proof.
  induction a as [|c a IH]; simpl.
  - intros _. now rewrite Ascii.eqb_refl.
  - intros H. apply orb_false_iff in H. destruct H as [Hc Hs].
    rewrite Ascii.eqb_sym, Hc, (IH Hs). reflexivity.
Qed.

Lemma split_length (sep : ascii) (s : string) :
  contains sep s = true -> (2 <= List.length (split sep s))%nat.
Proof.
  induction s as [|c s IH]; simpl; [discriminate|].
  rewrite Ascii.eqb_sym. destruct (Ascii.eqb c sep); simpl.
  - intros _. destruct (split sep s) eqn:E; simpl; [|lia].
    destruct s; discriminate E || (simpl in E;
      destruct (Ascii.eqb _ _); [discriminate | destruct (split sep s); discriminate]).
  - intros H. specialize (IH H).
    destruct (split sep s) as [|h t]; simpl in *; lia.
Qed.

Lemma dict_of_items_good (items : list (list string)) :
  Forall (fun item => List.length item = 2%nat) items ->
  forall acc w, exists d, dict_of_items items acc w = (Ok d, w).
Proof.
  induction 1 as [|item items Hl _ IH]; intros acc w.
  - exists acc. reflexivity.
  - destruct item as [|k [|v [|x l]]]; try discriminate Hl.
    simpl. apply IH.
Qed.

Lemma dict_of_items_bad (items : list (list string)) :
  Exists (fun item => List.length item <> 2%nat) items ->
  forall acc w, dict_of_items items acc w = (Raise ValueError, w).
Proof.
  induction items as [|item items IH]; intros H acc w.
  - inversion H.
  - destruct item as [|k [|v [|x l]]]; try reflexivity.
    simpl. apply IH. inversion H as [? ? Hl | ? ? Ht]; subst;
      [simpl in Hl; congruence | exact Ht].
Qed.

(** Under a well-formed store the control logic never raises. *)
Lemma apply_control_ok hw (relay_id state : option string) (w : World) :
  wf w = true -> fst (apply_control hw relay_id state w) = Ok tt.
Proof.
  intros Hw.
  destruct (is_on_off state) eqn:Hst;
    [|now rewrite apply_control_noop].
  destruct state as [st|]; [|discriminate].
  destruct relay_id as [id|];
    [|now rewrite apply_control_unknown].
  destruct (String.eqb_spec id "all") as [->|Hne].
  - rewrite (apply_control_all hw st w Hst).
    pose proof (all_loop hw (String.eqb st "on") w Hw) as H.
    unfold post in H. unfold bind, print.
    destruct (for_each (keys outputs_map) _ w) as [r w0].
    cbv beta iota delta [fst snd] in H |- *.
    destruct H as (-> & _). reflexivity.
  - assert (Hall : String.eqb id "all" = false)
      by (now apply String.eqb_neq).
    destruct (resolve id) as [[d p]|] eqn:Hr.
    + destruct (outputs_map_pins id d p Hr) as [Hp _].
      destruct (registry_write hw d p (String.eqb st "on") w Hp Hw)
        as (w0 & Heq & _).
      rewrite (apply_control_single hw id st d p w Hr Hall Hst).
      unfold bind, print. now rewrite Heq.
    + rewrite apply_control_unknown; [reflexivity | exact Hall |].
      simpl. unfold dict_mem. unfold resolve in Hr. now rewrite Hr.
Qed.

(** X7.  The answer to a control URL depends only on the shape of its
    query.  For a path that contains "?", with a well-formed store: when
    every "&"-separated item of the query splits at "=" into exactly two
    parts, the answer is 200 OK, whatever the keys and values are; when
    some item does not (no "=", two "=", an empty item), the answer is the
    500 error for ValueError, the error is printed, and nothing else in
    the store changes. *)
Theorem X7_control_status_by_query_shape (hw : Hardware) (path : string)
    (w : World) :
  wf w = true ->
  contains "?" path = true ->
  let items := map (split "=") (split "&" (nth 1 (split "?" path) "")) in
  (Forall (fun item => List.length item = 2%nat) items ->
   fst (index_handler hw path w) = Ok Resp_OK) /\
  (Exists (fun item => List.length item <> 2%nat) items ->
   index_handler hw path w =
   (Ok (Resp_Error ValueError), add_line (Log_error_parsing ValueError) w)).
Proof.
  intros Hw Hq items.
  pose proof (split_length "?" path Hq) as Hlen.
  assert (Hidx : index (split "?" path) 1 w =
                 (Ok (nth 1 (split "?" path) ""), w)).
  { unfold index.
    destruct (split "?" path) as [|a [|b l]]; simpl in *; try lia.
    reflexivity. }
  assert (E : index_handler hw path w =
              match dict_of_items items [] w with
              | (Ok params, w1) =>
                  try_except (control hw params)
                    (fun e => print (Log_error_parsing e) ;;;
                              ret (Resp_Error e)) w1
              | (Raise e, w1) =>
                  (print (Log_error_parsing e) ;;; ret (Resp_Error e)) w1
              end).
  { unfold index_handler. rewrite Hq. unfold try_except, bind at 1.
    rewrite Hidx. unfold bind at 1. fold items.
    destruct (dict_of_items items [] w) as [[params|e] w1]; reflexivity. }
  rewrite E. split.
  - intros Hgood.
    destruct (dict_of_items_good items Hgood [] w) as [d Hd].
    rewrite Hd. unfold try_except, control, bind, ret.
    pose proof (apply_control_ok hw (dict_get String.eqb d "relay")
                  (dict_get String.eqb d "state") w Hw) as Hok.
    destruct (apply_control hw _ _ w) as [r w1]. simpl in Hok. subst r.
    reflexivity.
  - intros Hbad. rewrite (dict_of_items_bad items Hbad [] w).
    reflexivity.
Qed.

Lemma X7_witness :
  index_handler hw_ok "/?relay=3&state" (booted hw_ok) =
  (Ok (Resp_Error ValueError),
   add_line (Log_error_parsing ValueError) (booted hw_ok)).
Proof.
  assert (Hw : wf (booted hw_ok) = true) by reflexivity.
  assert (Hq : contains "?" "/?relay=3&state" = true) by reflexivity.
  destruct (X7_control_status_by_query_shape hw_ok "/?relay=3&state"
              (booted hw_ok) Hw Hq) as [_ H].
  apply H. vm_compute. apply Exists_cons_tl. apply Exists_cons_hd.
  discriminate.
Defined.

Lemma contains_app (c : ascii) (a b : string) :
  contains c (a ++ b)%string = contains c a || contains c b.
Proof.
  induction a as [|x a IH]; simpl; [reflexivity|].
  rewrite IH. apply orb_assoc.
Qed.

(** X8.  The URL the page's script builds, "/?relay=R&state=S", reaches
    the control logic with exactly these two parameters: when neither [R]
    nor [S] contains "?", "&" or "=", and the store is well formed, serving
    that path is [apply_control(R, S)] followed by the 200 OK
    acknowledgement. *)
Theorem X8_control_url_reaches_apply_control (hw : Hardware) (R S : string)
    (w : World) :
  wf w = true ->
  contains "?" R = false -> contains "&" R = false ->
  contains "=" R = false ->
  contains "?" S = false -> contains "&" S = false ->
  contains "=" S = false ->
  handle_client hw ("/?relay=" ++ R ++ "&state=" ++ S)%string w =
  (Ok Resp_OK, snd (apply_control hw (Some R) (Some S) w)).
Proof.
  intros Hw HqR HaR HeR HqS HaS HeS.
  remember ("relay=" ++ R ++ "&state=" ++ S)%string as query eqn:Hquery.
  assert (Hnq : contains "?" query = false).
  { subst query. rewrite !contains_app, HqR, HqS. reflexivity. }
  assert (Hamp : split "&" query = [("relay=" ++ R)%string;
                                    ("state=" ++ S)%string]).
  { subst query.
    change ("relay=" ++ R ++ "&state=" ++ S)%string
      with (("relay=" ++ R) ++ String "&" ("state=" ++ S))%string.
    rewrite split_app by (rewrite contains_app, HaR; reflexivity).
    rewrite split_no_sep by (rewrite contains_app, HaS; reflexivity).
    reflexivity. }
  assert (HeqR : split "=" ("relay=" ++ R)%string = ["relay"; R]).
  { change ("relay=" ++ R)%string with ("relay" ++ String "=" R)%string.
    rewrite split_app by reflexivity. now rewrite split_no_sep. }
  assert (HeqS : split "=" ("state=" ++ S)%string = ["state"; S]).
  { change ("state=" ++ S)%string with ("state" ++ String "=" S)%string.
    rewrite split_app by reflexivity. now rewrite split_no_sep. }
  assert (Hpath : ("/?relay=" ++ R ++ "&state=" ++ S)%string =
                  ("/" ++ String "?" query)%string)
    by (subst query; reflexivity).
  rewrite Hpath.
  assert (Hsp : split "?" ("/" ++ String "?" query)%string = ["/"; query]).
  { rewrite split_app by reflexivity. now rewrite split_no_sep. }
  assert (Hc : contains "?" ("/" ++ String "?" query)%string = true)
    by reflexivity.
  unfold handle_client. rewrite Hsp. cbv beta iota delta [hd].
  change (String.eqb "/" "/") with true. cbv iota.
  unfold index_handler. rewrite Hc, Hsp.
  unfold try_except, bind at 1. unfold index.
  cbv beta iota delta [nth_error]. unfold ret at 1. unfold bind at 1.
  rewrite Hamp. cbv beta iota delta [map]. rewrite HeqR, HeqS.
  cbv beta iota delta [dict_of_items dict_set].
  change (String.eqb "state" "relay") with false. cbv iota.
  unfold ret at 1. unfold control, bind, ret.
  change (dict_get String.eqb [("relay", R); ("state", S)] "relay")
    with (Some R).
  change (dict_get String.eqb [("relay", R); ("state", S)] "state")
    with (Some S).
  pose proof (apply_control_ok hw (Some R) (Some S) w Hw) as Hok.
  destruct (apply_control hw (Some R) (Some S) w) as [r w1].
  simpl in Hok. subst r. reflexivity.
Qed.

Lemma X8_witness :
  handle_client hw_ok "/?relay=12&state=off" (booted hw_ok) =
  (Ok Resp_OK,
   snd (apply_control hw_ok (Some "12") (Some "off") (booted hw_ok))).
Proof.
  apply (X8_control_url_reaches_apply_control hw_ok "12" "off" (booted hw_ok));
    reflexivity.
Defined.

(** ** The key-scanning task: what a pass does and does not do *)

Lemma scan_keys_pass_returns hw w : fst (scan_keys_pass hw w) = Ok tt.
Proof.
  unfold scan_keys_pass, try_except.
  destruct (for_each pcf_inputs _ w) as [[[]|e] w1]; reflexivity.
Qed.

Lemma reported_inputs_only hw w w' relay_id :
  inputs_only w w' -> reported hw w' relay_id = reported hw w relay_id.
Proof.
  intros H. unfold reported.
  destruct (api_state_handler_spec hw w) as (i1 & w1 & E1 & _).
  destruct (api_state_handler_spec hw w') as (i2 & w2 & E2 & _).
  rewrite E1, E2. cbv beta iota delta [fst].
  now rewrite (relays_of_inputs_only w w' H).
Qed.

(** X9.  A scan pass never changes a relay.  In a well-formed store one
    pass of the key-scanning loop returns normally and leaves both output
    device objects exactly as they were, whatever the inputs read and
    however many toggles it fires; the state query reports every relay
    after the pass as it would have before. *)
Theorem X9_scan_pass_changes_no_relay (hw : Hardware) (w : World) :
  wf w = true ->
  let w' := snd (scan_keys_pass hw w) in
  fst (scan_keys_pass hw w) = Ok tt /\
  obj w' pcf_outputs_1_8 = obj w pcf_outputs_1_8 /\
  obj w' pcf_outputs_9_16 = obj w pcf_outputs_9_16 /\
  forall hw' relay_id, reported hw' w' relay_id = reported hw' w relay_id.
Proof.
  intros Hw w'.
  destruct (scan_keys_pass_keeps hw w Hw) as [_ Ho]. fold w' in Ho.
  split; [apply scan_keys_pass_returns|].
  destruct (Ho pcf_outputs_1_8) as (_ & _ & H1).
  destruct (Ho pcf_outputs_9_16) as (_ & _ & H2).
  split; [apply H1; auto|]. split; [apply H2; auto|].
  intros hw' relay_id. now apply reported_inputs_only.
Qed.

Lemma X9_witness :
  let w := booted hw_ok in
  let w' := snd (scan_keys_pass (hw_press 100) w) in
  fired w w' = [(0, ADDR_INPUTS_1_8, "1"); (0, ADDR_INPUTS_9_16, "9")] /\
  obj w' pcf_outputs_1_8 = obj w pcf_outputs_1_8 /\
  obj w' pcf_outputs_9_16 = obj w pcf_outputs_9_16.
Proof.
  assert (Hw : wf (booted hw_ok) = true) by reflexivity.
  destruct (X9_scan_pass_changes_no_relay (hw_press 100) (booted hw_ok) Hw)
    as (_ & H1 & H2 & _).
  split; [reflexivity|]. split; assumption.
Defined.

Lemma In_edges (addr before cur : Z) (bits : list Z) (x : Z * Z * string) :
  In x (edges addr before cur bits) <->
  exists i relay_id,
    x = (i, addr, relay_id) /\ In i bits /\
    falling before cur i = true /\ resolve_input addr i = Some relay_id.
Proof.
  unfold edges. rewrite in_flat_map. unfold edge. split.
  - intros (i & Hi & Hx).
    destruct (falling before cur i) eqn:Hf; [|contradiction].
    destruct (resolve_input addr i) as [r|] eqn:Hr; [|contradiction].
    destruct Hx as [<- | []]. exists i, r. auto.
  - intros (i & r & -> & Hi & Hf & Hr). exists i. split; [exact Hi|].
    rewrite Hf, Hr. now left.
Qed.

Lemma In_range (n : nat) (i : Z) : In i (range n) <-> 0 <= i < Z.of_nat n.
Proof.
  unfold range. rewrite in_map_iff. split.
  - intros (k & <- & Hk). apply in_seq in Hk. lia.
  - intros Hi. exists (Z.to_nat i). split; [lia|]. apply in_seq. lia.
Qed.

Lemma scan_device_falling_edges (hw : Hardware) (addr : Z)
    (pcf : dev) (before : Z) (b : Byte.byte) (w : World) :
  In (addr, pcf) pcf_inputs ->
  wf w = true ->
  is_valid (obj w pcf) = true ->
  address (obj w pcf) = addr ->
  dict_get Z.eqb (prev_state w) addr = Some (Some before) ->
  hw_readfrom hw (clock w) addr = Some b ->
  let cur := Z.of_N (Byte.to_N b) in
  let w' := snd (scan_device hw addr pcf w) in
  fst (scan_device hw addr pcf w) = Ok tt /\
  dict_get Z.eqb (prev_state w') addr = Some (Some cur) /\
  forall i a relay_id,
    In (i, a, relay_id) (fired w w') <->
    a = addr /\ 0 <= i < 8 /\
    Z.testbit before i = true /\ Z.testbit cur i = false /\
    resolve_input addr i = Some relay_id.
Proof.
  intros Hin Hw Hv Ha Hp Hr cur w'.
  destruct (scan_device_spec hw addr pcf before b w Hin Hw Hv Ha Hp Hr)
    as (w1 & E & He & Hp1 & _).
  unfold w'. rewrite E. cbv beta iota delta [fst snd].
  split; [reflexivity|]. split; [exact Hp1|].
  intros i a relay_id. rewrite (emits_fired _ _ _ He), In_edges.
  unfold falling. split.
  - intros (i' & r' & [= -> -> ->] & Hi & Hf & Hres).
    apply In_range in Hi. apply andb_prop in Hf. destruct Hf as [Hf1 Hf2].
    apply negb_true_iff in Hf2. repeat split; auto; lia.
  - intros (-> & Hi & Hb & Hc & Hres). exists i, relay_id.
    split; [reflexivity|]. split; [apply In_range; simpl; lia|].
    split; [|exact Hres]. fold cur. now rewrite Hb, Hc.
Qed.

(** X10.  The edge rule in general.  When an input board is valid, has
    a previous snapshot and its read succeeds, scanning it returns
    normally, makes the byte read the new snapshot, and fires a toggle for
    input bit [i] on relay [r] exactly when [0 <= i < 8], bit [i] was 1 in
    the previous snapshot and is 0 in the byte read, and [r] is the relay
    the registry maps that input bit to.  Bits that rise, stay set or stay
    clear fire nothing. *)
Theorem X10_scan_fires_exactly_falling_edges (hw : Hardware) (addr : Z)
    (pcf : dev) (before : Z) (b : Byte.byte) (w : World) :
  In (addr, pcf) pcf_inputs ->
  wf w = true ->
  is_valid (obj w pcf) = true ->
  address (obj w pcf) = addr ->
  dict_get Z.eqb (prev_state w) addr = Some (Some before) ->
  hw_readfrom hw (clock w) addr = Some b ->
  let cur := Z.of_N (Byte.to_N b) in
  let w' := snd (scan_device hw addr pcf w) in
  fst (scan_device hw addr pcf w) = Ok tt /\
  dict_get Z.eqb (prev_state w') addr = Some (Some cur) /\
  forall i a relay_id,
    In (i, a, relay_id) (fired w w') <->
    a = addr /\ 0 <= i < 8 /\
    Z.testbit before i = true /\ Z.testbit cur i = false /\
    resolve_input addr i = Some relay_id.
Proof.
  intros Hin Hw Hv Ha Hp Hr.
  exact (scan_device_falling_edges hw addr pcf before b w Hin Hw Hv Ha Hp Hr).
Qed.

Lemma X10_witness :
  let w := booted hw_ok in
  let w' := snd (scan_device (hw_press 100) ADDR_INPUTS_9_16
                   pcf_inputs_9_16 w) in
  In (0, ADDR_INPUTS_9_16, "9") (fired w w') /\
  ~ In (1, ADDR_INPUTS_9_16, "10") (fired w w').
Proof.
  destruct (X10_scan_fires_exactly_falling_edges (hw_press 100)
              ADDR_INPUTS_9_16 pcf_inputs_9_16 0xFF Byte.xfe (booted hw_ok))
    as (_ & _ & H); try reflexivity; [simpl; auto|].
  split.
  - apply H. repeat split; try reflexivity; lia.
  - intros Hin. apply H in Hin. destruct Hin as (_ & _ & _ & Hc & _).
    discriminate Hc.
Defined.




Lemma read_all_succeeds hw (pcf : dev) (b : Byte.byte) (w : World) :
  is_valid (obj w pcf) = true ->
  hw_readfrom hw (clock w) (address (obj w pcf)) = Some b ->
  read_all hw pcf w =
  (Ok (Some (Z.of_N (Byte.to_N b))),
   set_obj pcf (mkPCF (address (obj w pcf)) (Z.of_N (Byte.to_N b)) true)
     (tick w)).
Proof.
  intros Hv Hr.
  unfold read_all, bind, get_obj, try_except_OSError, i2c_readfrom, set_value,
    ret.
  rewrite Hv. cbv beta iota delta [negb]. rewrite Hr.
  rewrite !obj_tick, Hv, obj_set_obj, dev_eqb_refl. reflexivity.
Qed.

(** X12.  A board whose first snapshot is None blocks the scan.  When the
    start-up read of the first input board failed, its entry in
    [prev_state] is None.  From then on every pass in which that board's
    read succeeds runs into [None ^ int]: the pass consists of that one bus
    read and the printed TypeError, the second board is not read at all,
    nothing is fired, and [prev_state] is unchanged, so the next pass does
    the same. *)
Theorem X12_none_snapshot_blocks_the_scan (hw : Hardware) (b : Byte.byte)
    (w : World) :
  is_valid (obj w pcf_inputs_1_8) = true ->
  address (obj w pcf_inputs_1_8) = ADDR_INPUTS_1_8 ->
  dict_get Z.eqb (prev_state w) ADDR_INPUTS_1_8 = Some None ->
  hw_readfrom hw (clock w) ADDR_INPUTS_1_8 = Some b ->
  let w' := snd (scan_keys_pass hw w) in
  scan_keys_pass hw w =
    (Ok tt, add_line (Log_error_scan TypeError)
              (snd (read_all hw pcf_inputs_1_8 w))) /\
  clock w' = S (clock w) /\
  obj w' pcf_inputs_9_16 = obj w pcf_inputs_9_16 /\
  fired w w' = [] /\
  prev_state w' = prev_state w.
Proof.
  intros Hv Ha Hp Hr w'.
  assert (Hr' : hw_readfrom hw (clock w) (address (obj w pcf_inputs_1_8)) =
                Some b) by (now rewrite Ha).
  pose proof (read_all_succeeds hw pcf_inputs_1_8 b w Hv Hr') as Era.
  set (w1 := set_obj pcf_inputs_1_8 _ (tick w)) in Era.
  assert (Ed : scan_device hw ADDR_INPUTS_1_8 pcf_inputs_1_8 w =
               (Raise TypeError, w1)).
  { unfold scan_device. unfold bind at 1. unfold get_obj at 1. rewrite Hv.
    cbv beta iota delta [negb]. unfold bind at 1. rewrite Era.
    unfold bind at 1. unfold get_prev at 1.
    unfold bind at 1. unfold subscript at 1.
    replace (prev_state w1) with (prev_state w) by reflexivity.
    rewrite Hp. reflexivity. }
  assert (E : scan_keys_pass hw w =
              (Ok tt, add_line (Log_error_scan TypeError) w1)).
  { unfold scan_keys_pass, try_except, pcf_inputs.
    cbv beta iota delta [for_each fst snd]. unfold bind at 1.
    rewrite Ed. reflexivity. }
  unfold w'. rewrite E, Era. cbv beta iota delta [snd].
  split; [reflexivity|]. repeat split.
  unfold fired. simpl. rewrite skipn_app, skipn_all, Nat.sub_diag.
  reflexivity.
Qed.

Lemma X12_witness :
  let w := booted hw_late in
  dict_get Z.eqb (prev_state w) ADDR_INPUTS_1_8 = Some None /\
  let w' := snd (scan_keys_pass hw_late w) in
  clock w' = S (clock w) /\
  obj w' pcf_inputs_9_16 = obj w pcf_inputs_9_16 /\
  fired w w' = [] /\
  prev_state w' = prev_state w.
Proof.
  split; [reflexivity|].
  destruct (X12_none_snapshot_blocks_the_scan hw_late Byte.xfe
              (booted hw_late)) as (_ & H); try reflexivity.
  exact H.
Defined.

(** ** The running system: what never changes after start-up *)

Lemma module_init_exact hw :
  exists w',
    module_init hw World0 = (Ok tt, w') /\
    (forall d, obj w' d = mkPCF (addr_of d) 0xFF (scan_ok hw (ctor_clock d))) /\
    prev_state w' = [].
Proof.
  unfold module_init, PCF8574_init, bind, try_except_OSError, i2c_scan, print,
    set_is_valid, ret, World0, scan_ok.
  simpl.
  destruct (hw_scan hw 0%nat) eqn:E0; simpl;
    destruct (hw_scan hw 1%nat) eqn:E1; simpl;
    destruct (hw_scan hw 2%nat) eqn:E2; simpl;
    destruct (hw_scan hw 3%nat) eqn:E3; simpl;
    (eexists; split; [reflexivity|]; split; [|reflexivity];
     intros []; simpl; rewrite ?E0, ?E1, ?E2, ?E3; reflexivity).
Qed.

Lemma write_all_prev hw self v w :
  prev_state (snd (write_all hw self v w)) = prev_state w.
Proof.
  destruct (write_all_spec hw self v w) as (r & w' & Heq & [Hp _] & _).
  now rewrite Heq.
Qed.

Lemma main_flags hw w :
  flags_kept w (snd (main hw w)) /\ prev_state (snd (main hw w)) = prev_state w.
Proof.
  unfold main, bind, get_obj.
  assert (H1 : forall d w0,
    flags_kept w0 (snd ((if is_valid (obj w0 d)
                         then write_all hw d 0xFF else ret tt) w0)) /\
    prev_state (snd ((if is_valid (obj w0 d)
                      then write_all hw d 0xFF else ret tt) w0)) =
    prev_state w0).
  { intros d w0. destruct (is_valid (obj w0 d)).
    - split; [|apply write_all_prev].
      eapply flags_kept_only_value, write_all_only_value.
    - split; [apply flags_kept_refl | reflexivity]. }
  destruct (H1 pcf_outputs_1_8 w) as [F1 P1].
  destruct ((if is_valid (obj w pcf_outputs_1_8)
             then write_all hw pcf_outputs_1_8 0xFF else ret tt) w)
    as [[[]|e] w1]; simpl in F1, P1; [|split; assumption].
  destruct (H1 pcf_outputs_9_16 w1) as [F2 P2].
  destruct ((if is_valid (obj w1 pcf_outputs_9_16)
             then write_all hw pcf_outputs_9_16 0xFF else ret tt) w1)
    as [r w2]; simpl in *.
  split; [eapply flags_kept_trans; eauto | congruence].
Qed.

Lemma scan_keys_start_prev hw w :
  keys (prev_state (snd (scan_keys_start hw w))) =
  (if is_valid (obj w pcf_inputs_1_8) then [ADDR_INPUTS_1_8] else []) ++
  (if is_valid (obj w pcf_inputs_9_16) then [ADDR_INPUTS_9_16] else []).
Proof.
  unfold scan_keys_start, pcf_inputs.
  unfold bind at 1. unfold print at 1. cbv beta iota delta [fold_for fst snd].
  set (w0 := add_line Log_starting_scan w).
  assert (V1 : is_valid (obj w0 pcf_inputs_1_8) =
               is_valid (obj w pcf_inputs_1_8)) by reflexivity.
  assert (V2 : is_valid (obj w0 pcf_inputs_9_16) =
               is_valid (obj w pcf_inputs_9_16)) by reflexivity.
  rewrite <- V1, <- V2. clearbody w0. clear V1 V2.
  unfold bind at 1. unfold bind at 1. unfold bind at 1.
  unfold get_obj at 1.
  destruct (is_valid (obj w0 pcf_inputs_1_8)) eqn:Hv1.
  - destruct (read_all_spec hw pcf_inputs_1_8 w0) as (r1 & w1 & E1 & _).
    pose proof (read_all_only_value hw pcf_inputs_1_8 w0) as Ho.
    rewrite E1 in Ho. simpl in Ho.
    destruct (Ho pcf_inputs_9_16) as (Hv2 & _).
    unfold bind at 1. rewrite E1. unfold ret at 1.
    unfold bind at 1. unfold bind at 1. unfold get_obj at 1.
    rewrite Hv2.
    destruct (is_valid (obj w0 pcf_inputs_9_16)).
    + destruct (read_all_spec hw pcf_inputs_9_16 w1) as (r2 & w2 & E2 & _).
      unfold bind at 1. rewrite E2. reflexivity.
    + reflexivity.
  - unfold ret at 1.
    unfold bind at 1. unfold bind at 1. unfold get_obj at 1.
    destruct (is_valid (obj w0 pcf_inputs_9_16)).
    + destruct (read_all_spec hw pcf_inputs_9_16 w0) as (r2 & w2 & E2 & _).
      unfold bind at 1. rewrite E2. reflexivity.
    + reflexivity.
Qed.

(** The store right after start-up. *)
Lemma booted_exact hw :
  wf (booted hw) = true /\
  (forall d, address (obj (booted hw) d) = addr_of d /\
             is_valid (obj (booted hw) d) = scan_ok hw (ctor_clock d)) /\
  keys (prev_state (booted hw)) = scanned_boards hw.
Proof.
  destruct (booted_outputs hw) as [Hwf _]. split; [exact Hwf|].
  destruct (module_init_exact hw) as (w1 & E1 & Hobj1 & _).
  destruct (main_flags hw w1) as [F2 _].
  assert (Hv1 : forall d, value (obj w1 d) = 0xFF)
    by (intros d; now rewrite Hobj1).
  destruct (main_run hw w1 Hv1) as [Hr2 Hv2].
  assert (Hb : booted hw = snd (scan_keys_start hw (snd (main hw w1)))).
  { unfold booted, boot, bind. rewrite E1.
    destruct (main hw w1) as [r w2]. simpl in Hr2. subst r. simpl.
    destruct (scan_keys_start hw w2) as [[[]|e] w3]; reflexivity. }
  set (w2 := snd (main hw w1)) in *.
  destruct (scan_keys_start_keeps hw w2 (all_0xFF_wf w2 Hv2)) as [_ Ho3].
  apply flags_kept_inputs_only in Ho3.
  assert (F : forall d, address (obj (booted hw) d) = addr_of d /\
                        is_valid (obj (booted hw) d) =
                        scan_ok hw (ctor_clock d)).
  { intros d. rewrite Hb. destruct (Ho3 d) as [-> ->].
    destruct (F2 d) as [-> ->]. rewrite Hobj1. auto. }
  split; [exact F|].
  rewrite Hb, scan_keys_start_prev. unfold scanned_boards.
  destruct (F2 pcf_inputs_1_8) as [-> _].
  destruct (F2 pcf_inputs_9_16) as [-> _].
  now rewrite !Hobj1.
Qed.

Lemma read_all_cost hw self w :
  stdout (snd (read_all hw self w)) = stdout w /\
  prev_state (snd (read_all hw self w)) = prev_state w /\
  clock (snd (read_all hw self w)) =
    if is_valid (obj w self) then S (clock w) else clock w.
Proof.
  unfold read_all, bind, get_obj, try_except_OSError, i2c_readfrom, set_value,
    ret.
  destruct (is_valid (obj w self)); cbv beta iota delta [negb];
    [|repeat split].
  destruct (hw_readfrom hw (clock w) (address (obj w self))); simpl;
    rewrite ?stdout_set_obj, ?prev_set_obj, ?clock_set_obj; repeat split.
Qed.

Lemma read_pin_world_exact hw self n w :
  snd (read_pin hw self n w) = snd (read_all hw self w).
Proof.
  unfold read_pin. unfold bind at 1. unfold get_obj at 1.
  destruct (is_valid (obj w self)) eqn:Hv; cbv beta iota delta [negb].
  - unfold bind at 1.
    destruct (read_all hw self w) as [[[v|]|e] w']; try reflexivity.
    unfold bind, get_obj, shl1. destruct (n <? 0); reflexivity.
  - unfold read_all, bind, get_obj. rewrite Hv. reflexivity.
Qed.

(** Reading one board for the state query: eight bus reads when the board
    is valid, none when it is not; nothing printed, no snapshot touched. *)
Lemma read_inputs_cost hw (pcf : dev) (first : Z) (acc : dict string bool) w :
  let w' := snd (read_inputs hw pcf first acc w) in
  stdout w' = stdout w /\ prev_state w' = prev_state w /\
  clock w' = ((if is_valid (obj w pcf) then 8 else 0) + clock w)%nat.
Proof.
  unfold read_inputs, bind, get_obj.
  destruct (is_valid (obj w pcf)) eqn:Hv; [|repeat split].
  pose proof (fold_for_prefix
    (fun acc i => b <- read_pin hw pcf i ;;
                  ret (dict_set String.eqb acc
                         ("X" ++ fmt_02d (i + first))%string b))
    (fun done _ w' =>
       is_valid (obj w' pcf) = true /\
       stdout w' = stdout w /\ prev_state w' = prev_state w /\
       clock w' = (List.length done + clock w)%nat)
    (range 8) [] acc w) as H.
  unfold post in H. destruct H as (acc' & _ & _ & Hs & Hp & Hc).
  - intros done i s w1 Hi (Hv1 & Hs1 & Hp1 & Hc1).
    unfold post, bind.
    destruct (read_pin_returns hw pcf i w1 (range_nonneg _ _ Hi)) as [b Hb].
    pose proof (read_pin_world_exact hw pcf i w1) as Hwd.
    pose proof (read_all_cost hw pcf w1) as (Hs2 & Hp2 & Hc2).
    pose proof (read_all_only_value hw pcf w1) as Ho.
    rewrite <- Hwd in Hs2, Hp2, Hc2, Ho.
    destruct (read_pin hw pcf i w1) as [r w2]. simpl in *. subst r.
    simpl. eexists. split; [reflexivity|].
    destruct (Ho pcf) as (Hv2 & _).
    split; [congruence|]. split; [congruence|]. split; [congruence|].
    rewrite Hc2, Hv1, Hc1, length_app. simpl. lia.
  - repeat split. exact Hv.
  - simpl in Hc. repeat split; assumption.
Qed.

Lemma api_state_handler_cost (hw : Hardware) (w : World) :
  exists w',
    snd (api_state_handler hw w) = w' /\
    clock w' = (3 + (if is_valid (inputs_1_8 w) then 8 else 0)
                  + (if is_valid (inputs_9_16 w) then 8 else 0)
                  + clock w)%nat /\
    stdout w' = stdout w /\
    prev_state w' = prev_state w.
Proof.
  unfold api_state_handler.
  unfold bind at 1. unfold pin_value at 1.
  unfold bind at 1. unfold pin_value at 1.
  unfold bind at 1. unfold pin_value at 1.
  set (w3 := tick (tick (tick w))).
  set (acc0 := [("HT1", _); ("HT2", _); ("HT3", _)]).
  destruct (read_inputs_spec hw pcf_inputs_1_8 1 acc0 w3)
    as (acc1 & w4 & E1 & Ho1 & _).
  pose proof (read_inputs_cost hw pcf_inputs_1_8 1 acc0 w3) as C1.
  rewrite E1 in C1. cbv beta iota zeta delta [snd] in C1.
  destruct C1 as (S1 & P1 & C1).
  destruct (read_inputs_spec hw pcf_inputs_9_16 9 acc1 w4)
    as (acc2 & w5 & E2 & _).
  pose proof (read_inputs_cost hw pcf_inputs_9_16 9 acc1 w4) as C2.
  rewrite E2 in C2. cbv beta iota zeta delta [snd] in C2.
  destruct C2 as (S2 & P2 & C2).
  destruct (Ho1 pcf_inputs_9_16) as (Hv & _).
  unfold bind at 1. rewrite E1. unfold bind at 1. rewrite E2.
  unfold bind at 1. rewrite relays_state_run.
  exists w5. split; [reflexivity|]. split; [|split].
  - rewrite C2, C1, Hv. unfold w3. simpl. lia.
  - rewrite S2, S1. reflexivity.
  - rewrite P2, P1. reflexivity.
Qed.

(** X13.  What a state query costs and what it leaves alone.  The query
    always answers; it reads the three sensor pins and then makes one bus
    read per input bit of each valid input board, so the transaction
    counter advances by 3, 11 or 19; it prints nothing, leaves the scan
    task's snapshots alone, and changes no validity flag, no address and
    no output device object. *)
Theorem X13_state_query_cost_and_frame (hw : Hardware) (w : World) :
  let w' := snd (api_state_handler hw w) in
  (exists relays inputs,
     fst (api_state_handler hw w) = Ok (Resp_json relays inputs)) /\
  clock w' = (3 + (if is_valid (inputs_1_8 w) then 8 else 0)
                + (if is_valid (inputs_9_16 w) then 8 else 0)
                + clock w)%nat /\
  stdout w' = stdout w /\
  prev_state w' = prev_state w /\
  inputs_only w w'.
Proof.
  intros w'.
  destruct (api_state_handler_spec hw w) as (inputs & w0 & E & _ & Ho & _).
  destruct (api_state_handler_cost hw w) as (w1 & E1 & Hc & Hs & Hp).
  fold w' in E1. rewrite <- E1 in Hc, Hs, Hp.
  split; [rewrite E; eexists _, _; reflexivity|].
  split; [exact Hc|]. split; [exact Hs|]. split; [exact Hp|].
  unfold w'. rewrite E. exact Ho.
Qed.

Lemma apply_control_outputs_only hw (relay_id state : option string) w :
  wf w = true -> outputs_only w (snd (apply_control hw relay_id state w)).
Proof.
  intros Hw.
  destruct (is_on_off state) eqn:Hst;
    [|rewrite apply_control_noop by assumption; apply outputs_only_refl].
  destruct state as [st|]; [|discriminate].
  destruct relay_id as [id|];
    [|rewrite apply_control_unknown by reflexivity; apply outputs_only_refl].
  destruct (String.eqb_spec id "all") as [->|Hne].
  - rewrite (apply_control_all hw st w Hst).
    pose proof (all_loop hw (String.eqb st "on") w Hw) as H.
    unfold post in H. unfold bind, print.
    destruct (for_each (keys outputs_map) _ w) as [r w0].
    cbv beta iota delta [fst snd] in H |- *.
    destruct H as (-> & _ & Ho & _). cbv beta iota delta [snd].
    eapply outputs_only_trans; [exact Ho | apply outputs_only_add_line].
  - assert (Hall : String.eqb id "all" = false)
      by (now apply String.eqb_neq).
    destruct (resolve id) as [[d p]|] eqn:Hr.
    + destruct (outputs_map_pins id d p Hr) as [Hp Hd].
      destruct (registry_write hw d p (String.eqb st "on") w Hp Hw)
        as (w0 & Heq & _ & Hov & Hq & _).
      rewrite (apply_control_single hw id st d p w Hr Hall Hst).
      unfold bind, print. rewrite Heq. cbv beta iota delta [snd].
      eapply outputs_only_trans; [|apply outputs_only_add_line].
      eapply outputs_only_write; eauto.
    + rewrite apply_control_unknown; [apply outputs_only_refl | exact Hall |].
      simpl. unfold dict_mem. unfold resolve in Hr. now rewrite Hr.
Qed.

Lemma index_handler_frame hw path w :
  wf w = true -> outputs_only w (snd (index_handler hw path w)).
Proof.
  intros Hw. unfold index_handler.
  destruct (contains "?" path); [|apply outputs_only_refl].
  unfold try_except, control, bind, ret, print.
  pose proof (index_world (split "?" path) 1 w) as Hi.
  destruct (index (split "?" path) 1 w) as [[query|e] w1]; simpl in Hi;
    subst w1; [|apply outputs_only_add_line].
  pose proof (dict_of_items_world (map (split "=") (split "&" query)) [] w)
    as Hd.
  destruct (dict_of_items (map (split "=") (split "&" query)) [] w)
    as [[params|e] w1]; simpl in Hd; subst w1; [|apply outputs_only_add_line].
  pose proof (apply_control_outputs_only hw
                (dict_get String.eqb params "relay")
                (dict_get String.eqb params "state") w Hw) as Ha.
  destruct (apply_control hw _ _ w) as [[[]|e] w1]; simpl in Ha |- *;
    [exact Ha|].
  eapply outputs_only_trans; [exact Ha | apply outputs_only_add_line].
Qed.

Lemma handle_client_frame hw path w :
  wf w = true ->
  flags_kept w (snd (handle_client hw path w)) /\
  prev_state (snd (handle_client hw path w)) = prev_state w.
Proof.
  intros Hw. unfold handle_client.
  destruct (String.eqb _ "/").
  - destruct (index_handler_frame hw path w Hw) as (F & _ & _ & P). auto.
  - destruct (String.eqb _ "/api/state").
    + destruct (api_state_handler_spec hw w) as (inputs & w' & E & _ & Ho & _).
      destruct (api_state_handler_cost hw w) as (w1 & E1 & _ & _ & Hp).
      rewrite E1. split; [|exact Hp].
      rewrite E in E1. simpl in E1. subst w1.
      now apply flags_kept_inputs_only.
    + split; [apply flags_kept_refl | reflexivity].
Qed.

Lemma keys_dict_set_present {V} (d : dict Z V) (k : Z) (v v0 : V) :
  dict_get Z.eqb d k = Some v0 ->
  keys (dict_set Z.eqb d k v) = keys d.
Proof.
  unfold keys. induction d as [|[k' v'] d IH]; simpl; [discriminate|].
  destruct (Z.eqb k k'); simpl; [reflexivity|].
  intros H. now rewrite IH.
Qed.

Lemma prev_set_prev p w : prev_state (set_prev p w) = p.
Proof. reflexivity. Qed.

Lemma scan_device_prev_keys hw (addr : Z) (pcf : dev) (w : World) :
  In (addr, pcf) pcf_inputs -> wf w = true ->
  keys (prev_state (snd (scan_device hw addr pcf w))) = keys (prev_state w).
Proof.
  intros Hin Hw.
  destruct (scan_device hw addr pcf w) as [res w'] eqn:E.
  cbv beta iota delta [snd].
  unfold scan_device in E. unfold bind at 1 in E. unfold get_obj at 1 in E.
  destruct (is_valid (obj w pcf)); cbv beta iota delta [negb] in E.
  2:{ inversion E; subst. reflexivity. }
  pose proof (read_all_wf hw pcf w Hw) as Hw1.
  destruct (read_all_cost hw pcf w) as (_ & Hp1 & _).
  destruct (read_all_spec hw pcf w) as (r & w1 & Heq & _).
  rewrite Heq in Hw1, Hp1. cbv beta iota delta [snd] in Hw1, Hp1.
  unfold bind at 1 in E. rewrite Heq in E.
  destruct r as [cur|]; [|inversion E; subst; now rewrite Hp1].
  unfold bind at 1 in E. unfold get_prev at 1 in E.
  unfold bind at 1 in E. unfold subscript at 1 in E.
  destruct (dict_get Z.eqb (prev_state w1) addr) as [before|] eqn:Hget;
    [|inversion E; subst; now rewrite Hp1].
  unfold ret at 1 in E. unfold bind at 1 in E. unfold xor at 1 in E.
  destruct before as [before|]; [|inversion E; subst; now rewrite Hp1].
  unfold ret at 1 in E.
  destruct (scan_bits_spec hw addr pcf before cur w1 Hin Hw1)
    as (w2 & Hloop & _ & Hp2 & _).
  unfold bind at 1 in E. rewrite Hloop in E.
  unfold bind, get_prev, put_prev in E. inversion E; subst.
  rewrite prev_set_prev, Hp2.
  rewrite (keys_dict_set_present _ _ _ _ Hget). now rewrite Hp1.
Qed.

Lemma scan_keys_pass_prev_keys hw (w : World) :
  wf w = true ->
  keys (prev_state (snd (scan_keys_pass hw w))) = keys (prev_state w).
Proof.
  intros Hw.
  change (post (scan_keys_pass hw) w
               (fun _ w' => keys (prev_state w') = keys (prev_state w))).
  unfold scan_keys_pass. apply post_try_except.
  eapply post_mono.
  - apply (for_each_inv _
             (fun w' => wf w' = true /\
                        keys (prev_state w') = keys (prev_state w))).
    + intros [addr pcf] w1 Hx [Hw1 Hk1]. unfold post. cbn [fst snd].
      pose proof (scan_device_keeps hw addr pcf w1 Hx Hw1) as [Hw2 _].
      split; [exact Hw2|].
      rewrite (scan_device_prev_keys hw addr pcf w1 Hx Hw1). exact Hk1.
    + split; [exact Hw | reflexivity].
  - intros [[]|e] w' [_ Hk]; exact Hk.
Qed.

(** X14.  What start-up fixes for good.  In every store the running
    system can reach, through any sequence of requests and scan passes and
    whatever the bus does: every cached byte is in 0..255; every device
    has the address it was constructed with; a device is valid exactly
    when the bus scan of its own constructor did not raise (the list that
    scan returns is never looked at); a device that is not valid still
    caches 0xFF; and the scan task holds a snapshot entry for exactly the
    valid input boards. *)
Theorem X14_reachable_invariant (hw : Hardware) (w : World) :
  reachable hw w ->
  wf w = true /\
  (forall d, address (obj w d) = addr_of d /\
             is_valid (obj w d) = scan_ok hw (ctor_clock d)) /\
  keys (prev_state w) = scanned_boards hw.
Proof.
  induction 1 as [|w ev Hre (Hw & Hf & Hk)].
  - apply (booted_exact hw).
  - split; [apply (reachable_wf hw); now constructor|].
    destruct ev as [path|]; simpl.
    + destruct (handle_client_frame hw path w Hw) as [F P].
      split; [|now rewrite P].
      intros d. destruct (F d) as [-> ->]. apply Hf.
    + destruct (scan_keys_pass_keeps hw w Hw) as [_ Ho].
      apply flags_kept_inputs_only in Ho.
      split; [|now rewrite scan_keys_pass_prev_keys].
      intros d. destruct (Ho d) as [-> ->]. apply Hf.
Qed.

Lemma X14_witness :
  let w := step hw_no_inputs_1_8 Ev_scan
             (step hw_no_inputs_1_8 (Ev_http "/?relay=all&state=off")
                (booted hw_no_inputs_1_8)) in
  wf w = true /\
  (forall d, address (obj w d) = addr_of d /\
             is_valid (obj w d) = scan_ok hw_no_inputs_1_8 (ctor_clock d)) /\
  keys (prev_state w) = scanned_boards hw_no_inputs_1_8.
Proof.
  apply (X14_reachable_invariant hw_no_inputs_1_8).
  apply reach_step. apply reach_step. apply reach_boot.
Defined.

(** ** The state query: where each input value comes from *)

Lemma read_pin_sampled hw self i w :
  is_valid (obj w self) = true -> 0 <= i ->
  fst (read_pin hw self i w) = Ok (sampled hw (clock w) (address (obj w self)) i) /\
  is_valid (obj (snd (read_pin hw self i w)) self) = true /\
  address (obj (snd (read_pin hw self i w)) self) = address (obj w self) /\
  clock (snd (read_pin hw self i w)) = S (clock w).
Proof.
  intros Hv Hi.
  pose proof (read_all_only_value hw self w) as Ho.
  pose proof (read_all_cost hw self w) as (_ & _ & Hc).
  rewrite Hv in Hc.
  destruct (Ho self) as (Hv' & Ha' & _). clear Ho.
  rewrite read_pin_spec by assumption.
  unfold sampled.
  destruct (hw_readfrom hw (clock w) (address (obj w self))) as [b|] eqn:Hr.
  - rewrite (read_all_succeeds hw self b w Hv Hr) in *.
    cbn [fst snd] in *. repeat split; try congruence.
  - assert (E : read_all hw self w = (Ok None, tick w)).
    { unfold read_all, bind, get_obj, try_except_OSError, i2c_readfrom, ret.
      cbv beta. rewrite Hv. cbv beta iota delta [negb]. rewrite Hr.
      reflexivity. }
    rewrite E in *. cbn [fst snd] in *. repeat split; try congruence.
Qed.

Lemma read_loop_sampled hw (pcf : dev) (first a : Z) (t0 : nat) :
  forall n k acc w,
    is_valid (obj w pcf) = true -> address (obj w pcf) = a ->
    clock w = (k + t0)%nat ->
    fst (fold_for (map Z.of_nat (seq k n)) acc
           (fun acc i =>
              b <- read_pin hw pcf i ;;
              ret (dict_set String.eqb acc
                     ("X" ++ fmt_02d (i + first))%string b)) w) =
    Ok (dict_update String.eqb acc
          (board_inputs hw t0 a first (map Z.of_nat (seq k n)))).
Proof.
  induction n as [|n IH]; intros k acc w Hv Ha Hc; [reflexivity|].
  cbn [seq map fold_for].
  destruct (read_pin_sampled hw pcf (Z.of_nat k) w Hv (Nat2Z.is_nonneg k))
    as (Hr & Hv' & Ha' & Hc').
  unfold bind at 1. unfold bind at 1.
  destruct (read_pin hw pcf (Z.of_nat k) w) as [r w1].
  cbn [fst snd] in Hr, Hv', Ha', Hc'. subst r.
  unfold ret at 1.
  rewrite (IH (S k) _ w1 Hv') by (try congruence; rewrite Hc', Hc; reflexivity).
  unfold board_inputs, dict_update. cbn [map fold_left fst snd].
  rewrite Nat2Z.id, Ha, Hc. reflexivity.
Qed.

Lemma read_inputs_sampled hw (pcf : dev) (first : Z) (acc : dict string bool) w :
  fst (read_inputs hw pcf first acc w) =
  Ok (if is_valid (obj w pcf)
      then dict_update String.eqb acc
             (board_inputs hw (clock w) (address (obj w pcf)) first (range 8))
      else acc).
Proof.
  unfold read_inputs, bind, get_obj.
  destruct (is_valid (obj w pcf)) eqn:Hv; [|reflexivity].
  apply (read_loop_sampled hw pcf first (address (obj w pcf)) (clock w) 8 0%nat);
    auto.
Qed.

Lemma api_state_handler_inputs (hw : Hardware) (w : World) :
  exists relays,
    fst (api_state_handler hw w) =
    Ok (Resp_json relays
          (dict_update String.eqb
             (dict_update String.eqb
                [("HT1", negb (hw_pin hw (clock w) PIN_HT1));
                 ("HT2", negb (hw_pin hw (S (clock w)) PIN_HT2));
                 ("HT3", negb (hw_pin hw (S (S (clock w))) PIN_HT3))]
                (if is_valid (inputs_1_8 w)
                 then board_inputs hw (3 + clock w)
                        (address (inputs_1_8 w)) 1 (range 8)
                 else []))
             (if is_valid (inputs_9_16 w)
              then board_inputs hw
                     ((if is_valid (inputs_1_8 w) then 8 else 0) + (3 + clock w))
                     (address (inputs_9_16 w)) 9 (range 8)
              else []))).
Proof.
  unfold api_state_handler.
  unfold bind at 1. unfold pin_value at 1.
  unfold bind at 1. unfold pin_value at 1.
  unfold bind at 1. unfold pin_value at 1.
  cbv beta iota.
  assert (Hb : forall b, negb (truthy (Z.b2z b)) = negb b) by (now intros []).
  rewrite !Hb.
  set (w3 := tick (tick (tick w))).
  set (acc0 := [("HT1", _); ("HT2", _); ("HT3", _)]).
  destruct (read_inputs_spec hw pcf_inputs_1_8 1 acc0 w3)
    as (acc1 & w4 & E1 & Ho1 & _).
  pose proof (read_inputs_sampled hw pcf_inputs_1_8 1 acc0 w3) as S1.
  pose proof (read_inputs_cost hw pcf_inputs_1_8 1 acc0 w3) as C1.
  rewrite E1 in S1, C1. cbv beta iota zeta delta [fst snd] in S1, C1.
  destruct C1 as (_ & _ & C1).
  destruct (read_inputs_spec hw pcf_inputs_9_16 9 acc1 w4)
    as (acc2 & w5 & E2 & _).
  pose proof (read_inputs_sampled hw pcf_inputs_9_16 9 acc1 w4) as S2.
  rewrite E2 in S2. cbv beta iota zeta delta [fst snd] in S2.
  destruct (Ho1 pcf_inputs_9_16) as (Hv & Ha & _).
  unfold bind at 1. rewrite E1. unfold bind at 1. rewrite E2.
  unfold bind at 1. rewrite relays_state_run.
  eexists. cbn [fst ret]. unfold ret. cbn [fst].
  apply (f_equal (fun r => match r with Ok a => a | Raise _ => acc1 end))
    in S1.
  apply (f_equal (fun r => match r with Ok a => a | Raise _ => acc2 end))
    in S2.
  cbv beta iota in S1, S2.
  rewrite S2, S1, Hv, Ha, C1.
  change (obj w3 pcf_inputs_1_8) with (inputs_1_8 w).
  change (obj w3 pcf_inputs_9_16) with (inputs_9_16 w).
  change (clock w3) with (3 + clock w)%nat.
  destruct (is_valid (inputs_1_8 w)), (is_valid (inputs_9_16 w));
    reflexivity.
Qed.

(** X15.  Each entry of the inputs part of a state answer is sampled on
    its own.  The three sensor entries are the negated levels of the three
    pins, read in the order HT1, HT2, HT3 at the first three hardware
    accesses of the query.  Every input bit of a valid board then gets a
    bus read of its own, board 1-8 before board 9-16 and bit 0 first; the
    entry is True when that read delivers the bit as 0, and False when it
    delivers a 1 or when the read raises, which touches that one entry
    only. *)
Theorem X15_state_query_samples_each_input (hw : Hardware) (w : World) :
  exists relays inputs,
    fst (api_state_handler hw w) = Ok (Resp_json relays inputs) /\
    dict_get String.eqb inputs "HT1" =
      Some (negb (hw_pin hw (clock w) PIN_HT1)) /\
    dict_get String.eqb inputs "HT2" =
      Some (negb (hw_pin hw (1 + clock w) PIN_HT2)) /\
    dict_get String.eqb inputs "HT3" =
      Some (negb (hw_pin hw (2 + clock w) PIN_HT3)) /\
    (is_valid (inputs_1_8 w) = true ->
     forall i, 0 <= i < 8 ->
       dict_get String.eqb inputs (input_name 1 i) =
       Some (sampled hw (Z.to_nat i + (3 + clock w))
               (address (inputs_1_8 w)) i)) /\
    (is_valid (inputs_9_16 w) = true ->
     forall i, 0 <= i < 8 ->
       dict_get String.eqb inputs (input_name 9 i) =
       Some (sampled hw
               (Z.to_nat i +
                ((if is_valid (inputs_1_8 w) then 8 else 0) + (3 + clock w)))
               (address (inputs_9_16 w)) i)).
Proof.
  destruct (api_state_handler_inputs hw w) as (relays & E).
  rewrite E. eexists _, _. split; [reflexivity|].
  destruct (is_valid (inputs_1_8 w)), (is_valid (inputs_9_16 w));
    (split; [reflexivity|]); (split; [reflexivity|]);
    (split; [reflexivity|]);
    (split; [intros Hv i Hi | intros Hv i Hi]); try discriminate Hv;
    destruct (small_index i Hi) as [->|[->|[->|[->|[->|[->|[->| ->]]]]]]];
    reflexivity.
Qed.

Lemma X15_witness :
  exists relays inputs,
    fst (api_state_handler (hw_glitch 11) (booted (hw_glitch 11))) =
      Ok (Resp_json relays inputs) /\
    dict_get String.eqb inputs "X01" = Some false /\
    dict_get String.eqb inputs "X09" = Some true.
Proof.
  destruct (X15_state_query_samples_each_input
              (hw_glitch 11) (booted (hw_glitch 11)))
    as (relays & inputs & E & _ & _ & _ & HA & HB).
  exists relays, inputs. split; [exact E|]. split.
  - assert (Hv : is_valid (inputs_1_8 (booted (hw_glitch 11))) = true)
      by (vm_compute; reflexivity).
    assert (Hi : 0 <= 0 < 8) by lia.
    pose proof (HA Hv 0 Hi) as H. vm_compute in H. exact H.
  - assert (Hv : is_valid (inputs_9_16 (booted (hw_glitch 11))) = true)
      by (vm_compute; reflexivity).
    assert (Hi : 0 <= 0 < 8) by lia.
    pose proof (HB Hv 0 Hi) as H. vm_compute in H. exact H.
Defined.

(** ** The relays follow the control requests *)

Lemma dict_of_items_pure (items : list (list string)) : forall acc w w',
  fst (dict_of_items items acc w) = fst (dict_of_items items acc w').
Proof.
  induction items as [|item items IH]; intros acc w w'; [reflexivity|].
  destruct item as [|k [|v [|x l]]]; try reflexivity.
  simpl. apply IH.
Qed.

Lemma apply_control_bit hw (r s : option string) (relay_id : string)
    (d : dev) (p : Z) (w : World) :
  wf w = true ->
  resolve relay_id = Some (d, p) ->
  is_valid (obj w d) = true ->
  Z.testbit (value (obj (snd (apply_control hw r s w)) d)) p =
  if is_on_off s && (opt_eqb r "all" || opt_eqb r relay_id)
  then opt_eqb s "on"
  else Z.testbit (value (obj w d)) p.
Proof.
  intros Hw Hr Hv.
  destruct (outputs_map_pins relay_id d p Hr) as [Hp Hd].
  destruct (is_on_off s) eqn:Hst;
    [|rewrite apply_control_noop by assumption; reflexivity].
  destruct s as [st|]; [|discriminate].
  cbv beta iota delta [andb opt_eqb].
  destruct r as [id|];
    [|rewrite apply_control_unknown by reflexivity; reflexivity].
  destruct (String.eqb_spec id "all") as [->|Hne].
  - cbv beta iota delta [orb].
    rewrite (apply_control_all hw st w Hst).
    pose proof (all_loop hw (String.eqb st "on") w Hw) as H.
    unfold post in H. unfold bind, print.
    destruct (for_each (keys outputs_map) _ w) as [r0 w0].
    cbv beta iota delta [fst snd] in H |- *.
    destruct H as (-> & _ & _ & Hbits). cbv beta iota delta [snd].
    rewrite obj_add_line. apply (Hbits relay_id d p); auto.
    apply dict_get_In in Hr. unfold keys.
    change relay_id with (fst (relay_id, (d, p))). now apply in_map.
  - assert (Hall : String.eqb id "all" = false) by (now apply String.eqb_neq).
    cbv beta iota delta [orb].
    destruct (resolve id) as [[d' p']|] eqn:Hr'.
    + destruct (outputs_map_pins id d' p' Hr') as [Hp' _].
      destruct (registry_write hw d' p' (String.eqb st "on") w Hp' Hw)
        as (w0 & Heq & _ & _ & _ & Hframe & Hset & Hinv).
      rewrite (apply_control_single hw id st d' p' w Hr' Hall Hst).
      unfold bind, print. rewrite Heq. cbv beta iota delta [snd].
      rewrite obj_add_line.
      destruct (String.eqb_spec id relay_id) as [->|Hid].
      * rewrite Hr in Hr'. inversion Hr'. subst d' p'. now apply Hset.
      * apply Hframe; [lia|]. intros Heqp. apply Hid.
        apply (resolve_injective id relay_id (d, p)); congruence.
    + rewrite apply_control_unknown; [| exact Hall |].
      * destruct (String.eqb_spec id relay_id) as [->|Hid]; [congruence|].
        reflexivity.
      * simpl. unfold dict_mem. unfold resolve in Hr'. now rewrite Hr'.
Qed.

Lemma step_relay hw (ev : event) (relay_id : string) (d : dev) (p : Z)
    (w : World) :
  wf w = true ->
  resolve relay_id = Some (d, p) ->
  is_valid (obj w d) = true ->
  Z.testbit (value (obj (step hw ev w) d)) p =
  match command_for relay_id ev with
  | Some b => b
  | None => Z.testbit (value (obj w d)) p
  end.
Proof.
  intros Hw Hr Hv.
  destruct (outputs_map_pins relay_id d p Hr) as [Hp Hd].
  destruct ev as [path|].
  - unfold command_for, params_of, commands, step, handle_client.
    destruct (String.eqb (hd "" (split "?" path)) "/") eqn:Hbase.
    + unfold index_handler.
      destruct (contains "?" path) eqn:Hc; [|reflexivity].
      cbn [andb].
      pose proof (split_length "?" path Hc) as Hlen.
      destruct (split "?" path) as [|a [|query rest]];
        try (simpl in Hlen; lia).
      unfold try_except. unfold bind at 1. unfold index.
      cbv beta iota delta [nth_error]. unfold ret at 1.
      unfold bind at 1. unfold parsed.
      pose proof (dict_of_items_world
                    (map (split "=") (split "&" query)) [] w) as Hd1.
      rewrite (dict_of_items_pure _ [] World0 w).
      destruct (dict_of_items (map (split "=") (split "&" query)) [] w)
        as [[params|e] w1]; cbv beta iota delta [fst snd] in Hd1 |- *;
        subst w1.
      * unfold control. unfold bind at 1.
        pose proof (apply_control_ok hw
                      (dict_get String.eqb params "relay")
                      (dict_get String.eqb params "state") w Hw) as Hok.
        pose proof (apply_control_bit hw
                      (dict_get String.eqb params "relay")
                      (dict_get String.eqb params "state")
                      relay_id d p w Hw Hr Hv) as Hbit.
        destruct (apply_control hw _ _ w) as [r0 w1].
        cbv beta iota delta [fst snd] in Hok, Hbit. subst r0.
        unfold ret. cbv beta iota delta [snd]. rewrite Hbit.
        destruct (is_on_off _ && _); reflexivity.
      * unfold bind, print, ret. cbv beta iota delta [snd].
        now rewrite obj_add_line.
    + cbn [andb].
      destruct (String.eqb (hd "" (split "?" path)) "/api/state");
        [|reflexivity].
      destruct (api_state_handler_spec hw w) as (i & w1 & E & _ & Ho & _).
      rewrite E. cbv beta iota delta [snd].
      destruct (Ho d) as (_ & _ & H). now rewrite H.
  - unfold command_for, params_of, step.
    destruct (scan_keys_pass_keeps hw w Hw) as [_ Ho].
    destruct (Ho d) as (_ & _ & H). now rewrite H.
Qed.

Lemma run_relay hw (relay_id : string) (d : dev) (p : Z) (evs : list event) :
  resolve relay_id = Some (d, p) ->
  forall w,
    reachable hw w ->
    is_valid (obj w d) = true ->
    Z.testbit (value (obj (run hw evs w) d)) p =
    last_command relay_id evs (Z.testbit (value (obj w d)) p).
Proof.
  intros Hr. induction evs as [|ev evs IH]; intros w Hre Hv; [reflexivity|].
  unfold run, last_command. cbn [fold_left].
  fold (run hw evs (step hw ev w)).
  rewrite <- (step_relay hw ev relay_id d p w (reachable_wf hw w Hre) Hr Hv).
  apply IH; [now constructor|].
  destruct ev as [path|]; unfold step.
  - destruct (handle_client_frame hw path w (reachable_wf hw w Hre))
      as [F _].
    destruct (F d) as [-> _]. exact Hv.
  - destruct (scan_keys_pass_keeps hw w (reachable_wf hw w Hre)) as [_ Ho].
    destruct (Ho d) as (-> & _). exact Hv.
Qed.

Lemma reachable_run hw (evs : list event) : forall w,
  reachable hw w -> reachable hw (run hw evs w).
Proof.
  induction evs as [|ev evs IH]; intros w Hre; [exact Hre|].
  apply (IH (step hw ev w)). now constructor.
Qed.

Lemma reachable_valid hw (w : World) (d : dev) :
  reachable hw w -> is_valid (obj w d) = scan_ok hw (ctor_clock d).
Proof.
  induction 1 as [|w ev Hre IH].
  - destruct (booted_exact hw) as (_ & F & _). apply F.
  - pose proof (reachable_wf hw w Hre) as Hw.
    destruct ev as [path|]; unfold step.
    + destruct (handle_client_frame hw path w Hw) as [F _].
      destruct (F d) as [-> _]. exact IH.
    + destruct (scan_keys_pass_keeps hw w Hw) as [_ Ho].
      destruct (Ho d) as (-> & _). exact IH.
Qed.

(** X16.  The relays follow the control requests and nothing else.  After
    start-up and any sequence of requests and scan passes, whatever the
    bus does, the state query reports a relay on a valid output board
    according to the last control request in the sequence whose query
    parses, whose state is "on" or "off" and whose relay is "all" or that
    relay: "on" or "off" as that request said, and "on" if there was no
    such request.  A relay on an output board that is not valid is always
    reported "on". *)
Theorem X16_relay_follows_last_command (hw hw' : Hardware)
    (evs : list event) (relay_id : string) (d : dev) (p : Z) :
  resolve relay_id = Some (d, p) ->
  reported hw' (run hw evs (booted hw)) relay_id =
  Some (if scan_ok hw (ctor_clock d) && negb (last_command relay_id evs true)
        then "off" else "on").
Proof.
  intros Hr.
  destruct (outputs_map_pins relay_id d p Hr) as [Hp Hd].
  pose proof (reach_boot hw) as Hb.
  pose proof (reachable_run hw evs _ Hb) as Hre.
  rewrite (reported_shown hw' _ relay_id d p Hr). f_equal.
  destruct (scan_ok hw (ctor_clock d)) eqn:Hs; cbn [andb].
  - unfold shown.
    rewrite (run_relay hw relay_id d p evs Hr (booted hw) Hb)
      by (now rewrite (reachable_valid hw _ d Hb)).
    assert (Hinit : Z.testbit (value (obj (booted hw) d)) p = true).
    { destruct (booted_outputs hw) as (_ & H1 & H2).
      destruct Hd as [-> | ->]; cbn [obj]; rewrite ?H1, ?H2;
        now apply testbit_0xFF. }
    rewrite Hinit. now destruct (last_command relay_id evs true).
  - apply wf_invalid_shown; [now apply (reachable_wf hw) | | exact Hp].
    now rewrite (reachable_valid hw _ d Hre).
Qed.

Lemma X16_witness :
  reported hw_ok
    (run hw_deaf [Ev_http "/?relay=all&state=off"; Ev_scan;
                  Ev_http "/?state=on&relay=5"; Ev_http "/api/state";
                  Ev_http "/?relay=6&state=toggle"]
       (booted hw_deaf)) "5" = Some "on" /\
  last_command "6" [Ev_http "/?relay=all&state=off"; Ev_scan;
                  Ev_http "/?state=on&relay=5"; Ev_http "/api/state";
                  Ev_http "/?relay=6&state=toggle"] true = false.
Proof.
  split; [|reflexivity].
  exact (X16_relay_follows_last_command hw_deaf hw_ok
           [Ev_http "/?relay=all&state=off"; Ev_scan;
            Ev_http "/?state=on&relay=5"; Ev_http "/api/state";
            Ev_http "/?relay=6&state=toggle"] "5" pcf_outputs_1_8 4
           eq_refl).
Defined.

(** ** Joining the network *)

Local Open Scope nat_scope.

Lemma wait_connected_S (f : nat -> bool) (n : nat) (s : Wlan) :
  wait_connected f (S n) s =
  if f (asked s)
  then mkWlan (S (asked s)) (slept s) (connects s) (net_out s)
  else wait_connected f n
         (mkWlan (S (asked s)) (S (slept s)) (connects s) (net_out s)).
Proof. reflexivity. Qed.

(** The loop of [do_connect]: it stops at the first positive answer or
    after [n] sleeps. *)
Lemma wait_connected_spec (f : nat -> bool) (n : nat) : forall s,
  let s' := wait_connected f n s in
  connects s' = connects s /\ net_out s' = net_out s /\
  (slept s' - slept s <= n) /\ slept s <= slept s' /\
  (forall k, k < slept s' - slept s -> f (asked s + k) = false) /\
  ((slept s' - slept s < n /\ f (asked s + (slept s' - slept s)) = true /\
    asked s' = S (asked s + (slept s' - slept s))) \/
   (slept s' - slept s = n /\ asked s' = asked s + n)).
Proof.
  induction n as [|n IH]; intros s.
  - cbv zeta. cbn [wait_connected]. repeat split; lia.
  - rewrite wait_connected_S.
    destruct (f (asked s)) eqn:E; cbv beta iota zeta;
      cbn [asked slept connects net_out].
    + rewrite Nat.sub_diag, Nat.add_0_r.
      repeat split; try lia. left. repeat split; try lia. exact E.
    + specialize (IH (mkWlan (S (asked s)) (S (slept s)) (connects s)
                             (net_out s))).
      cbv zeta in IH. cbn [asked slept connects net_out] in IH.
      destruct IH as (Hc & Ho & Hle & Hge & Hf & Hend).
      set (s' := wait_connected f n _) in *.
      split; [exact Hc|]. split; [exact Ho|].
      split; [lia|]. split; [lia|]. split.
      * intros k Hk. destruct k as [|k]; [now rewrite Nat.add_0_r|].
        replace (asked s + S k) with (S (asked s) + k) by lia.
        apply Hf. lia.
      * destruct Hend as [(Hlt & Ht & Ha) | (He & Ha)].
        -- left. split; [lia|].
           replace (slept s' - slept s) with (S (slept s' - S (slept s)))
             by lia.
           replace (asked s + S (slept s' - S (slept s)))
             with (S (asked s) + (slept s' - S (slept s))) by lia.
           split; [exact Ht | exact Ha].
        -- right. lia.
Qed.

Lemma do_connect_run (f : nat -> bool) :
  do_connect f wlan0 =
  if f 0 then mkWlan 1 0 0 []
  else
    let s3 := wait_connected f 10 (mkWlan 1 0 1 [Net_connecting]) in
    mkWlan (S (asked s3)) (slept s3) (connects s3)
           (net_out s3 ++ [if f (asked s3) then Net_config else Net_failed]).
Proof.
  unfold do_connect, isconnected, wlan0, connect, net_print.
  cbn [asked slept connects net_out app].
  destruct (f 0); cbv beta iota zeta delta [negb]; [reflexivity|].
  destruct (f (asked _)); reflexivity.
Qed.

(** X17.  [do_connect] gives up after ten seconds.  If the station is
    already connected at the first question, nothing else happens: no
    connect, no sleep, nothing printed.  Otherwise it calls connect once
    and sleeps one second after every negative answer, at most ten times,
    stopping at the first positive one; it then asks once more, and what it
    prints is decided by that last answer alone, not by the one that ended
    the wait. *)
Theorem X17_do_connect_gives_up_after_ten_seconds (f : nat -> bool) :
  let s := do_connect f wlan0 in
  (f 0 = true -> s = mkWlan 1 0 0 []) /\
  (f 0 = false ->
   connects s = 1 /\ slept s <= 10 /\
   (forall k, k < slept s -> f (S k) = false) /\
   (slept s < 10 -> f (S (slept s)) = true /\ asked s = slept s + 3) /\
   (slept s = 10 -> asked s = 12) /\
   net_out s = [Net_connecting;
                if f (asked s - 1) then Net_config else Net_failed]).
Proof.
  cbv zeta. rewrite do_connect_run.
  destruct (f 0) eqn:E0; (split; intros H0); try discriminate H0;
    [reflexivity|]. clear H0.
  pose proof (wait_connected_spec f 10 (mkWlan 1 0 1 [Net_connecting])) as H.
  cbv zeta in H |- *.
  set (s3 := wait_connected f 10 _) in *.
  cbn [asked slept connects net_out] in H |- *.
  rewrite Nat.sub_0_r in H.
  destruct H as (Hc & Ho & Hle & _ & Hf & Hend).
  replace (S (asked s3) - 1) with (asked s3) by lia. rewrite Ho.
  split; [exact Hc|]. split; [exact Hle|]. split; [exact Hf|].
  split; [|split; [|reflexivity]].
  - intros Hlt. destruct Hend as [(_ & Ht & Ha) | (He & _)]; [|lia].
    split; [exact Ht | lia].
  - intros He. destruct Hend as [(Hlt & _) | (_ & Ha)]; lia.
Qed.

Lemma X17_witness :
  let f := fun k => Nat.eqb k 3 in
  let s := do_connect f wlan0 in
  connects s = 1 /\ slept s <= 10 /\
  (forall k, k < slept s -> f (S k) = false) /\
  (slept s < 10 -> f (S (slept s)) = true /\ asked s = slept s + 3) /\
  (slept s = 10 -> asked s = 12) /\
  net_out s = [Net_connecting; Net_failed].
Proof.
  exact (proj2 (X17_do_connect_gives_up_after_ten_seconds
                  (fun k => Nat.eqb k 3)) eq_refl).
Defined.

Local Close Scope nat_scope.

(** ** Start-up: the bus traffic and the first snapshots *)

(** X18.  The bus traffic of start-up is, in this order: the four
    constructor scans, one write to each valid output board, one read of
    each valid input board.  The scan task's snapshot of a valid input
    board is the byte of that read, or None when the read raised; a board
    that is not valid gets no snapshot. *)
Theorem X18_startup_snapshots (hw : Hardware) :
  let t1 := (4 + one_if (scan_ok hw 2) + one_if (scan_ok hw 3))%nat in
  let t2 := (t1 + one_if (scan_ok hw 0))%nat in
  prev_state (booted hw) =
    (if scan_ok hw 0
     then [(ADDR_INPUTS_1_8, read_byte hw t1 ADDR_INPUTS_1_8)] else []) ++
    (if scan_ok hw 1
     then [(ADDR_INPUTS_9_16, read_byte hw t2 ADDR_INPUTS_9_16)] else []) /\
  clock (booted hw) = (t2 + one_if (scan_ok hw 1))%nat.
Proof.
  unfold booted, boot, module_init, main, scan_keys_start, PCF8574_init,
    scan_ok, read_byte, one_if.
  cbv - [hw_scan hw_readfrom hw_writeto Byte.to_N Z.of_N].
  destruct (hw_scan hw 0), (hw_scan hw 1), (hw_scan hw 2), (hw_scan hw 3);
    cbv - [hw_scan hw_readfrom hw_writeto Byte.to_N Z.of_N];
    repeat match goal with
           | |- context [hw_writeto hw ?t ?a ?v] =>
               destruct (hw_writeto hw t a v);
               cbv - [hw_scan hw_readfrom hw_writeto Byte.to_N Z.of_N]
           | |- context [hw_readfrom hw ?t ?a] =>
               destruct (hw_readfrom hw t a);
               cbv - [hw_scan hw_readfrom hw_writeto Byte.to_N Z.of_N]
           end;
    split; reflexivity.
Qed.

(** ** The control request: repeated parameters *)

Lemma dict_get_set_string {V} (d : dict string V) (k k' : string) (v : V) :
  dict_get String.eqb (dict_set String.eqb d k' v) k =
  if String.eqb k k' then Some v else dict_get String.eqb d k.
Proof.
  induction d as [|[k0 v0] d IH]; simpl.
  - reflexivity.
  - destruct (String.eqb_spec k' k0) as [->|Hne]; simpl.
    + destruct (String.eqb k k0); reflexivity.
    + rewrite IH. destruct (String.eqb_spec k k0) as [->|Hne'].
      * destruct (String.eqb_spec k0 k') as [->|]; [congruence | reflexivity].
      * reflexivity.
Qed.

Lemma dict_of_items_last (items : list (list string)) :
  Forall (fun item => List.length item = 2%nat) items ->
  forall acc w,
  exists d,
    dict_of_items items acc w = (Ok d, w) /\
    forall k, dict_get String.eqb d k =
              last_value k items (dict_get String.eqb acc k).
Proof.
  induction 1 as [|item items Hl _ IH]; intros acc w.
  - exists acc. split; reflexivity.
  - destruct item as [|k0 [|v0 [|x l]]]; try discriminate Hl.
    destruct (IH (dict_set String.eqb acc k0 v0) w) as (d & E & Hd).
    exists d. split; [exact E|].
    intros k. rewrite Hd, dict_get_set_string. reflexivity.
Qed.

(** X19.  When every item of the query has the form key=value, the index
    handler answers 200 OK and does exactly what [apply_control] does for
    the relay and state of the last item with key "relay" and the last
    item with key "state"; a parameter that no item gives is missing
    (None). *)
Theorem X19_repeated_parameter_last_wins (hw : Hardware) (path : string)
    (w : World) :
  wf w = true ->
  contains "?" path = true ->
  let items := map (split "=") (split "&" (nth 1 (split "?" path) "")) in
  Forall (fun item => List.length item = 2%nat) items ->
  index_handler hw path w =
  (Ok Resp_OK,
   snd (apply_control hw (last_value "relay" items None)
          (last_value "state" items None) w)).
Proof.
  intros Hw Hc items Hf.
  unfold index_handler. rewrite Hc.
  pose proof (split_length "?" path Hc) as Hlen.
  unfold items in *. clear items.
  destruct (split "?" path) as [|a [|query rest]]; try (simpl in Hlen; lia).
  cbn [nth] in Hf |- *.
  destruct (dict_of_items_last _ Hf [] w) as (d & E & Hd).
  unfold try_except. unfold bind at 1. unfold index.
  cbv beta iota delta [nth_error]. unfold ret at 1.
  unfold bind at 1. rewrite E. unfold control. unfold bind at 1.
  rewrite !Hd. cbn [dict_get].
  set (items := map (split "=") (split "&" query)) in *.
  pose proof (apply_control_ok hw (last_value "relay" items None)
                (last_value "state" items None) w Hw) as Hok.
  destruct (apply_control hw _ _ w) as [r w1].
  cbn [fst snd] in Hok |- *. subst r. reflexivity.
Qed.

Lemma X19_witness :
  index_handler hw_ok "/?relay=1&state=on&relay=2&state=off" (booted hw_ok) =
  (Ok Resp_OK,
   snd (apply_control hw_ok (Some "2") (Some "off") (booted hw_ok))).
Proof.
  assert (Hw : wf (booted hw_ok) = true) by (vm_compute; reflexivity).
  assert (Hc : contains "?" "/?relay=1&state=on&relay=2&state=off" = true)
    by reflexivity.
  pose proof (X19_repeated_parameter_last_wins hw_ok
                "/?relay=1&state=on&relay=2&state=off" (booted hw_ok) Hw Hc)
    as H.
  cbv zeta in H.
  change (map (split "=")
            (split "&"
               (nth 1 (split "?" "/?relay=1&state=on&relay=2&state=off") "")))
    with [["relay"; "1"]; ["state"; "on"]; ["relay"; "2"]; ["state"; "off"]]
    in H.
  change (last_value "relay" _ None) with (Some "2") in H.
  change (last_value "state" _ None) with (Some "off") in H.
  apply H. repeat constructor.
Defined.

(** ** C5: the edge trigger *)

Lemma dict_get_set_other {V} (d : dict Z V) (k a : Z) (v : V) :
  a <> k ->
  dict_get Z.eqb (dict_set Z.eqb d k v) a = dict_get Z.eqb d a.
Proof.
  intros Hne. induction d as [|[k' v'] d IH]; simpl.
  - destruct (Z.eqb_spec a k); [contradiction | reflexivity].
  - destruct (Z.eqb_spec k k') as [->|Hk]; simpl.
    + destruct (Z.eqb_spec a k'); [contradiction | reflexivity].
    + rewrite IH. reflexivity.
Qed.

Lemma edges_address (addr before cur : Z) (bits : list Z) :
  Forall (fun x => snd (fst x) = addr) (edges addr before cur bits).
Proof.
  apply Forall_forall. intros x Hx.
  apply In_edges in Hx. destruct Hx as (i & r & -> & _). reflexivity.
Qed.

(** Whatever a scan of one board does, the toggles it reports are toggles
    of that board, and it touches no other board's snapshot. *)
Lemma scan_device_any hw (addr : Z) (pcf : dev) (w : World) :
  In (addr, pcf) pcf_inputs -> wf w = true ->
  let w' := snd (scan_device hw addr pcf w) in
  (exists t, emits w w' t /\ Forall (fun x => snd (fst x) = addr) t) /\
  (forall a, a <> addr ->
     dict_get Z.eqb (prev_state w') a = dict_get Z.eqb (prev_state w) a).
Proof.
  intros Hin Hw.
  destruct (scan_device hw addr pcf w) as [res w'] eqn:E.
  cbv beta iota zeta delta [snd].
  unfold scan_device in E. unfold bind at 1 in E. unfold get_obj at 1 in E.
  destruct (is_valid (obj w pcf)); cbv beta iota delta [negb] in E.
  2:{ inversion E; subst. split; [|reflexivity].
      exists []. split; [apply emits_refl | constructor]. }
  pose proof (read_all_wf hw pcf w Hw) as Hw1.
  destruct (read_all_spec hw pcf w) as (r & w1 & Heq & Hq & _).
  rewrite Heq in Hw1. cbv beta iota delta [snd] in Hw1.
  assert (Hp1 : prev_state w1 = prev_state w) by (destruct Hq; assumption).
  apply quiet_emits in Hq.
  assert (Hnone : (exists t, emits w w1 t /\
                             Forall (fun x => snd (fst x) = addr) t) /\
                  (forall a, a <> addr ->
                     dict_get Z.eqb (prev_state w1) a =
                     dict_get Z.eqb (prev_state w) a)).
  { split; [exists []; split; [exact Hq | constructor]|].
    intros a _. now rewrite Hp1. }
  unfold bind at 1 in E. rewrite Heq in E.
  destruct r as [cur|]; [|inversion E; subst; exact Hnone].
  unfold bind at 1 in E. unfold get_prev at 1 in E.
  unfold bind at 1 in E. unfold subscript at 1 in E.
  destruct (dict_get Z.eqb (prev_state w1) addr) as [before|] eqn:Hget;
    [|inversion E; subst; exact Hnone].
  unfold ret at 1 in E. unfold bind at 1 in E. unfold xor at 1 in E.
  destruct before as [before|]; [|inversion E; subst; exact Hnone].
  unfold ret at 1 in E.
  destruct (scan_bits_spec hw addr pcf before cur w1 Hin Hw1)
    as (w2 & Hloop & _ & Hp2 & He2).
  unfold bind at 1 in E. rewrite Hloop in E.
  unfold bind, get_prev, put_prev in E. inversion E; subst. split.
  - exists (edges addr before cur (range 8)).
    split; [|apply edges_address].
    pose proof (emits_trans _ _ _ _ _ Hq He2) as He.
    destruct He as (extra & Hs & Hf). exists extra. split; assumption.
  - intros a Ha. rewrite prev_set_prev, dict_get_set_other by assumption.
    now rewrite Hp2, Hp1.
Qed.

Lemma filter_address_same (addr : Z) (t : list (Z * Z * string)) :
  Forall (fun x => snd (fst x) = addr) t ->
  filter (fun x => Z.eqb (snd (fst x)) addr) t = t.
Proof.
  induction 1 as [|x t Hx _ IH]; simpl; [reflexivity|].
  rewrite Hx, Z.eqb_refl, IH. reflexivity.
Qed.

Lemma filter_address_other (addr a : Z) (t : list (Z * Z * string)) :
  a <> addr ->
  Forall (fun x => snd (fst x) = a) t ->
  filter (fun x => Z.eqb (snd (fst x)) addr) t = [].
Proof.
  intros Hne. induction 1 as [|x t Hx _ IH]; simpl; [reflexivity|].
  rewrite Hx. destruct (Z.eqb_spec a addr); [contradiction | exact IH].
Qed.

Lemma reachable_address hw (w : World) (d : dev) :
  reachable hw w -> address (obj w d) = addr_of d.
Proof.
  induction 1 as [|w ev Hre IH].
  - destruct (booted_exact hw) as (_ & F & _). apply F.
  - pose proof (reachable_wf hw w Hre) as Hw.
    destruct ev as [path|]; unfold step.
    + destruct (handle_client_frame hw path w Hw) as [F _].
      destruct (F d) as [_ ->]. exact IH.
    + destruct (scan_keys_pass_keeps hw w Hw) as [_ Ho].
      destruct (Ho d) as (_ & -> & _). exact IH.
Qed.

(** One pass over a store in which board 0x22 has a snapshot and reads
    successfully. *)
Lemma scan_keys_pass_first_board hw (w : World) (before : Z) (b : Byte.byte) :
  wf w = true ->
  is_valid (obj w pcf_inputs_1_8) = true ->
  address (obj w pcf_inputs_1_8) = ADDR_INPUTS_1_8 ->
  dict_get Z.eqb (prev_state w) ADDR_INPUTS_1_8 = Some (Some before) ->
  hw_readfrom hw (clock w) ADDR_INPUTS_1_8 = Some b ->
  let cur := Z.of_N (Byte.to_N b) in
  let w' := snd (scan_keys_pass hw w) in
  dict_get Z.eqb (prev_state w') ADDR_INPUTS_1_8 = Some (Some cur) /\
  exists t,
    fired w w' = edges ADDR_INPUTS_1_8 before cur (range 8) ++ t /\
    Forall (fun x => snd (fst x) = ADDR_INPUTS_9_16) t.
Proof.
  intros Hw Hv Ha Hp Hr cur w'.
  destruct (scan_device_spec hw ADDR_INPUTS_1_8 pcf_inputs_1_8 before b w)
    as (w1 & E1 & He1 & Hp1 & _ & Hw1); try assumption; [left; reflexivity|].
  fold cur in He1, Hp1.
  assert (Hin2 : In (ADDR_INPUTS_9_16, pcf_inputs_9_16) pcf_inputs)
    by (right; left; reflexivity).
  pose proof (scan_device_any hw ADDR_INPUTS_9_16 pcf_inputs_9_16 w1 Hin2 Hw1)
    as Hany.
  cbv zeta in Hany. destruct Hany as ((t & He2 & Ht) & Hk).
  assert (Hne : ADDR_INPUTS_1_8 <> ADDR_INPUTS_9_16) by discriminate.
  specialize (Hk ADDR_INPUTS_1_8 Hne).
  assert (E : exists w2,
            w' = w2 /\ prev_state w2 =
                       prev_state (snd (scan_device hw ADDR_INPUTS_9_16
                                          pcf_inputs_9_16 w1)) /\
            emits (snd (scan_device hw ADDR_INPUTS_9_16 pcf_inputs_9_16 w1))
                  w2 []).
  { unfold w', scan_keys_pass, try_except, pcf_inputs.
    cbv beta iota delta [for_each fst snd]. unfold bind at 1.
    rewrite E1. unfold bind at 1.
    destruct (scan_device hw ADDR_INPUTS_9_16 pcf_inputs_9_16 w1)
      as [[[]|e] w2]; cbv beta iota delta [snd ret].
    - eexists. split; [reflexivity|]. split; [reflexivity|]. apply emits_refl.
    - eexists. split; [reflexivity|]. split; [reflexivity|].
      exists [Log_error_scan e]. split; reflexivity. }
  destruct E as (w2 & -> & Hp2 & He3).
  split; [rewrite Hp2, Hk; exact Hp1|].
  exists t. split; [|exact Ht].
  apply emits_fired.
  pose proof (emits_trans _ _ _ _ _ He1 (emits_trans _ _ _ _ _ He2 He3)) as H.
  now rewrite app_nil_r in H.
Qed.

(** C5.  What a scan pass does on the edges of board 0x22, in any store the
    running system can reach in which that board is valid, has a snapshot
    and is read successfully.  The pass makes the byte read the new
    snapshot, and it runs the toggle of lines 399-405 exactly once for
    every bit of the board that was 1 in the previous snapshot and is 0
    now, on the relay the registry maps that bit to, and for no other bit
    of the board: once for bit 0 from 0xFF to 0xFE, not at all from 0xFE
    to 0xFE, once for bit 1 and not for bit 0 from 0xFE to 0xFC.  But no
    toggle changes a relay: line 402 reads the relay's state with the
    inverted convention and line 404 writes the negated state with the
    direct convention of [write_pin], which is the bit the cache already
    holds.  After the pass both output objects are what they were and the
    state query reports every relay as before. *)
Theorem C5_edge_toggle_changes_no_relay (hw : Hardware) (w : World)
    (before : Z) (b : Byte.byte) :
  reachable hw w ->
  is_valid (obj w pcf_inputs_1_8) = true ->
  dict_get Z.eqb (prev_state w) ADDR_INPUTS_1_8 = Some (Some before) ->
  hw_readfrom hw (clock w) ADDR_INPUTS_1_8 = Some b ->
  let cur := Z.of_N (Byte.to_N b) in
  let w' := step hw Ev_scan w in
  dict_get Z.eqb (prev_state w') ADDR_INPUTS_1_8 = Some (Some cur) /\
  fired_on ADDR_INPUTS_1_8 w w' =
    edges ADDR_INPUTS_1_8 before cur (range 8) /\
  obj w' pcf_outputs_1_8 = obj w pcf_outputs_1_8 /\
  obj w' pcf_outputs_9_16 = obj w pcf_outputs_9_16 /\
  forall hw' relay_id, reported hw' w' relay_id = reported hw' w relay_id.
Proof.
  intros Hre Hv Hp Hr cur w'.
  pose proof (reachable_wf hw w Hre) as Hw.
  pose proof (reachable_address hw w pcf_inputs_1_8 Hre) as Ha.
  destruct (scan_keys_pass_first_board hw w before b Hw Hv Ha Hp Hr)
    as (Hsnap & t & Hf & Ht).
  destruct (scan_keys_pass_keeps hw w Hw) as [_ Ho].
  change (snd (scan_keys_pass hw w)) with w' in Hsnap, Hf, Ho.
  split; [exact Hsnap|]. split.
  - unfold fired_on. rewrite Hf, filter_app.
    rewrite (filter_address_same _ _ (edges_address _ _ _ _)).
    rewrite (filter_address_other ADDR_INPUTS_1_8 ADDR_INPUTS_9_16 t)
      by (discriminate || assumption).
    apply app_nil_r.
  - destruct (Ho pcf_outputs_1_8) as (_ & _ & H1).
    destruct (Ho pcf_outputs_9_16) as (_ & _ & H2).
    split; [apply H1; auto|]. split; [apply H2; auto|].
    intros hw' relay_id. now apply reported_inputs_only.
Qed.

Lemma C5_witness :
  let hw := hw_keys in
  let w0 := booted hw in
  let w1 := step hw Ev_scan w0 in
  let w2 := step hw Ev_scan w1 in
  let w3 := step hw Ev_scan w2 in
  (fired_on ADDR_INPUTS_1_8 w0 w1 = [(0, ADDR_INPUTS_1_8, "1")] /\
   fired_on ADDR_INPUTS_1_8 w1 w2 = [] /\
   fired_on ADDR_INPUTS_1_8 w2 w3 = [(1, ADDR_INPUTS_1_8, "2")]) /\
  (reported hw w0 "1" = Some "on" /\ reported hw w1 "1" = reported hw w0 "1") /\
  (reported hw w2 "2" = Some "on" /\ reported hw w3 "2" = reported hw w2 "2") /\
  skipn (List.length (stdout w0)) (stdout w1) =
    [Log_triggered 0 ADDR_INPUTS_1_8 "1" true] /\
  value (outputs_1_8 w0) = 0xFF /\ value (outputs_1_8 w3) = 0xFF.
Proof.
  intros hw w0 w1 w2 w3.
  assert (R0 : reachable hw w0) by apply reach_boot.
  assert (R1 : reachable hw w1) by (apply reach_step; exact R0).
  assert (R2 : reachable hw w2) by (apply reach_step; exact R1).
  assert (V0 : is_valid (obj w0 pcf_inputs_1_8) = true)
    by (vm_compute; reflexivity).
  assert (V1 : is_valid (obj w1 pcf_inputs_1_8) = true)
    by (vm_compute; reflexivity).
  assert (V2 : is_valid (obj w2 pcf_inputs_1_8) = true)
    by (vm_compute; reflexivity).
  assert (P0 : dict_get Z.eqb (prev_state w0) ADDR_INPUTS_1_8 =
               Some (Some 0xFF)) by (vm_compute; reflexivity).
  assert (P1 : dict_get Z.eqb (prev_state w1) ADDR_INPUTS_1_8 =
               Some (Some 0xFE)) by (vm_compute; reflexivity).
  assert (P2 : dict_get Z.eqb (prev_state w2) ADDR_INPUTS_1_8 =
               Some (Some 0xFE)) by (vm_compute; reflexivity).
  assert (H0 : hw_readfrom hw (clock w0) ADDR_INPUTS_1_8 = Some Byte.xfe)
    by (vm_compute; reflexivity).
  assert (H1 : hw_readfrom hw (clock w1) ADDR_INPUTS_1_8 = Some Byte.xfe)
    by (vm_compute; reflexivity).
  assert (H2 : hw_readfrom hw (clock w2) ADDR_INPUTS_1_8 = Some Byte.xfc)
    by (vm_compute; reflexivity).
  destruct (C5_edge_toggle_changes_no_relay hw w0 0xFF Byte.xfe R0 V0 P0 H0)
    as (_ & F0 & _ & _ & Q0).
  destruct (C5_edge_toggle_changes_no_relay hw w1 0xFE Byte.xfe R1 V1 P1 H1)
    as (_ & F1 & _ & _ & _).
  destruct (C5_edge_toggle_changes_no_relay hw w2 0xFE Byte.xfc R2 V2 P2 H2)
    as (_ & F2 & _ & _ & Q2).
  split; [|split; [|split]].
  - split; [exact F0|]. split; [exact F1 | exact F2].
  - split; [vm_compute; reflexivity | apply Q0].
  - split; [vm_compute; reflexivity | apply Q2].
  - vm_compute. repeat split.
Defined.
